(** * Userbase server: the user controller over a conditional-write store

    A shallow embedding of [userbase-server/user.js]: password checking with
    its lockout, sign-up, sign-in and sign-out, the key validation step and
    the Stripe subscription fields of a user item, written against a small
    model of the DynamoDB document client (conditional put and update).

    Conventions. A route is a function of its request, of the random draws
    and the clock reading it makes, and of the store; calls to the logger
    are left out, having no effect on the store or on the answer. One call
    reads the clock once. A write whose promise is not awaited lands at
    once, its outcome unseen. The modules the controller imports and that
    are not part of these sources (hashing, the app and admin controllers,
    the utilities) are an interface; the table of status codes is kept by
    name and the two response builders as constructors. *)

From Stdlib Require Import ZArith Bool Ascii String List Lia.
From stdpp Require Import base option gmap strings list fin_maps.

Local Open Scope string_scope.
Local Open Scope Z_scope.

(** ** JavaScript values held by items and request bodies *)

Module Js.

(** The values the controller stores in an item or reads from a request.
    [ADate ms] stands for the ISO-8601 string that [toISOString] prints for
    the instant [ms] (milliseconds since the epoch); [ABin] is a [Buffer];
    [AObj] is a flat object such as a profile, whose values are scalars. *)
Inductive scalar :=
| SStr (s : string)
| SNum (n : Z)
| SBool (b : bool)
| SNull.

Inductive attr :=
| AStr (s : string)
| ANum (n : Z)
| ABool (b : bool)
| ADate (ms : Z)
| ABin (bytes : string)
| AObj (kv : list (string * scalar)).

#[global] Instance scalar_eq_dec : EqDecision scalar.
Proof. solve_decision. Defined.

#[global] Instance attr_eq_dec : EqDecision attr.
Proof. solve_decision. Defined.

(** [!!v]: a missing property is [undefined]; the empty string, [0] and
    [false] are falsy, buffers and objects never are. *)
Definition truthy (v : option attr) : bool :=
  match v with
  | None => false
  | Some (AStr s) => negb (String.eqb s "")
  | Some (ANum n) => negb (n =? 0)
  | Some (ABool b) => b
  | Some (ADate _) => true
  | Some (ABin _) => true
  | Some (AObj _) => true
  end.

(** [a === b] on property reads. *)
Definition strict_eq (a b : option attr) : bool := bool_decide (a = b).

(** [new Date(v).getTime()]: [None] is the time value NaN of an invalid
    date, which is what [undefined] and unparseable strings give. *)
Definition Date_of (v : option attr) : option Z :=
  match v with
  | Some (ADate ms) => Some ms
  | Some (ANum n) => Some n
  | _ => None
  end.

(** [now - d < bound] and [now - d > bound]; every comparison with NaN is
    false. *)
Definition elapsed_lt (now : Z) (d : option Z) (bound : Z) : bool :=
  match d with Some t => now - t <? bound | None => false end.

Definition elapsed_gt (now : Z) (d : option Z) (bound : Z) : bool :=
  match d with Some t => now - t >? bound | None => false end.

(** [v >= k] for a stored counter, which the store returns as a number:
    [undefined >= k] is false, a boolean counts as 0 or 1, and the other
    kinds of value (dates, buffers, objects) convert to NaN. *)
Definition num_ge (v : option attr) (k : Z) : bool :=
  match v with
  | Some (ANum n) => k <=? n
  | Some (ABool b) => k <=? (if b then 1 else 0)
  | _ => false
  end.

Definition lower_ascii (c : ascii) : ascii :=
  let n := nat_of_ascii c in
  if ((65 <=? n)%nat && (n <=? 90)%nat)%bool then ascii_of_nat (n + 32) else c.

(** [s.toLowerCase()] on the ASCII range. *)
Fixpoint toLowerCase (s : string) : string :=
  match s with
  | EmptyString => EmptyString
  | String c r => String (lower_ascii c) (toLowerCase r)
  end.

(** The entries of the imported [statusCodes] table the controller uses,
    by name; all of them are truthy. *)
Inductive status_code :=
| Success | BadRequest | Unauthorized | PaymentRequired | Forbidden
| NotFound | Conflict | InternalServerError.

#[global] Instance status_code_eq_dec : EqDecision status_code.
Proof. solve_decision. Defined.

(** What a [throw] carries in this controller. Properties that only reach
    the log (deleted ids and the like) are left out. *)
Inductive exn :=
| JsError (name message : string)
    (* an [Error] instance: [new Error(message)] has name "Error", the
       store client rejects with named errors *)
| VStr (s : string)
    (* a thrown string *)
| VObj (error : string) (fields : list (string * scalar))
    (* an object literal [{ error, ...fields }] *)
| VHttp (status : status_code) (message : exn)
    (* [{ status, error: { message } }] *)
| VNamed (status : status_code) (name : string) (fields : list (string * option attr)).
    (* [{ status, error: { name, ...fields } }] *)

#[global] Instance exn_eq_dec : EqDecision exn.
Proof. solve_decision. Defined.

(** [e.name] and [e.message]; [undefined] on values that are not errors. *)
Definition exn_name (e : exn) : option string :=
  match e with JsError n _ => Some n | _ => None end.

Definition exn_message (e : exn) : option string :=
  match e with JsError _ m => Some m | _ => None end.

Definition Error (message : string) : exn := JsError "Error" message.

End Js.
Export Js.

(** ** The document client *)

Module Ddb.

Abbreviation item := (gmap string attr).

(** [ConditionExpression], with its names and values substituted. *)
Inductive cond :=
| attribute_exists (a : string)
| attribute_not_exists (a : string)
| CEq (a : string) (v : option attr)
| CLt (a : string) (v : option attr)
| CAnd (c1 c2 : cond)
| COr (c1 c2 : cond)
| CTrue.

(** [UpdateExpression] clauses. *)
Inductive action :=
| SET (a : string) (v : option attr)
| REMOVE (a : string)
| ADD (a : string) (n : Z).

Definition attr_of (it : option item) (a : string) : option attr :=
  match it with Some i => i !! a | None => None end.

(** The comparator [<] orders numbers (the only operands the controller
    compares); operands of different types never compare. *)
Definition attr_lt (x v : option attr) : bool :=
  match x, v with
  | Some (ANum a), Some (ANum b) => a <? b
  | _, _ => false
  end.

Fixpoint eval_cond (c : cond) (it : option item) : bool :=
  match c with
  | attribute_exists a => bool_decide (is_Some (attr_of it a))
  | attribute_not_exists a => bool_decide (attr_of it a = None)
  | CEq a v => bool_decide (is_Some v ∧ attr_of it a = v)
  | CLt a v => attr_lt (attr_of it a) v
  | CAnd c1 c2 => eval_cond c1 it && eval_cond c2 it
  | COr c1 c2 => eval_cond c1 it || eval_cond c2 it
  | CTrue => true
  end.

(** An expression is refused when one of its values is [undefined]. *)
Fixpoint cond_defined (c : cond) : bool :=
  match c with
  | CEq _ v | CLt _ v => bool_decide (is_Some v)
  | CAnd c1 c2 | COr c1 c2 => cond_defined c1 && cond_defined c2
  | _ => true
  end.

Definition action_defined (act : action) : bool :=
  match act with
  | SET _ None => false
  | _ => true
  end.

Definition ConditionalCheckFailedException : exn :=
  JsError "ConditionalCheckFailedException" "The conditional request failed".

Definition ValidationException : exn :=
  JsError "ValidationException" "An operand in the update expression has an incorrect data type".

(** One clause applied to an item. [SET] needs a defined value; [ADD] starts
    a missing attribute at 0 and is refused on anything but a number. *)
Definition apply_action (act : action) (it : item) : exn + item :=
  match act with
  | SET a (Some v) => inr (<[a := v]> it)
  | SET a None => inl ValidationException
  | REMOVE a => inr (delete a it)
  | ADD a n =>
      match it !! a with
      | None => inr (<[a := ANum n]> it)
      | Some (ANum m) => inr (<[a := ANum (m + n)]> it)
      | Some _ => inl ValidationException
      end
  end.

Fixpoint apply_actions (acts : list action) (it : item) : exn + item :=
  match acts with
  | [] => inr it
  | act :: rest =>
      match apply_action act it with
      | inl e => inl e
      | inr it' => apply_actions rest it'
      end
  end.

(** Parameters of [put] and [update], as the controller builds them; the
    table is chosen by the call. *)
Record put_params := PutParams {
  Item : item;
  put_ConditionExpression : cond
}.

Record update_params := UpdateParams {
  Key : item;
  ConditionExpression : cond;
  UpdateExpression : list action
}.

Section Table.
Context {K : Type} `{Countable K}.

(** The primary key of a table, read off the key attributes; [None] when
    one is missing or is not a string. *)
Variable key_of : item → option K.

(** [put]: the condition is read against the item now under the key,
    then the new item replaces it. *)
Definition put (p : put_params) (t : gmap K item) : exn + gmap K item :=
  match key_of (Item p) with
  | None => inl ValidationException
  | Some k =>
      if negb (cond_defined (put_ConditionExpression p)) then inl ValidationException
      else if eval_cond (put_ConditionExpression p) (t !! k)
      then inr (<[k := Item p]> t)
      else inl ConditionalCheckFailedException
  end.

(** [update]: an upsert. The expressions are checked first, then the
    condition is read against the item now under the key; a missing item
    starts as its key attributes. *)
Definition update (p : update_params) (t : gmap K item) : exn + gmap K item :=
  match key_of (Key p) with
  | None => inl ValidationException
  | Some k =>
      if negb (cond_defined (ConditionExpression p) && forallb action_defined (UpdateExpression p))
      then inl ValidationException
      else if eval_cond (ConditionExpression p) (t !! k)
      then
        match apply_actions (UpdateExpression p) (default (Key p) (t !! k)) with
        | inl e => inl e
        | inr it => inr (<[k := it]> t)
        end
      else inl ConditionalCheckFailedException
  end.

Definition get (key : item) (t : gmap K item) : exn + option item :=
  match key_of key with
  | None => inl ValidationException
  | Some k => inr (t !! k)
  end.

(** [query] on a secondary index: the items whose attribute [a] is [v]. *)
Definition query (a : string) (v : attr) (t : gmap K item) : list item :=
  filter (λ it, it !! a = Some v) (snd <$> map_to_list t).

End Table.

(** The users table is keyed by app id and user name, the sessions table by
    session id. *)
Definition users_key (k : item) : option (string * string) :=
  match k !! "app-id", k !! "username" with
  | Some (AStr a), Some (AStr n) => Some (a, n)
  | _, _ => None
  end.

Definition sessions_key (k : item) : option string :=
  match k !! "session-id" with
  | Some (AStr s) => Some s
  | _ => None
  end.

End Ddb.
Export Ddb.

(** ** Collaborating modules

    The controller imports its hash, its e-mail check and the app and admin
    controllers; they are taken as an interface. *)

Class Imports := {
  (** [crypto.sha256.hash] *)
  sha256_hash : string → string;
  (** [validateEmail] of the utilities *)
  validateEmail : string → bool;
  (** [appController.getAppByAppId] *)
  getAppByAppId : option attr → option item;
  (** [adminController.findAdminByAdminId] *)
  findAdminByAdminId : option attr → option item;
  (** [appController.countNonDeletedAppUsers], reading the users table *)
  countNonDeletedAppUsers : gmap (string * string) item → option attr → Z → Z;
  (** [adminController.prodPaymentsEnabled] *)
  prodPaymentsEnabled : item → bool;
  (** [getTtl] of the utilities, with the clock reading it starts from *)
  getTtl : Z → Z → Z;
  (** [buffer.toString('base64')] *)
  base64 : string → string
}.

(** ** The store and the effects of a request *)

(** The two tables the controller writes. When [ddb_down] holds an error the
    store is unreachable and every call of the client rejects with it. *)
Record world := World {
  users : gmap (string * string) item;
  sessions : gmap string item;
  ddb_down : option exn
}.

Definition set_users (t : gmap (string * string) item) (w : world) : world :=
  {| users := t; sessions := sessions w; ddb_down := ddb_down w |}.

Definition set_sessions (t : gmap string item) (w : world) : world :=
  {| users := users w; sessions := t; ddb_down := ddb_down w |}.

(** A computation reads and writes the store and either returns or throws;
    writes made before a [throw] stay. *)
Definition M (A : Type) : Type := world → world * (exn + A).

#[global] Instance M_ret : MRet M := λ A x w, (w, inr x).

#[global] Instance M_bind : MBind M := λ A B f m w,
  match m w with
  | (w', inr x) => f x w'
  | (w', inl e) => (w', inl e)
  end.

Definition throw {A} (e : exn) : M A := λ w, (w, inl e).

(** [try { m } catch (e) { h e }] *)
Definition try_catch {A} (m : M A) (h : exn → M A) : M A := λ w,
  match m w with
  | (w', inr x) => (w', inr x)
  | (w', inl e) => h e w'
  end.

(** A promise that is never awaited: the call is made, its outcome is not
    looked at. The write lands before the next read of the store. *)
Definition detached (m : M unit) : M unit := λ w, (fst (m w), inr tt).

Definition users_update (params : update_params) : M unit := λ w,
  match ddb_down w with
  | Some e => (w, inl e)
  | None =>
      match update users_key params (users w) with
      | inl e => (w, inl e)
      | inr t => (set_users t w, inr tt)
      end
  end.

Definition users_put (params : put_params) : M unit := λ w,
  match ddb_down w with
  | Some e => (w, inl e)
  | None =>
      match put users_key params (users w) with
      | inl e => (w, inl e)
      | inr t => (set_users t w, inr tt)
      end
  end.

Definition users_get (key : item) : M (option item) := λ w,
  match ddb_down w with
  | Some e => (w, inl e)
  | None => (w, get users_key key (users w))
  end.

Definition sessions_update (params : update_params) : M unit := λ w,
  match ddb_down w with
  | Some e => (w, inl e)
  | None =>
      match update sessions_key params (sessions w) with
      | inl e => (w, inl e)
      | inr t => (set_sessions t w, inr tt)
      end
  end.

Definition sessions_put (params : put_params) : M unit := λ w,
  match ddb_down w with
  | Some e => (w, inl e)
  | None =>
      match put sessions_key params (sessions w) with
      | inl e => (w, inl e)
      | inr t => (set_sessions t w, inr tt)
      end
  end.

(** An object literal; a property whose value is [undefined] is not sent. *)
Fixpoint obj (props : list (string * option attr)) : item :=
  match props with
  | [] => ∅
  | (k, Some v) :: rest => <[k := v]> (obj rest)
  | (k, None) :: rest => obj rest
  end.

(** [h.equals(v)] on a buffer: a [TypeError] unless [v] is a buffer too. *)
Definition Buffer_equals (h : string) (v : option attr) : M bool :=
  match v with
  | Some (ABin b) => mret (String.eqb h b)
  | _ => throw (JsError "TypeError" "The otherBuffer argument must be an instance of Buffer or Uint8Array")
  end.

(** ** Constants *)

Definition HOURS_IN_A_DAY : Z := 24.
Definition SECONDS_IN_A_DAY : Z := 60 * 60 * HOURS_IN_A_DAY.
Definition MS_IN_A_DAY : Z := 1000 * SECONDS_IN_A_DAY.
Definition SESSION_LENGTH : Z := MS_IN_A_DAY.
Definition MAX_USERNAME_CHAR_LENGTH : Z := 100.
Definition MAX_PROFILE_OBJECT_KEY_CHAR_LENGTH : Z := 20.
Definition MAX_PROFILE_OBJECT_VALUE_CHAR_LENGTH : Z := 1000.
Definition MAX_PROFILE_OBJECT_KEYS : Z := 100.
Definition LIMIT_NUM_TRIAL_USERS : Z := 3.
Definition MAX_INCORRECT_PASSWORD_GUESSES : Z := 25.

(** ** Password check and lockout *)

Section PasswordAuthenticator.
Context `{Imports}.

Definition _allowUserToRetryPassword (user : item) : M unit :=
  let params := {|
    Key := obj [("username", user !! "username"); ("app-id", user !! "app-id")];
    ConditionExpression := CTrue;
    UpdateExpression :=
      [REMOVE "suspended-at"; SET "incorrect-password-attempts-in-a-row" (Some (ANum 0))]
  |} in
  detached (users_update params).

Definition _suspendUser (user : item) (now : Z) : M unit :=
  let params := {|
    Key := obj [("username", user !! "username"); ("app-id", user !! "app-id")];
    ConditionExpression := CTrue;
    UpdateExpression := [SET "suspended-at" (Some (ADate now))]
  |} in
  detached (users_update params).

Definition _incrementIncorrectPasswordAttempt (user : item) : M unit :=
  let incrementParams := {|
    Key := obj [("username", user !! "username"); ("app-id", user !! "app-id")];
    ConditionExpression := CTrue;
    UpdateExpression := [ADD "incorrect-password-attempts-in-a-row" 1]
  |} in
  detached (users_update incrementParams).

(** [now] is the clock reading of the call ([new Date()]). The result is
    [true] when the temporary password was the one used. The request that
    sign-in hands over is read by the warning logged with a first
    suspension only, which is left out with the other calls to the
    logger. *)
Definition _validatePassword (passwordToken : string) (user : option item) (now : Z) : M bool :=
  match user with
  | None => throw (Error "User does not exist")
  | Some user =>
      (if num_ge (user !! "incorrect-password-attempts-in-a-row") MAX_INCORRECT_PASSWORD_GUESSES
       then
         let dateSuspended := user !! "suspended-at" in
         (if negb (truthy dateSuspended) then _suspendUser user now else mret tt) ;;
         if negb (truthy dateSuspended) || elapsed_lt now (Date_of dateSuspended) MS_IN_A_DAY
         then throw (VObj "PasswordAttemptLimitExceeded" [("delay", SStr "24 hours")])
         else _allowUserToRetryPassword user
       else mret tt) ;;
      let passwordTokenHash := sha256_hash passwordToken in
      passwordIsCorrect ← Buffer_equals passwordTokenHash (user !! "password-token");
      if passwordIsCorrect : bool
      then _allowUserToRetryPassword user ;; mret false
      else
        tempPasswordIsCorrect ←
          (if truthy (user !! "temp-password-token")
           then Buffer_equals passwordTokenHash (user !! "temp-password-token")
           else mret false);
        if negb tempPasswordIsCorrect
        then
          _incrementIncorrectPasswordAttempt user ;;
          throw (VObj "Incorrect password or temp password" [])
        else if elapsed_gt now (Date_of (user !! "temp-password-creation-date")) MS_IN_A_DAY
        then
          _incrementIncorrectPasswordAttempt user ;;
          throw (VObj "Temp password expired" [])
        else mret tempPasswordIsCorrect
  end.

End PasswordAuthenticator.


(** ** Requests and responses *)

Record passwordSalts_t := {
  passwordSalt : option string;
  passwordTokenSalt : option string
}.

Record keySalts_t := {
  encryptionKeySalt : option string;
  dhKeySalt : option string;
  hmacKeySalt : option string
}.

Record passwordBasedBackup_t := {
  passwordBasedEncryptionKeySalt : option string;
  passwordEncryptedSeed : option string
}.

(** [req.query] and [req.body] of the sign-up and sign-in routes. The user
    name and the profile arrive as any JSON value, the rest as strings. *)
Record request := {
  query_appId : option string;
  body_username : option attr;
  body_passwordToken : option string;
  body_publicKey : option string;
  body_passwordSalts : option passwordSalts_t;
  body_keySalts : option keySalts_t;
  body_email : option string;
  body_profile : option attr;
  body_passwordBasedBackup : option passwordBasedBackup_t
}.

(** What [uuidv4] and the two [crypto.randomBytes] draws (in hex) give. *)
Record entropy := {
  uuid : string;
  sessionId_hex : string;
  authToken_hex : string
}.

Record session_t := {
  sessionId : string;
  authToken : string;
  creationDate : Z
}.

Record signIn_result := {
  r_session : session_t;
  r_userId : option attr;
  r_usedTempPassword : option bool;
  r_email : option attr;
  r_profile : option attr;
  r_passwordBasedBackup : option (attr * attr);
  r_protectedProfile : option attr
}.

Inductive payload :=
| PText (s : string)
| PThrown (e : exn)
| PUndefined
| PSignedUp (userId : string) (session : session_t)
| PSignedIn (result : signIn_result).

(** [res.status(s).send(b)]; [res_status] is [None] when the handler sends
    without setting a status. *)
Record response := {
  res_status : option status_code;
  res_body : payload
}.

Record stripeData_t := {
  stripeAccountId : option attr;
  paymentsMode : option attr;
  subscriptionStatus : option attr;
  cancelSubscriptionAt : option attr
}.

Inductive data :=
| DText (s : string)
| DStripeData (d : stripeData_t).

(** The two builders of the imported [responseBuilder], kept as
    constructors: a response is the builder called and its arguments. *)
Inductive built :=
| successResponse (d : data)
| errorResponse (status : status_code) (message : string).

(** [S(v)] of a string that may be [undefined]. *)
Definition str (s : option string) : option attr := AStr <$> s.

(** [!s] on such a string. *)
Definition blank (s : option string) : bool := negb (truthy (str s)).

(** [v.toLowerCase()]; only strings have the method. *)
Definition lower (v : option attr) : option attr :=
  match v with
  | Some (AStr s) => Some (AStr (toLowerCase s))
  | _ => None
  end.

Definition Zlength (s : string) : Z := Z.of_nat (String.length s).

(** ** Sessions, sign-up, sign-in, sign-out *)

Section Accounts.
Context `{Imports}.

Definition createSession (userId appId : option attr) (rnd : entropy) (now : Z) : M session_t :=
  let sessionId := sessionId_hex rnd in
  let authToken := authToken_hex rnd in
  let creationDate := now in
  let session := obj [
    ("session-id", Some (AStr sessionId));
    ("auth-token", Some (AStr authToken));
    ("user-id", userId);
    ("app-id", appId);
    ("creation-date", Some (ADate creationDate));
    ("ttl", Some (ANum (getTtl now SECONDS_IN_A_DAY)))
  ] in
  let params := {| Item := session; put_ConditionExpression := CTrue |} in
  sessions_put params ;;
  mret {| sessionId := sessionId; authToken := authToken; creationDate := creationDate |}.

Definition _buildSignUpParams (username : option attr) (passwordToken : option string)
    (appId : option string) (userId : string) (publicKey : option string)
    (passwordSalts : option passwordSalts_t) (keySalts : option keySalts_t)
    (email : option string) (profile : option attr)
    (passwordBasedBackup : option passwordBasedBackup_t) (now : Z) : put_params :=
  let user := obj [
    ("username", lower username);
    ("password-token", ABin <$> (sha256_hash <$> passwordToken));
    ("password-salt", str (passwordSalts ≫= passwordSalt));
    ("password-token-salt", str (passwordSalts ≫= passwordTokenSalt));
    ("app-id", str appId);
    ("user-id", Some (AStr userId));
    ("public-key", str publicKey);
    ("encryption-key-salt", str (keySalts ≫= encryptionKeySalt));
    ("diffie-hellman-key-salt", str (keySalts ≫= dhKeySalt));
    ("hmac-key-salt", str (keySalts ≫= hmacKeySalt));
    ("seed-not-saved-yet", Some (ABool true));
    ("creation-date", Some (ADate now));
    ("password-based-encryption-key-salt",
       str (passwordBasedBackup ≫= passwordBasedEncryptionKeySalt));
    ("password-encrypted-seed", str (passwordBasedBackup ≫= passwordEncryptedSeed))
  ] in
  let user := match email with
              | Some e => if truthy (str email) then <["email" := AStr (toLowerCase e)]> user else user
              | None => user
              end in
  let user := match profile with
              | Some p => if truthy profile then <["profile" := p]> user else user
              | None => user
              end in
  {| Item := user;
     (* if username does not exist, insert
        if it already exists and user hasn't saved seed yet, overwrite
        if it already exists and user has saved seed, fail *)
     put_ConditionExpression :=
       COr (attribute_not_exists "username") (attribute_exists "seed-not-saved-yet") |}.

(** The checks on one profile entry and the running count of entries. *)
Fixpoint _validateProfile_loop (kv : list (string * scalar)) (counter : Z) : M Z :=
  match kv with
  | [] => mret counter
  | (key, value) :: rest =>
      if Zlength key >? MAX_PROFILE_OBJECT_KEY_CHAR_LENGTH
      then throw (VObj "ProfileKeyTooLong"
                    [("message", SStr "Profile key too long. Must be a max of 20 characters.");
                     ("key", SStr key); ("maxLen", SNum MAX_PROFILE_OBJECT_KEY_CHAR_LENGTH)])
      else
        match value with
        | SStr v =>
            (* no empty string in the store *)
            if Zlength v =? 0
            then throw (VObj "ProfileValueCannotBeBlank"
                          [("message", SStr "Profile value cannot be blank."); ("key", SStr key)])
            else if Zlength v >? MAX_PROFILE_OBJECT_VALUE_CHAR_LENGTH
            then throw (VObj "ProfileValueTooLong"
                          [("message",
                            SStr "Profile value too long. Must be a max of 1000 characters.");
                           ("key", SStr key); ("value", value);
                           ("maxLen", SNum MAX_PROFILE_OBJECT_VALUE_CHAR_LENGTH)])
            else
              let counter := counter + 1 in
              if counter >? MAX_PROFILE_OBJECT_KEYS
              then throw (VObj "ProfileHasTooManyKeys"
                            [("message",
                              SStr "Profile has too many keys. Must have a max of 100 keys.");
                             ("maxKeys", SNum MAX_PROFILE_OBJECT_KEYS)])
              else _validateProfile_loop rest counter
        | _ => throw (VObj "ProfileValueMustBeString"
                        [("message", SStr "Profile value must be a string.");
                         ("key", SStr key); ("value", value)])
        end
  end.

Definition _validateProfile (profile : attr) : M unit :=
  match profile with
  | AObj kv =>
      counter ← _validateProfile_loop kv 0;
      if counter =? 0
      then throw (VObj "ProfileCannotBeEmpty" [("message", SStr "Profile cannot be empty.")])
      else mret tt
  | _ => throw (VObj "ProfileMustBeObject"
                  [("message", SStr "Profile must be a flat JSON object.")])
  end.

Definition _validateUsernameInput (username : option attr) : M unit :=
  match username with
  | Some (AStr s) =>
      if negb (truthy username) then throw (VObj "UsernameCannotBeBlank" [])
      else if Zlength s >? MAX_USERNAME_CHAR_LENGTH
      then throw (VObj "UsernameTooLong" [("maxLen", SNum MAX_USERNAME_CHAR_LENGTH)])
      else mret tt
  | _ => throw (VObj "UsernameMustBeString" [])
  end.

Definition _validateSignUpInput (appId : option string) (username : option attr)
    (passwordToken publicKey : option string) (passwordSalts : option passwordSalts_t)
    (keySalts : option keySalts_t) (passwordBasedBackup : option passwordBasedBackup_t)
    (email : option string) (profile : option attr) : M unit :=
  try_catch
    ((if blank appId || negb (truthy username) || blank passwordToken || blank publicKey
         || bool_decide (passwordSalts = None) || bool_decide (keySalts = None)
         || bool_decide (passwordBasedBackup = None)
      then throw (VStr "Missing required items") else mret tt) ;;
     (if blank (passwordSalts ≫= passwordSalt) || blank (passwordSalts ≫= passwordTokenSalt)
         || blank (keySalts ≫= encryptionKeySalt) || blank (keySalts ≫= dhKeySalt)
         || blank (keySalts ≫= hmacKeySalt)
      then throw (VStr "Missing required salts") else mret tt) ;;
     (if blank (passwordBasedBackup ≫= passwordBasedEncryptionKeySalt)
         || blank (passwordBasedBackup ≫= passwordEncryptedSeed)
      then throw (VStr "Missing password-based backup items") else mret tt) ;;
     _validateUsernameInput username ;;
     (match email with
      | Some e =>
          if truthy (str email) && negb (validateEmail e)
          then throw (VObj "EmailNotValid" [("email", SStr e)]) else mret tt
      | None => mret tt
      end) ;;
     (match profile with
      | Some p => if truthy profile then _validateProfile p else mret tt
      | None => mret tt
      end))
    (λ e, throw (VHttp BadRequest e)).

Definition _validateSubscription (status cancelAt : option attr) (appId : option string) : M unit :=
  let unpaidSubscription := negb (strict_eq status (Some (AStr "active"))) || truthy cancelAt in
  if unpaidSubscription
  then
    λ w,
      let numUsers := countNonDeletedAppUsers (users w) (str appId) LIMIT_NUM_TRIAL_USERS in
      if LIMIT_NUM_TRIAL_USERS <=? numUsers
      then (w, inl (VHttp PaymentRequired (VStr "TrialExceededLimit")))
      else (w, inr tt)
  else mret tt.

(** The body sent for [e.error.message]. *)
Definition send_message (m : exn) : payload :=
  match m with
  | VStr s => PText s
  | _ => PThrown m
  end.

(** The [catch] that ends a route: an error that has a status and an
    [error] is answered with them, anything else is an internal error. *)
Definition route_catch (message : string) (e : exn) : M response :=
  match e with
  | VHttp status m => mret {| res_status := Some status; res_body := send_message m |}
  | VNamed status _ _ => mret {| res_status := Some status; res_body := PUndefined |}
  | _ => mret {| res_status := Some InternalServerError; res_body := PText message |}
  end.

Definition signUp (req : request) (rnd : entropy) (now : Z) : M response :=
  let appId := query_appId req in
  let username := body_username req in
  let passwordToken := body_passwordToken req in
  let publicKey := body_publicKey req in
  let passwordSalts := body_passwordSalts req in
  let keySalts := body_keySalts req in
  let email := body_email req in
  let profile := body_profile req in
  let passwordBasedBackup := body_passwordBasedBackup req in
  try_catch
    (_validateSignUpInput appId username passwordToken publicKey passwordSalts keySalts
       passwordBasedBackup email profile ;;
     let userId := uuid rnd in
     match getAppByAppId (str appId) with
     | None => throw (VHttp Unauthorized (VStr "App ID not valid"))
     | Some app =>
         if truthy (app !! "deleted") then throw (VHttp Unauthorized (VStr "App ID not valid"))
         else
           match findAdminByAdminId (app !! "admin-id") with
           | None => throw (VHttp Unauthorized (VStr "App ID not valid"))
           | Some admin =>
               if truthy (admin !! "deleted")
               then throw (VHttp Unauthorized (VStr "App ID not valid"))
               else
                 _validateSubscription (admin !! "stripe-saas-subscription-status")
                   (admin !! "stripe-cancel-saas-subscription-at") appId ;;
                 let params := _buildSignUpParams username passwordToken appId userId
                                 publicKey passwordSalts keySalts email profile
                                 passwordBasedBackup now in
                 try_catch (users_put params)
                   (λ e, if bool_decide (exn_name e = Some "ConditionalCheckFailedException")
                         then throw (VHttp Conflict (VStr "UsernameAlreadyExists"))
                         else throw e) ;;
                 session ← createSession (Some (AStr userId)) (str appId) rnd now;
                 mret {| res_status := None; res_body := PSignedUp userId session |}
           end
     end)
    (route_catch "Failed to sign up user").

Definition getUser (appId username : option attr) : M (option item) :=
  let userParams := obj [("app-id", appId); ("username", username)] in
  users_get userParams.

Definition signIn (req : request) (rnd : entropy) (now : Z) : M response :=
  let appId := query_appId req in
  let username := body_username req in
  let passwordToken := body_passwordToken req in
  try_catch
    ((if blank appId || negb (truthy username) || blank passwordToken
      then throw (VHttp BadRequest (VStr "Missing required items")) else mret tt) ;;
     try_catch (_validateUsernameInput username) (λ e, throw (VHttp BadRequest e)) ;;
     match getAppByAppId (str appId) with
     | None => throw (VHttp Unauthorized (VStr "App ID not valid"))
     | Some app =>
         if truthy (app !! "deleted") then throw (VHttp Unauthorized (VStr "App ID not valid"))
         else
           match findAdminByAdminId (app !! "admin-id") with
           | None => throw (VHttp Unauthorized (VStr "App ID not valid"))
           | Some admin =>
               if truthy (admin !! "deleted")
               then throw (VHttp Unauthorized (VStr "App ID not valid"))
               else
                 user ← getUser (str appId) (lower username);
                 usedTempPassword ←
                   (* [passwordToken] is a non-empty string past the first check *)
                   try_catch (_validatePassword (default "" passwordToken) user now)
                     (λ e, throw (VHttp Unauthorized
                                    match e with
                                    | VObj "PasswordAttemptLimitExceeded" _ => e
                                    | _ => VStr "Invalid password"
                                    end));
                 match user with
                 | None => throw (JsError "TypeError" "Cannot read property 'user-id' of undefined")
                 | Some user =>
                 if truthy (user !! "deleted")
                 then throw (VHttp Forbidden (VStr "User pending deletion"))
                 else
                   session ← createSession (user !! "user-id") (str appId) rnd now;
                   let result := {|
                     r_session := session;
                     r_userId := user !! "user-id";
                     r_usedTempPassword := if usedTempPassword : bool then Some true else None;
                     r_email := if truthy (user !! "email") then user !! "email" else None;
                     r_profile := if truthy (user !! "profile") then user !! "profile" else None;
                     r_passwordBasedBackup :=
                       if negb usedTempPassword
                          && truthy (user !! "password-based-encryption-key-salt")
                          && truthy (user !! "password-encrypted-seed")
                       then
                         match user !! "password-based-encryption-key-salt",
                               user !! "password-encrypted-seed" with
                         | Some salt, Some seed => Some (salt, seed)
                         | _, _ => None
                         end
                       else None;
                     r_protectedProfile :=
                       if truthy (user !! "protected-profile") then user !! "protected-profile" else None
                   |} in
                   mret {| res_status := None; res_body := PSignedIn result |}
                 end
           end
     end)
    (route_catch "User failed to sign in").

Definition signOut (sessionId : option string) : M built :=
  if blank sessionId then mret (errorResponse Unauthorized "Missing session id")
  else
    let params := {|
      Key := obj [("session-id", str sessionId)];
      ConditionExpression := CTrue;
      UpdateExpression := [SET "invalidated" (Some (ABool true))]
    |} in
    try_catch
      (sessions_update params ;;
       mret (successResponse (DText "Success!")))
      (λ e, mret (errorResponse InternalServerError "Failed to sign out!")).

End Accounts.


(** ** Key validation *)

Section KeyPossession.
Context `{Imports}.

Definition _buildStripeData (admin app user : item) : stripeData_t :=
  let paymentsMode :=
    if truthy (app !! "payments-mode") then app !! "payments-mode" else Some (AStr "disabled") in
  if strict_eq (app !! "payments-mode") (Some (AStr "test"))
  then {| stripeAccountId := admin !! "stripe-account-id";
          paymentsMode := paymentsMode;
          subscriptionStatus := user !! "test-subscription-status";
          cancelSubscriptionAt := user !! "test-cancel-subscription-at" |}
  else if strict_eq (app !! "payments-mode") (Some (AStr "prod"))
  then {| stripeAccountId := admin !! "stripe-account-id";
          paymentsMode := paymentsMode;
          subscriptionStatus := user !! "prod-subscription-status";
          cancelSubscriptionAt := user !! "prod-cancel-subscription-at" |}
  else {| stripeAccountId := admin !! "stripe-account-id";
          paymentsMode := paymentsMode;
          subscriptionStatus := None;
          cancelSubscriptionAt := None |}.

Definition userSavedSeed (userId appId username publicKey : option attr) : M unit :=
  let updateUserParams := {|
    Key := obj [("username", username); ("app-id", appId)];
    UpdateExpression := [REMOVE "seed-not-saved-yet"];
    ConditionExpression :=
      CAnd (CAnd (attribute_exists "seed-not-saved-yet") (CEq "user-id" userId))
           (CEq "public-key" publicKey)
  |} in
  users_update updateUserParams.

(** [conn] is the connection of the caller; all that is seen of it here is
    whether its [validateKey] method throws. *)
Definition validateKey (validationMessage : string) (userProvidedValidationMessage : option string)
    (conn : option exn) (admin app user : item) : M built :=
  let seedNotSavedYet := user !! "seed-not-saved-yet" in
  let userId := user !! "user-id" in
  let appId := user !! "app-id" in
  let username := user !! "username" in
  let userPublicKey := user !! "public-key" in
  if bool_decide (Some (base64 validationMessage) = userProvidedValidationMessage)
  then
    try_catch
      (seedOutcome ←
         (if truthy seedNotSavedYet
          then
            try_catch
              (userSavedSeed userId appId username userPublicKey ;; mret None)
              (λ e, if bool_decide (exn_name e = Some "ConditionalCheckFailedException")
                    then mret (Some (errorResponse Unauthorized "Invalid seed"))
                    else throw e)
          else mret None);
       match seedOutcome with
       | Some early => mret early
       | None =>
           match conn with
           | Some e => throw e
           | None =>
               mret (successResponse (DStripeData (_buildStripeData admin app user)))
           end
       end)
      (λ e, mret (errorResponse InternalServerError "Failed to validate key"))
  else mret (errorResponse Unauthorized "Failed to validate key").

End KeyPossession.

(** ** Subscriptions *)

Section Subscriptions.
Context `{Imports}.

Definition getUserByUserId (userId : option attr) : M (option item) := λ w,
  match ddb_down w with
  | Some e => (w, inl e)
  | None =>
      match userId with
      | None => (w, inl ValidationException)
      | Some uid =>
          match query "user-id" uid (users w) with
          | [] => (w, inr None)
          | [user] => (w, inr (Some user))
          | _ =>
              (w, inl (Error ("Too many users found with id " +:+
                                match uid with AStr s => s | _ => "" end)))
          end
      end
  end.

Definition conditionCheckUserExists (username appId userId : option attr) : update_params :=
  {| Key := obj [("username", username); ("app-id", appId)];
     ConditionExpression := CAnd (attribute_exists "username") (CEq "user-id" userId);
     UpdateExpression := [] |}.

Definition env_prefix (isProduction : bool) : string :=
  if isProduction then "prod" else "test".

Definition _buildStripeSubscriptionDdbParams (user : item)
    (customerId subscriptionId planId status cancelAt stripeEventTimestamp : option attr)
    (isProduction : bool) : update_params :=
  let stripeSubscriptionDdbParams :=
    conditionCheckUserExists (user !! "username") (user !! "app-id") (user !! "user-id") in
  let stripeCustomerId := env_prefix isProduction +:+ "-stripe-customer-id" in
  let stripeSubscriptionId := env_prefix isProduction +:+ "-subscription-id" in
  let stripePlanId := env_prefix isProduction +:+ "-subscription-plan-id" in
  let stripeSubscriptionStatus := env_prefix isProduction +:+ "-subscription-status" in
  let stripeEventTimestampName := env_prefix isProduction +:+ "-stripe-event-timestamp" in
  let cancelAtName := env_prefix isProduction +:+ "-cancel-subscription-at" in
  {| Key := Key stripeSubscriptionDdbParams;
     (* Making sure event timestamp provided is greater than one stored
        ensures latest gets stored (events arrive out of order) *)
     ConditionExpression :=
       CAnd (ConditionExpression stripeSubscriptionDdbParams)
            (COr (attribute_not_exists stripeEventTimestampName)
                 (CLt stripeEventTimestampName stripeEventTimestamp));
     UpdateExpression :=
       [SET stripeCustomerId customerId;
        SET stripeSubscriptionId subscriptionId;
        SET stripePlanId planId;
        SET stripeSubscriptionStatus status;
        SET stripeEventTimestampName stripeEventTimestamp]
       ++ (if negb (truthy cancelAt) then [REMOVE cancelAtName]
           else [SET cancelAtName cancelAt]) |}.

Record metadata_t := {
  __userbase_user_id : option string;
  __userbase_admin_id : option string;
  __userbase_app_id : option string
}.

(** The messages the webhook does not rethrow. *)
Definition swallowed (message : option string) : bool :=
  match message with
  | Some "MissingUserIdFromUserSubscriptionMetadata"
  | Some "MissingAppIdFromUserSubscriptionMetadata"
  | Some "MissingAdminIdFromUserSubscriptionMetadata"
  | Some "MissingFromDdb"
  | Some "IncorrectAppIdInMetadata"
  | Some "IncorrectUserIdInMetadata"
  | Some "IncorrectStripeAccount"
  | Some "IncorrectSubscriptionPlanId" => true
  | _ => false
  end.

Definition updateSubscriptionInDdb (metadata : metadata_t)
    (customerId subscriptionId subscriptionPlanId status cancelAt stripeEventTimestamp : option attr)
    (isProduction : bool) (stripeAccountId : option attr) : M unit :=
  try_catch
    (let userId := __userbase_user_id metadata in
     let adminId := __userbase_admin_id metadata in
     let appId := __userbase_app_id metadata in
     (if blank userId then throw (Error "MissingUserIdFromUserSubscriptionMetadata") else mret tt) ;;
     (if blank appId then throw (Error "MissingAppIdFromUserSubscriptionMetadata") else mret tt) ;;
     (if blank adminId then throw (Error "MissingAdminIdFromUserSubscriptionMetadata") else mret tt) ;;
     let admin := findAdminByAdminId (str adminId) in
     let app := getAppByAppId (str appId) in
     user ← getUserByUserId (str userId);
     (* possible these were deleted before the webhook was called *)
     match admin, app, user with
     | Some admin, Some app, Some user =>
         (* possible the admin altered metadata fields to be valid, existing ids *)
         if negb (strict_eq (app !! "admin-id") (str adminId))
         then throw (Error "IncorrectAppIdInMetadata")
         else if negb (strict_eq (user !! "app-id") (str appId))
         then throw (Error "IncorrectUserIdInMetadata")
         (* possible admin has disconnected or changed their account *)
         else if negb (strict_eq (admin !! "stripe-account-id") stripeAccountId)
         then throw (Error "IncorrectStripeAccount")
         (* possible admin has deleted or changed the plan id *)
         else if (isProduction
                    && negb (strict_eq (app !! "prod-subscription-plan-id") subscriptionPlanId))
                 || (negb isProduction
                       && negb (strict_eq (app !! "test-subscription-plan-id") subscriptionPlanId))
         then throw (Error "IncorrectSubscriptionPlanId")
         else
           let updateUserParams :=
             _buildStripeSubscriptionDdbParams user customerId subscriptionId subscriptionPlanId
               status cancelAt stripeEventTimestamp isProduction in
           users_update updateUserParams
     | _, _, _ => throw (Error "MissingFromDdb")
     end)
    (λ e, if swallowed (exn_message e)
          (* no need to make the webhook throw *)
          then mret tt
          else throw e).

(** The thrown [{ status, error: { name } }] of the entitlement check. *)
Definition _throwPaymentErrors
    (subscriptionPlanNotSet subscriptionNotFound subscribedToIncorrectPlan subscriptionInactive : bool)
    (subscriptionStatus : option attr) : M unit :=
  if subscriptionPlanNotSet then throw (VNamed Forbidden "SubscriptionPlanNotSet" [])
  else if subscriptionNotFound then throw (VNamed NotFound "SubscriptionNotFound" [])
  else if subscribedToIncorrectPlan then throw (VNamed PaymentRequired "SubscribedToIncorrectPlan" [])
  else if subscriptionInactive
  then throw (VNamed PaymentRequired "SubscriptionInactive" [("subscriptionStatus", subscriptionStatus)])
  else mret tt.

Definition validatePayment (user app admin : item) : M unit :=
  if negb (strict_eq (app !! "payments-mode") (Some (AStr "prod")))
     && negb (strict_eq (app !! "payments-mode") (Some (AStr "test")))
  then mret tt
  (* payments mode set to prod but subscriptions not paid for gets same
     functional treatment as disabled payments mode *)
  else if strict_eq (app !! "payments-mode") (Some (AStr "prod")) && negb (prodPaymentsEnabled admin)
  then mret tt
  else
    let prefix := if strict_eq (app !! "payments-mode") (Some (AStr "prod")) then "prod" else "test" in
    let subscriptionPlanNotSet := negb (truthy (app !! (prefix +:+ "-subscription-plan-id"))) in
    let subscriptionNotFound := negb (truthy (user !! (prefix +:+ "-subscription-plan-id"))) in
    let subscribedToIncorrectPlan :=
      negb (strict_eq (app !! (prefix +:+ "-subscription-plan-id"))
                      (user !! (prefix +:+ "-subscription-plan-id"))) in
    let subscriptionStatus := user !! (prefix +:+ "-subscription-status") in
    let subscriptionInactive :=
      negb (strict_eq subscriptionStatus (Some (AStr "active")))
      && negb (strict_eq subscriptionStatus (Some (AStr "trialing"))) in
    _throwPaymentErrors subscriptionPlanNotSet subscriptionNotFound subscribedToIncorrectPlan
      subscriptionInactive subscriptionStatus.

End Subscriptions.

(** ** Reading the entitlement rule

    The vocabulary of the entitlement rule, over items: the payments mode
    of an app, the environment it selects, and what it is for a user to hold
    the app's plan with a paid-up status. *)

Definition payments_mode_is (app : item) (mode : string) : Prop :=
  app !! "payments-mode" = Some (AStr mode).

#[global] Instance payments_mode_is_dec app mode : Decision (payments_mode_is app mode).
Proof. unfold payments_mode_is. apply _. Defined.

(** Payments are disabled for an app whose mode is neither prod nor test. *)
Definition payments_disabled (app : item) : Prop :=
  ¬ payments_mode_is app "prod" ∧ ¬ payments_mode_is app "test".

#[global] Instance payments_disabled_dec app : Decision (payments_disabled app).
Proof. unfold payments_disabled. apply _. Defined.

(** The environment whose fields the check reads. *)
Definition active_env (app : item) : string :=
  if bool_decide (payments_mode_is app "prod") then "prod" else "test".

Definition app_plan (app : item) : option attr :=
  app !! (active_env app +:+ "-subscription-plan-id").

Definition user_plan (user app : item) : option attr :=
  user !! (active_env app +:+ "-subscription-plan-id").

Definition user_status (user app : item) : option attr :=
  user !! (active_env app +:+ "-subscription-status").

Definition paid_up (status : option attr) : Prop :=
  status = Some (AStr "active") ∨ status = Some (AStr "trialing").

#[global] Instance paid_up_dec status : Decision (paid_up status).
Proof. unfold paid_up. apply _. Defined.

(** The user holds the plan the app has configured. *)
Definition on_app_plan (user app : item) : Prop :=
  truthy (app_plan app) = true ∧ user_plan user app = app_plan app.

(** Prod mode on an app whose admin has not paid for prod payments. *)
Definition prod_payments_unpaid `{Imports} (app admin : item) : Prop :=
  payments_mode_is app "prod" ∧ prodPaymentsEnabled admin = false.

#[global] Instance prod_payments_unpaid_dec `{Imports} app admin :
  Decision (prod_payments_unpaid app admin).
Proof. unfold prod_payments_unpaid. apply _. Defined.

(** ** Reading the lockout rule *)

(** The user has used up the allowed incorrect guesses. *)
Definition locked_out (user : item) : Prop :=
  ∃ n, user !! "incorrect-password-attempts-in-a-row" = Some (ANum n)
       ∧ MAX_INCORRECT_PASSWORD_GUESSES ≤ n.

(** A suspension date is only ever written for a locked-out user, and is
    removed together with the reset of the counter. *)
Definition lockout_consistent (user : item) : Prop :=
  is_Some (user !! "suspended-at") → locked_out user.

(** The item stored under a key is consistent in that sense. *)
Definition consistent_at (k : string * string) (w : world) : Prop :=
  ∃ stored, users w !! k = Some stored ∧ lockout_consistent stored.

(** The item once its lockout state is cleared. *)
Definition cleared (user : item) : item :=
  <["incorrect-password-attempts-in-a-row" := ANum 0]> (delete "suspended-at" user).

(** The cleared item with one incorrect attempt counted on it. *)
Definition counted (user : item) : item :=
  <["incorrect-password-attempts-in-a-row" := ANum 1]> (cleared user).

(** ** Reading the event guard *)

(** The attribute that holds the timestamp of the last event applied in an
    environment. *)
Definition timestamp_name (isProduction : bool) : string :=
  env_prefix isProduction +:+ "-stripe-event-timestamp".

(** Every item of the users table sits under the key its own attributes
    spell, as the store has it. *)
Definition keyed (t : gmap (string * string) item) : Prop :=
  ∀ k it, t !! k = Some it → users_key it = Some k.

(** ** Reading the account rules *)

(** The key under which sign-up and sign-in address the user of a request. *)
Definition target (req : request) : item :=
  obj [("app-id", str (query_appId req)); ("username", lower (body_username req))].

(** A sign-up request gets as far as the write of the user item: its input
    passes validation, its app and the admin of the app exist and are not
    deleted, and the trial limit lets it through. *)
Definition signUp_reaches_write `{Imports} (req : request) (w : world) : Prop :=
  snd (_validateSignUpInput (query_appId req) (body_username req) (body_passwordToken req)
         (body_publicKey req) (body_passwordSalts req) (body_keySalts req)
         (body_passwordBasedBackup req) (body_email req) (body_profile req) w) = inr tt
  ∧ ∃ app admin,
      getAppByAppId (str (query_appId req)) = Some app
      ∧ truthy (app !! "deleted") = false
      ∧ findAdminByAdminId (app !! "admin-id") = Some admin
      ∧ truthy (admin !! "deleted") = false
      ∧ snd (_validateSubscription (admin !! "stripe-saas-subscription-status")
               (admin !! "stripe-cancel-saas-subscription-at") (query_appId req) w) = inr tt.

(** The item a sign-up writes. *)
Definition signUp_item `{Imports} (req : request) (rnd : entropy) (now : Z) : item :=
  Item (_buildSignUpParams (body_username req) (body_passwordToken req) (query_appId req)
          (uuid rnd) (body_publicKey req) (body_passwordSalts req) (body_keySalts req)
          (body_email req) (body_profile req) (body_passwordBasedBackup req) now).

(** The item of a new session. *)
Definition session_item `{Imports} (userId appId : option attr) (rnd : entropy) (now : Z) : item :=
  obj [("session-id", Some (AStr (sessionId_hex rnd)));
       ("auth-token", Some (AStr (authToken_hex rnd)));
       ("user-id", userId);
       ("app-id", appId);
       ("creation-date", Some (ADate now));
       ("ttl", Some (ANum (getTtl now SECONDS_IN_A_DAY)))].

(** The store keeps no empty string and the controller writes the two
    backup fields from non-blank input only: where one is present, it is
    truthy. *)
Definition backup_fields_stored (user : item) : Prop :=
  (∀ v, user !! "password-based-encryption-key-salt" = Some v → truthy (Some v) = true)
  ∧ (∀ v, user !! "password-encrypted-seed" = Some v → truthy (Some v) = true).

(** Computations that do not write the store. *)
Definition stateless {A} (m : M A) : Prop := ∀ w, fst (m w) = w.

(** The first defined value an object literal gives a property. *)
Fixpoint props_get (k : string) (props : list (string * option attr)) : option attr :=
  match props with
  | [] => None
  | (k', v) :: rest =>
      if String.eqb k k'
      then match v with Some x => Some x | None => props_get k rest end
      else props_get k rest
  end.

(** A sign-in request gets as far as the password check for the user
    [username] of app [appId], with password token [passwordToken]. *)
Definition signIn_reaches_check `{Imports} (req : request)
    (appId username passwordToken : string) : Prop :=
  query_appId req = Some appId ∧ appId ≠ ""
  ∧ body_username req = Some (AStr username) ∧ username ≠ ""
  ∧ Zlength username ≤ MAX_USERNAME_CHAR_LENGTH
  ∧ body_passwordToken req = Some passwordToken ∧ passwordToken ≠ ""
  ∧ ∃ app admin,
      getAppByAppId (Some (AStr appId)) = Some app
      ∧ truthy (app !! "deleted") = false
      ∧ findAdminByAdminId (app !! "admin-id") = Some admin
      ∧ truthy (admin !! "deleted") = false.

(** Sign-ins in sequence, each on the store the one before left: the final
    store and the responses in order. *)
Fixpoint signIn_seq `{Imports} (calls : list (request * entropy * Z)) (w : world)
  : world * list (exn + response) :=
  match calls with
  | [] => (w, [])
  | (req, rnd, now) :: rest =>
      let (w1, r) := signIn req rnd now w in
      let (w2, rs) := signIn_seq rest w1 in
      (w2, r :: rs)
  end.

(** On a reachable store, the user under key [k] has permanent hash
    [permanent], no temporary password, no suspension date, and [count]
    incorrect attempts in a row on record. *)
Definition tally (k : string * string) (permanent : string) (count : Z) (w : world) : Prop :=
  ddb_down w = None
  ∧ ∃ user,
      users w !! k = Some user
      ∧ users_key user = Some k
      ∧ user !! "password-token" = Some (ABin permanent)
      ∧ user !! "temp-password-token" = None
      ∧ user !! "suspended-at" = None
      ∧ (user !! "incorrect-password-attempts-in-a-row" = Some (ANum count)
         ∨ (count = 0 ∧ user !! "incorrect-password-attempts-in-a-row" = None)).

(** ** Authenticated sessions *)

(** What the routes below send: a string, an object [{ message }], a value
    that was thrown, nothing ([undefined]), or the result object of the
    route. *)
Inductive body (R : Type) :=
| BText (s : string)
| BMessage (message : string)
| BThrown (e : exn)
| BUndefined
| BResult (result : R).

Arguments BText {R} s.
Arguments BMessage {R} message.
Arguments BThrown {R} e.
Arguments BUndefined {R}.
Arguments BResult {R} result.

Record reply (R : Type) := {
  reply_status : option status_code;
  reply_body : body R
}.

Arguments reply_status {R} r.
Arguments reply_body {R} r.

(** What the authentication middleware does with a request: it either
    fills [res.locals] and calls [next()], or answers itself. *)
Inductive authenticated :=
| Next (user admin app : item) (authToken : option attr)
| Answered (r : response).

Record extendSession_result := {
  x_extendedDate : Z;
  x_authToken : option attr;
  x_username : option attr;
  x_userId : option attr;
  x_email : option attr;
  x_profile : option attr;
  x_backUpKey : bool;
  x_protectedProfile : option attr
}.

Definition sessions_get (key : item) : M (option item) := λ w,
  match ddb_down w with
  | Some e => (w, inl e)
  | None => (w, get sessions_key key (sessions w))
  end.

Section Sessions.
Context `{Imports}.

(** The object thrown inside names the check that failed; the [catch]
    spreads it beside the message, where only the log reads it. *)
Definition _validateSession (session : option item) (now : Z) : M unit :=
  let invalid := VHttp Unauthorized (VStr "Session invalid") in
  match session with
  | None => throw invalid
  | Some session =>
      let invalidated := session !! "invalidated" in
      if truthy invalidated then throw invalid
      else
        let sessionStartDate :=
          Date_of (if truthy (session !! "extended-date") then session !! "extended-date"
                   else session !! "creation-date") in
        let expired := elapsed_gt now sessionStartDate SESSION_LENGTH in
        if expired then throw invalid
        else
          let isNotUserSession := expired || negb (truthy (session !! "user-id")) in
          if isNotUserSession then throw invalid
          else mret tt
  end.

Definition _getSesssion (sessionId : option attr) : M (option item) :=
  let params := obj [("session-id", sessionId)] in
  sessions_get params.

Definition authenticateUser (sessionId appId : option string) (now : Z) : M authenticated :=
  try_catch
    ((if blank sessionId || blank appId
      then throw (VHttp Unauthorized (VStr "Missing session token or app id")) else mret tt) ;;
     session ← _getSesssion (str sessionId);
     _validateSession session now ;;
     match session with
     | None => throw (JsError "TypeError" "Cannot read property 'app-id' of undefined")
     | Some session =>
         let appDoesNotMatch := negb (strict_eq (session !! "app-id") (str appId)) in
         if appDoesNotMatch then throw (VHttp Unauthorized (VStr "App ID not valid"))
         else
           (* uses secondary indexes here *)
           user ← getUserByUserId (session !! "user-id");
           let app := getAppByAppId (session !! "app-id") in
           match user with
           | None => throw (VHttp Unauthorized (VStr "Session invalid"))
           | Some user =>
               if truthy (user !! "deleted")
               then throw (VHttp Unauthorized (VStr "Session invalid"))
               else
                 match app with
                 | None => throw (VHttp Unauthorized (VStr "App ID not valid"))
                 | Some app =>
                     if truthy (app !! "deleted")
                     then throw (VHttp Unauthorized (VStr "App ID not valid"))
                     else
                       match findAdminByAdminId (app !! "admin-id") with
                       | None => throw (VHttp Unauthorized (VStr "App ID not valid"))
                       | Some admin =>
                           if truthy (admin !! "deleted")
                           then throw (VHttp Unauthorized (VStr "App ID not valid"))
                           else
                             (* makes all the following objects available in next route *)
                             mret (Next user admin app (session !! "auth-token"))
                       end
                 end
           end
     end)
    (λ e, r ← route_catch "Failed to authenticate user" e; mret (Answered r)).

(** [user] and [authToken] are the [res.locals] the middleware has set. *)
Definition extendSession (user : item) (authToken : option attr) (sessionId : option string)
    (now : Z) : M (reply extendSession_result) :=
  try_catch
    (let extendedDate := now in
     let params := {|
       Key := obj [("session-id", str sessionId)];
       ConditionExpression := CTrue;
       UpdateExpression :=
         [SET "extended-date" (Some (ADate extendedDate));
          SET "ttl" (Some (ANum (getTtl now SECONDS_IN_A_DAY)))]
     |} in
     sessions_update params ;;
     let result := {|
       x_extendedDate := extendedDate;
       x_authToken := authToken;
       x_username := user !! "username";
       x_userId := user !! "user-id";
       x_email := if truthy (user !! "email") then user !! "email" else None;
       x_profile := if truthy (user !! "profile") then user !! "profile" else None;
       x_backUpKey :=
         truthy (user !! "password-based-encryption-key-salt")
         && truthy (user !! "password-encrypted-seed");
       x_protectedProfile :=
         if truthy (user !! "protected-profile") then user !! "protected-profile" else None
     |} in
     mret {| reply_status := None; reply_body := BResult result |})
    (λ e, mret {| reply_status := Some InternalServerError;
                  reply_body := BText "Failed to extend session" |}).

End Sessions.

(** ** Reading the session rule *)

(** The instant the age of a session is counted from: its last extension,
    or its creation when it has not been extended. *)
Definition session_clock (session : item) : option Z :=
  Date_of (if truthy (session !! "extended-date") then session !! "extended-date"
           else session !! "creation-date").

(** Calls of [extendSession] in sequence, each on the store the one before
    left; a call is the user and token of [res.locals], the session id of the
    query and the clock reading. *)
Definition extendSession_seq `{Imports}
    (calls : list (item * option attr * option string * Z)) (w : world) : world :=
  foldl (λ w call, fst (extendSession call.1.1.1 call.1.1.2 call.1.2 call.2 w)) w calls.

(** The session stored under [sid] is marked invalidated. *)
Definition invalidated_at (sid : string) (w : world) : Prop :=
  ∃ session, sessions w !! sid = Some session ∧ truthy (session !! "invalidated") = true.

(** ** A small deployment, for the examples below *)

Module Sample.

Definition app : item := obj [
  ("app-id", Some (AStr "app-1"));
  ("admin-id", Some (AStr "admin-1"));
  ("payments-mode", Some (AStr "prod"));
  ("prod-subscription-plan-id", Some (AStr "plan-gold"));
  ("test-subscription-plan-id", Some (AStr "plan-test"))
].

Definition admin : item := obj [
  ("admin-id", Some (AStr "admin-1"));
  ("stripe-account-id", Some (AStr "acct-1"));
  ("stripe-saas-subscription-status", Some (AStr "active"))
].

(** One app owned by one admin; [enabled] is what
    [prodPaymentsEnabled] answers. The hash only has to be a function. *)
Definition imports (enabled : bool) : Imports := {|
  sha256_hash := λ s, "sha256:" +:+ s;
  validateEmail := λ _, true;
  getAppByAppId := λ a, if bool_decide (a = Some (AStr "app-1")) then Some app else None;
  findAdminByAdminId := λ a, if bool_decide (a = Some (AStr "admin-1")) then Some admin else None;
  countNonDeletedAppUsers := λ _ _ _, 0;
  prodPaymentsEnabled := λ _, enabled;
  getTtl := λ now secs, now / 1000 + secs;
  base64 := λ s, s
|}.

Definition empty_world : world := {| users := ∅; sessions := ∅; ddb_down := None |}.

Definition world_of (us : list (string * string * item)) : world :=
  {| users := list_to_map us; sessions := ∅; ddb_down := None |}.

(** A user of the app, enrolled, with password token ["pw"]. *)
Definition alice (extra : list (string * option attr)) : item :=
  obj (extra ++ [
    ("username", Some (AStr "alice"));
    ("app-id", Some (AStr "app-1"));
    ("user-id", Some (AStr "user-1"));
    ("public-key", Some (AStr "pk-1"));
    ("password-token", Some (ABin "sha256:pw"))
  ]).

Definition alice_world (extra : list (string * option attr)) : world :=
  world_of [("app-1", "alice", alice extra)].

Definition sign_up_request : request := {|
  query_appId := Some "app-1";
  body_username := Some (AStr "Alice");
  body_passwordToken := Some "pw";
  body_publicKey := Some "pk-2";
  body_passwordSalts := Some {| passwordSalt := Some "s1"; passwordTokenSalt := Some "s2" |};
  body_keySalts :=
    Some {| encryptionKeySalt := Some "k1"; dhKeySalt := Some "k2"; hmacKeySalt := Some "k3" |};
  body_email := None;
  body_profile := None;
  body_passwordBasedBackup :=
    Some {| passwordBasedEncryptionKeySalt := Some "b1"; passwordEncryptedSeed := Some "b2" |}
|}.

(** The metadata of a subscription of alice, and an event on it. *)
Definition metadata : metadata_t := {|
  __userbase_user_id := Some "user-1";
  __userbase_admin_id := Some "admin-1";
  __userbase_app_id := Some "app-1"
|}.

Definition event (timestamp : Z) : update_params :=
  _buildStripeSubscriptionDdbParams (alice [])
    (Some (AStr "cus-1")) (Some (AStr "sub-1")) (Some (AStr "plan-gold"))
    (Some (AStr "active")) None (Some (ANum timestamp)) true.

Definition sign_in_request (passwordToken : string) : request := {|
  query_appId := Some "app-1";
  body_username := Some (AStr "Alice");
  body_passwordToken := Some passwordToken;
  body_publicKey := None;
  body_passwordSalts := None;
  body_keySalts := None;
  body_email := None;
  body_profile := None;
  body_passwordBasedBackup := None
|}.

(** Alice with a temporary password ["tmp"] issued at time 1000 and a
    password-based backup. *)
Definition recovering : list (string * option attr) := [
  ("temp-password-token", Some (ABin "sha256:tmp"));
  ("temp-password-creation-date", Some (ADate 1000));
  ("password-based-encryption-key-salt", Some (AStr "salt-1"));
  ("password-encrypted-seed", Some (AStr "seed-1"))
].

Definition signed_in (usedTempPassword : option bool) (backup : option (attr * attr))
  : signIn_result := {|
  r_session := {| sessionId := "sid-3"; authToken := "tok-3"; creationDate := 2000 |};
  r_userId := Some (AStr "user-1");
  r_usedTempPassword := usedTempPassword;
  r_email := None;
  r_profile := None;
  r_passwordBasedBackup := backup;
  r_protectedProfile := None
|}.

Definition draw (n : string) : entropy :=
  {| uuid := "uuid-" +:+ n; sessionId_hex := "sid-" +:+ n; authToken_hex := "tok-" +:+ n |}.

End Sample.

(** ** Transactions of the document client *)

(** The two kinds of item of a [transactWrite] that the controller uses.
    A [Delete] carries a key and a condition, which the controller builds
    with [conditionCheckUserExists]. *)
Inductive transact_item :=
| Delete (p : update_params)
| Put (p : put_params).

(** [s.includes(needle)] *)
Fixpoint includes (needle s : string) : bool :=
  String.prefix needle s
  || match s with
     | EmptyString => false
     | String _ rest => includes needle rest
     end.

(** The error of a cancelled transaction: its message lists, in the order
    of the items, whether the condition of each one failed. *)
Definition TransactionCanceledException (reasons : list string) : exn :=
  JsError "TransactionCanceledException"
    ("Transaction cancelled, please refer cancellation reasons for specific reasons ["
       +:+ String.concat ", " reasons +:+ "]").

Section Transaction.
Context {K : Type} `{Countable K}.
Variable key_of : item → option K.

Definition transact_key (ti : transact_item) : option K :=
  match ti with
  | Delete p => key_of (Key p)
  | Put p => key_of (Item p)
  end.

Definition transact_cond (ti : transact_item) : cond :=
  match ti with
  | Delete p => ConditionExpression p
  | Put p => put_ConditionExpression p
  end.

Definition cancellation_reason (t : gmap K item) (ti : transact_item) : string :=
  match transact_key ti with
  | Some k => if eval_cond (transact_cond ti) (t !! k) then "None" else "ConditionalCheckFailed"
  | None => "ValidationError"
  end.

Definition transact_apply (t : gmap K item) (ti : transact_item) : gmap K item :=
  match ti, transact_key ti with
  | Delete _, Some k => delete k t
  | Put p, Some k => <[k := Item p]> t
  | _, None => t
  end.

(** [transactWrite]: a request with a malformed key or expression, or with
    two items on one key, is refused. Every condition is then read against
    the table as it is; if all of them hold the writes are applied together,
    and if one fails none is. *)
Definition transactWrite (items : list transact_item) (t : gmap K item) : exn + gmap K item :=
  match mapM transact_key items with
  | None => inl ValidationException
  | Some keys =>
      if negb (forallb (λ ti, cond_defined (transact_cond ti)) items) then inl ValidationException
      else if negb (bool_decide (NoDup keys)) then inl ValidationException
      else
        let reasons := cancellation_reason t <$> items in
        if forallb (String.eqb "None") reasons
        then inr (foldl transact_apply t items)
        else inl (TransactionCanceledException reasons)
  end.

End Transaction.

Definition users_transactWrite (items : list transact_item) : M unit := λ w,
  match ddb_down w with
  | Some e => (w, inl e)
  | None =>
      match transactWrite users_key items (users w) with
      | inl e => (w, inl e)
      | inr t => (set_users t w, inr tt)
      end
  end.

(** ** Changes to a user *)

(** A field that a request may leave out, set to [false] (which asks for
    the stored value to be removed), or give. *)
Inductive field (A : Type) :=
| Omitted
| IsFalse
| Given (a : A).

Arguments Omitted {A}.
Arguments IsFalse {A}.
Arguments Given {A} a.

(** [!!f] and [f === false] on such a field. *)
Definition field_truthy {A} (to_attr : A → attr) (f : field A) : bool :=
  match f with
  | Given a => truthy (Some (to_attr a))
  | _ => false
  end.

Definition field_is_false {A} (f : field A) : bool :=
  match f with
  | IsFalse => true
  | _ => false
  end.

(** What [errorResponse] is given beside the status: nothing, a string, a
    thrown value passed on whole, or the [error] of a thrown
    [{ status, error }], which is [{ message }] or [{ name, ...fields }]. *)
Inductive error_data :=
| EUndefined
| EString (s : string)
| EThrown (e : exn)
| EMessage (message : exn)
| ENamed (name : string) (fields : list (string * option attr)).

(** The two builders of the imported [responseBuilder] again, for the
    functions that answer with other data. *)
Module responseBuilder.

Inductive built (D : Type) :=
| successResponse (data : D)
| errorResponse (status : status_code) (data : error_data).

Arguments successResponse {D} data.
Arguments errorResponse {D} status data.

End responseBuilder.

(** [o[k] = v]; a property set to [undefined] is not sent to the store. *)
Definition set_prop (k : string) (v : option attr) (o : item) : item :=
  match v with
  | Some x => <[k := x]> o
  | None => delete k o
  end.

Section UserChanges.
Context `{Imports}.

Definition _updateUserExcludingUsernameUpdate (user : item) (userId : option attr)
    (passwordToken : option string) (passwordSalts : option passwordSalts_t)
    (email : field string) (profile : field attr)
    (passwordBasedBackup : option passwordBasedBackup_t) : M unit :=
  let updateUserParams :=
    conditionCheckUserExists (user !! "username") (user !! "app-id") userId in
  let sets :=
   ((if negb (blank passwordToken)
     then [SET "password-token" (ABin <$> (sha256_hash <$> passwordToken));
           SET "password-salt" (str (passwordSalts ≫= passwordSalt));
           SET "password-token-salt" (str (passwordSalts ≫= passwordTokenSalt));
           (* password-based backup *)
           SET "password-based-encryption-key-salt"
             (str (passwordBasedBackup ≫= passwordBasedEncryptionKeySalt));
           SET "password-encrypted-seed" (str (passwordBasedBackup ≫= passwordEncryptedSeed))]
     else [])
    ++ match email with
       | Given e => if field_truthy AStr email then [SET "email" (Some (AStr (toLowerCase e)))]
                    else []
       | _ => []
       end
    ++ match profile with
       | Given p => if field_truthy id profile then [SET "profile" (Some p)] else []
       | _ => []
       end)%list in
  let removes :=
    ((if field_is_false email then [REMOVE "email"] else [])
     ++ (if field_is_false profile then [REMOVE "profile"] else []))%list in
  let updateUserParams := {|
    Key := Key updateUserParams;
    ConditionExpression := ConditionExpression updateUserParams;
    UpdateExpression := (sets ++ removes)%list
  |} in
  try_catch
    (* the client refuses an empty expression *)
    (if bool_decide (UpdateExpression updateUserParams = []) then throw ValidationException
     else users_update updateUserParams)
    (λ e, if bool_decide (exn_name e = Some "ConditionalCheckFailedException")
          then throw (Error "UserNotFound")
          else throw e).

Definition _updateUserIncludingUsernameUpdate (oldUser : item) (userId : option attr)
    (passwordToken : option string) (passwordSalts : option passwordSalts_t)
    (email : field string) (profile : field attr)
    (passwordBasedBackup : option passwordBasedBackup_t) (username : option attr) : M unit :=
  (* if updating username, need to Delete existing DDB item and Put new one
     because username is partition key *)
  let deleteUserParams :=
    conditionCheckUserExists (oldUser !! "username") (oldUser !! "app-id") userId in
  let updatedUser := set_prop "username" (lower username) oldUser in
  let updatedUser :=
    if negb (blank passwordToken)
    then
      set_prop "password-encrypted-seed" (str (passwordBasedBackup ≫= passwordEncryptedSeed))
        (set_prop "password-based-encryption-key-salt"
           (str (passwordBasedBackup ≫= passwordBasedEncryptionKeySalt))
           (set_prop "password-token-salt" (str (passwordSalts ≫= passwordTokenSalt))
              (set_prop "password-salt" (str (passwordSalts ≫= passwordSalt))
                 (set_prop "password-token" (ABin <$> (sha256_hash <$> passwordToken))
                    updatedUser))))
    else updatedUser in
  let updatedUser :=
    match email with
    | Given e => if field_truthy AStr email then <["email" := AStr (toLowerCase e)]> updatedUser
                 else updatedUser
    | IsFalse => delete "email" updatedUser
    | Omitted => updatedUser
    end in
  let updatedUser :=
    match profile with
    | Given p => if field_truthy id profile then <["profile" := p]> updatedUser else updatedUser
    | IsFalse => delete "profile" updatedUser
    | Omitted => updatedUser
    end in
  let updateUserParams := {|
    Item := updatedUser;
    (* if username does not exist, insert
       if it already exists and user hasn't saved seed yet, overwrite
       if it already exists and user has saved seed, fail *)
    put_ConditionExpression :=
      COr (attribute_not_exists "username") (attribute_exists "seed-not-saved-yet")
  |} in
  let params := [Delete deleteUserParams; Put updateUserParams] in
  try_catch
    (users_transactWrite params)
    (λ e, match exn_message e with
          | None => throw (JsError "TypeError" "Cannot read property 'includes' of undefined")
          | Some message =>
              if includes "[ConditionalCheckFailed" message then throw (Error "UserNotFound")
              else if includes "ConditionalCheckFailed]" message
              then throw (Error "UsernameAlreadyExists")
              else throw e
          end).

Definition updateUser (userId username : option attr)
    (currentPasswordToken passwordToken : option string)
    (passwordSalts : option passwordSalts_t) (email : field string) (profile : field attr)
    (passwordBasedBackup : option passwordBasedBackup_t) (now : Z)
  : M (responseBuilder.built unit) :=
  if negb (truthy username) && blank currentPasswordToken && blank passwordToken
     && negb (field_truthy AStr email) && negb (field_truthy id profile)
     && negb (field_is_false email) && negb (field_is_false profile)
  then mret (responseBuilder.errorResponse BadRequest (EString "Missing all params"))
  else if negb (blank passwordToken)
          && (bool_decide (passwordSalts = None) || blank (passwordSalts ≫= passwordSalt)
              || blank (passwordSalts ≫= passwordTokenSalt))
  then mret (responseBuilder.errorResponse BadRequest (EString "Missing password salts"))
  else if negb (blank passwordToken)
          && (bool_decide (passwordBasedBackup = None)
              || blank (passwordBasedBackup ≫= passwordBasedEncryptionKeySalt)
              || blank (passwordBasedBackup ≫= passwordEncryptedSeed))
  then mret (responseBuilder.errorResponse BadRequest (EString "Missing password-based key backup"))
  else if negb (blank passwordToken) && blank currentPasswordToken
  then mret (responseBuilder.errorResponse BadRequest (EString "Missing current password token"))
  else
    invalid ←
      try_catch
        ((if truthy username then _validateUsernameInput username else mret tt) ;;
         (match email with
          | Given e =>
              if field_truthy AStr email && negb (validateEmail e)
              then throw (VObj "EmailNotValid" []) else mret tt
          | _ => mret tt
          end) ;;
         (match profile with
          | Given p => if field_truthy id profile then _validateProfile p else mret tt
          | _ => mret tt
          end) ;;
         mret None)
        (λ e, mret (Some (responseBuilder.errorResponse BadRequest (EThrown e))));
    match invalid with
    | Some response => mret response
    | None =>
        try_catch
          (user ← getUserByUserId userId;
           match user with
           | None => throw (Error "UserNotFound")
           | Some user =>
               if truthy (user !! "deleted") then throw (Error "UserNotFound")
               else
                 refused ←
                   (if negb (blank passwordToken)
                    then
                      try_catch
                        (_validatePassword (default "" currentPasswordToken) (Some user) now ;;
                         mret None)
                        (λ e, match e with
                              | VObj "PasswordAttemptLimitExceeded" _ =>
                                  (* [status] is not a name of the module *)
                                  throw (JsError "ReferenceError" "status is not defined")
                              | _ =>
                                  mret (Some (responseBuilder.errorResponse BadRequest
                                                (EString "CurrentPasswordIncorrect")))
                              end)
                    else mret None);
                 match refused with
                 | Some response => mret response
                 | None =>
                     (if truthy username && negb (strict_eq (lower username) (user !! "username"))
                      then
                        _updateUserIncludingUsernameUpdate user userId passwordToken
                          passwordSalts email profile passwordBasedBackup username
                      else if negb (blank passwordToken)
                              || (field_truthy AStr email || field_is_false email)
                              || (field_truthy id profile || field_is_false profile)
                      then
                        _updateUserExcludingUsernameUpdate user userId passwordToken
                          passwordSalts email profile passwordBasedBackup
                      else mret tt) ;;
                     mret (responseBuilder.successResponse tt)
                 end
           end)
          (λ e, if bool_decide (exn_message e = Some "UserNotFound")
                then mret (responseBuilder.errorResponse NotFound (EString "UserNotFound"))
                else if bool_decide (exn_message e = Some "UsernameAlreadyExists")
                then mret (responseBuilder.errorResponse Conflict (EString "UsernameAlreadyExists"))
                else mret (responseBuilder.errorResponse InternalServerError
                             (EString "Failed to update user")))
    end.

End UserChanges.

(** ** Deleting a user *)

(** The imported Stripe module, as far as deletion goes. *)
Class StripeClient := {
  (** [stripe.deleteSubscription] on a subscription id, its status, the
      Stripe account and the choice of the test client: the error it rejects
      with, if it does *)
  deleteSubscription : option attr → option attr → option attr → bool → option exn
}.

Section Deletion.
Context `{Imports} `{StripeClient}.

Definition deleteUser (user : item) (stripeAccountId : option attr) (now : Z) : M unit :=
  (* First: delete user's Stripe subscriptions so long as admin has Stripe
     account connected *)
  let testSubscriptionId := user !! "test-subscription-id" in
  let testSubscriptionStatus := user !! "test-subscription-status" in
  let useTestClient := true in
  let prodSubscriptionId := user !! "prod-subscription-id" in
  let prodSubscriptionStatus := user !! "prod-subscription-status" in
  (if truthy stripeAccountId
   then
     match deleteSubscription testSubscriptionId testSubscriptionStatus stripeAccountId
             useTestClient,
           deleteSubscription prodSubscriptionId prodSubscriptionStatus stripeAccountId false
     with
     | Some e, _ => throw e
     | None, Some e => throw e
     | None, None => mret tt
     end
   else mret tt) ;;
  (* Second: delete user from DDB *)
  let params := conditionCheckUserExists (user !! "username") (user !! "app-id")
                  (user !! "user-id") in
  users_update {| Key := Key params;
                  ConditionExpression := ConditionExpression params;
                  UpdateExpression := [SET "deleted" (Some (ADate now))] |}.

Definition deleteUserController (userId : option attr) (adminId appName : option string)
    (stripeAccountId : option attr) (now : Z) : M (responseBuilder.built unit) :=
  try_catch
    (if negb (truthy userId) || blank adminId || blank appName
     then mret (responseBuilder.errorResponse BadRequest (EString "Missing params"))
     else
       user ← getUserByUserId userId;
       match user with
       | None => mret (responseBuilder.errorResponse NotFound (EString "UserNotFound"))
       | Some user =>
           if truthy (user !! "deleted")
           then mret (responseBuilder.errorResponse NotFound (EString "UserNotFound"))
           else
             deleteUser user stripeAccountId now ;;
             mret (responseBuilder.successResponse tt)
       end)
    (λ e, if bool_decide (exn_name e = Some "ConditionalCheckFailedException")
          then mret (responseBuilder.errorResponse NotFound (EString "UserNotFound"))
          else mret (responseBuilder.errorResponse InternalServerError
                       (EString "Failed to delete user"))).

End Deletion.

(** ** Password salts *)

Record passwordSalts_result := {
  s_passwordSalt : option attr;
  s_passwordTokenSalt : option attr
}.

Section PasswordSalts.
Context `{Imports}.

Definition getPasswordSaltsByUserId (userId : option attr)
  : M (responseBuilder.built passwordSalts_result) :=
  try_catch
    (user ← getUserByUserId userId;
     match user with
     | None => mret (responseBuilder.errorResponse NotFound (EString "User not found"))
     | Some user =>
         if truthy (user !! "deleted")
         then mret (responseBuilder.errorResponse NotFound (EString "User not found"))
         else
           let result := {| s_passwordSalt := user !! "password-salt";
                            s_passwordTokenSalt := user !! "password-token-salt" |} in
           mret (responseBuilder.successResponse result)
     end)
    (λ e, mret (responseBuilder.errorResponse InternalServerError EUndefined)).

Definition getPasswordSaltsController (appId : option string) (username : option attr)
  : M (reply passwordSalts_result) :=
  try_catch
    ((if blank appId || negb (truthy username)
      then throw (VHttp BadRequest (VStr "Missing required items")) else mret tt) ;;
     try_catch (_validateUsernameInput username) (λ e, throw (VHttp BadRequest e)) ;;
     (* uses secondary index here *)
     match getAppByAppId (str appId) with
     | None => throw (VHttp Unauthorized (VStr "App ID not valid"))
     | Some app =>
         if truthy (app !! "deleted") then throw (VHttp Unauthorized (VStr "App ID not valid"))
         else
           match findAdminByAdminId (app !! "admin-id") with
           | None => throw (VHttp Unauthorized (VStr "App ID not valid"))
           | Some admin =>
               if truthy (admin !! "deleted")
               then throw (VHttp Unauthorized (VStr "App ID not valid"))
               else
                 user ← getUser (str appId) (lower username);
                 (* return salts even if user is deleted *)
                 match user with
                 | None => throw (VHttp Unauthorized (VStr "User not found"))
                 | Some user =>
                     let result := {| s_passwordSalt := user !! "password-salt";
                                      s_passwordTokenSalt := user !! "password-token-salt" |} in
                     mret {| reply_status := None; reply_body := BResult result |}
                 end
           end
     end)
    (λ e, match e with
          | VHttp status (VStr s) => mret {| reply_status := Some status; reply_body := BText s |}
          | VHttp status m => mret {| reply_status := Some status; reply_body := BThrown m |}
          | VNamed status _ _ => mret {| reply_status := Some status; reply_body := BUndefined |}
          | _ => mret {| reply_status := Some InternalServerError;
                         reply_body := BText "Failed to get password salts over REST endpoint" |}
          end).

End PasswordSalts.

(** ** Reading the changes to a user *)

(** The checks of [updateUser] on the user name, the e-mail and the profile
    pass. *)
Definition changes_valid `{Imports} (username : option attr) (email : field string)
    (profile : field attr)
    (w : world) : Prop :=
  (truthy username = true → _validateUsernameInput username w = (w, inr tt))
  ∧ (∀ e, email = Given e → e ≠ "" → validateEmail e = true)
  ∧ (∀ p, profile = Given p → truthy (Some p) = true → _validateProfile p w = (w, inr tt)).

(** The answer of [updateUser] to what its second [try] throws. *)
Definition updateUser_catch (e : exn) : M (responseBuilder.built unit) :=
  if bool_decide (exn_message e = Some "UserNotFound")
  then mret (responseBuilder.errorResponse NotFound (EString "UserNotFound"))
  else if bool_decide (exn_message e = Some "UsernameAlreadyExists")
  then mret (responseBuilder.errorResponse Conflict (EString "UsernameAlreadyExists"))
  else mret (responseBuilder.errorResponse InternalServerError (EString "Failed to update user")).


(** ** Forgotten passwords *)

(** The key derivation the client runs too, and the mailer. *)
Class Recovery := {
  (** [crypto.scrypt.hash] of a password under a salt given in base64 *)
  scrypt_hash : string → string → string;
  (** [crypto.hkdf.getPasswordToken] of that hash under a salt given in
      base64 *)
  hkdf_getPasswordToken : string → string → string;
  (** [setup.sendEmail] to an address of the message that carries a
      temporary password to the user of an app, the two named as in the
      subject and the greeting: the error it rejects with, if it does *)
  sendEmail : option attr → option attr → option attr → string → option exn
}.

(** [e.status && e.error] on a thrown value, and the two when it holds. *)
Definition status_and_error (e : exn) : option (status_code * error_data) :=
  match e with
  | VHttp status message => Some (status, EMessage message)
  | VNamed status name fields => Some (status, ENamed name fields)
  | _ => None
  end.

Section ForgottenPassword.
Context `{Imports} `{Recovery}.

Definition _setTempPasswordToken (username appId userId : option attr)
    (tempPasswordToken : string) (now : Z) : M unit :=
  let params := conditionCheckUserExists username appId userId in
  users_update {|
    Key := Key params;
    ConditionExpression := ConditionExpression params;
    UpdateExpression :=
      [SET "temp-password-token" (Some (ABin (sha256_hash tempPasswordToken)));
       SET "temp-password-creation-date" (Some (ADate now))]
  |}.

(** matches userbase-js password token generation; [Buffer.from] takes a
    string *)
Definition _generateTempPasswordToken (tempPassword : string)
    (passwordSalt passwordTokenSalt : option attr) : M string :=
  match passwordSalt, passwordTokenSalt with
  | Some (AStr passwordSalt), Some (AStr passwordTokenSalt) =>
      let tempPasswordHash := scrypt_hash tempPassword passwordSalt in
      mret (hkdf_getPasswordToken tempPasswordHash passwordTokenSalt)
  | _, _ =>
      throw (JsError "TypeError"
               "The first argument must be of type string or an instance of Buffer")
  end.

(** [tempPassword] is the draw of [crypto.randomBytes], in base64. *)
Definition forgotPassword (forgotPasswordToken : string)
    (userProvidedForgotPasswordToken : option string) (user app : item)
    (tempPassword : string) (now : Z) : M (responseBuilder.built unit) :=
  let userId := user !! "user-id" in
  let appId := app !! "app-id" in
  try_catch
    ((* check if client decrypted forgot password token successfully *)
     (if negb (bool_decide (Some (base64 forgotPasswordToken) = userProvidedForgotPasswordToken))
      then throw (VNamed Unauthorized "KeyNotValid" []) else mret tt) ;;
     tempPasswordToken ←
       _generateTempPasswordToken tempPassword (user !! "password-salt")
         (user !! "password-token-salt");
     _setTempPasswordToken (user !! "username") appId userId tempPasswordToken now ;;
     match sendEmail (user !! "email") (app !! "app-name") (user !! "username") tempPassword with
     | Some e => throw e
     | None => mret (responseBuilder.successResponse tt)
     end)
    (λ e, match status_and_error e with
          | Some (status, error) => mret (responseBuilder.errorResponse status error)
          | None => mret (responseBuilder.errorResponse InternalServerError
                            (EString "Failed to forget password"))
          end).

End ForgottenPassword.

(** The answer of [forgotPassword] to what its [try] throws. *)
Definition forgotPassword_catch (e : exn) : responseBuilder.built unit :=
  match status_and_error e with
  | Some (status, error) => responseBuilder.errorResponse status error
  | None => responseBuilder.errorResponse InternalServerError
              (EString "Failed to forget password")
  end.

(** ** More of the small deployment *)

Module Examples.



(** A Stripe module whose calls go through. *)
Definition stripe : StripeClient := {| deleteSubscription := λ _ _ _ _, None |}.

Definition new_salts : passwordSalts_t :=
  {| passwordSalt := Some "s3"; passwordTokenSalt := Some "s4" |}.

Definition new_backup : passwordBasedBackup_t :=
  {| passwordBasedEncryptionKeySalt := Some "b3"; passwordEncryptedSeed := Some "b4" |}.

(** A key derivation that only has to be a function, a mailer that
    delivers and one that does not. *)
Definition recovery : Recovery := {|
  scrypt_hash := λ password salt, "scrypt:" +:+ password +:+ ":" +:+ salt;
  hkdf_getPasswordToken := λ hash salt, "hkdf:" +:+ hash +:+ ":" +:+ salt;
  sendEmail := λ _ _ _ _, None
|}.

Definition no_mail : Recovery := {|
  scrypt_hash := λ password salt, "scrypt:" +:+ password +:+ ":" +:+ salt;
  hkdf_getPasswordToken := λ hash salt, "hkdf:" +:+ hash +:+ ":" +:+ salt;
  sendEmail := λ _ _ _ _, Some (Error "the mailer is down")
|}.

(** Alice with her salts and an address. *)
Definition reachable : list (string * option attr) := [
  ("password-salt", Some (AStr "s1"));
  ("password-token-salt", Some (AStr "s2"));
  ("email", Some (AStr "alice@example.org"))
].

End Examples.

(** * Properties *)

(** ** Running a computation *)

Lemma bind_run {A B} (m : M A) (f : A → M B) (w : world) :
  (m ≫= f) w = match m w with
               | (w', inr x) => f x w'
               | (w', inl e) => (w', inl e)
               end.
Proof. done. Qed.

Lemma try_catch_run {A} (m : M A) (h : exn → M A) (w : world) :
  try_catch m h w = match m w with
                    | (w', inr x) => (w', inr x)
                    | (w', inl e) => h e w'
                    end.
Proof. done. Qed.

Lemma bind_ok {A B} (m : M A) (f : A → M B) (w w1 : world) (x : A) :
  m w = (w1, inr x) → (m ≫= f) w = f x w1.
Proof. intros Hm. unfold mbind, M_bind. by rewrite Hm. Qed.

Lemma bind_throw {A B} (m : M A) (f : A → M B) (w w1 : world) (e : exn) :
  m w = (w1, inl e) → (m ≫= f) w = (w1, inl e).
Proof. intros Hm. unfold mbind, M_bind. by rewrite Hm. Qed.

Lemma try_catch_ok {A} (m : M A) (h : exn → M A) (w w1 : world) (x : A) :
  m w = (w1, inr x) → try_catch m h w = (w1, inr x).
Proof. intros Hm. unfold try_catch. by rewrite Hm. Qed.

Lemma try_catch_throw {A} (m : M A) (h : exn → M A) (w w1 : world) (e : exn) :
  m w = (w1, inl e) → try_catch m h w = h e w1.
Proof. intros Hm. unfold try_catch. by rewrite Hm. Qed.

(** ** Sign-out *)

Lemma blank_Some (s : string) : s ≠ "" → blank (Some s) = false.
Proof. intros Hs. destruct s; [done | reflexivity]. Qed.

(** C10: signing out a non-empty session id answers with the success
    response whenever the store takes the write, whether or not a session
    with that id exists: the update is an upsert that leaves the id marked
    invalidated and touches nothing else. *)
Theorem signOut_any_session_id (w : world) (sid : string) :
  sid ≠ "" →
  ddb_down w = None →
  snd (signOut (Some sid) w) = inr (successResponse (DText "Success!"))
  ∧ sessions (fst (signOut (Some sid) w)) !! sid
    = Some (<["invalidated" := ABool true]>
              (default {["session-id" := AStr sid]} (sessions w !! sid)))
  ∧ (∀ other, other ≠ sid →
       sessions (fst (signOut (Some sid) w)) !! other = sessions w !! other)
  ∧ users (fst (signOut (Some sid) w)) = users w.
Proof.
  intros Hs Hd. unfold signOut. rewrite (blank_Some _ Hs).
  unfold try_catch, mbind, M_bind, sessions_update. rewrite Hd. simpl.
  repeat split.
  - apply lookup_insert_eq.
  - intros other Hne. by apply lookup_insert_ne.
Qed.

Lemma signOut_any_session_id_witness :
  snd (signOut (Some "no-such-session") Sample.empty_world)
    = inr (successResponse (DText "Success!"))
  ∧ sessions (fst (signOut (Some "no-such-session") Sample.empty_world)) !! "no-such-session"
    = Some (<["invalidated" := ABool true]> {["session-id" := AStr "no-such-session"]}).
Proof.
  destruct (signOut_any_session_id Sample.empty_world "no-such-session") as (Hr & Hs & _).
  - discriminate.
  - reflexivity.
  - split; [exact Hr | exact Hs].
Defined.

(** ** Entitlement *)

Section Entitlement.
Context `{Imports}.

Lemma strict_eq_true (a b : option attr) : strict_eq a b = true ↔ a = b.
Proof. unfold strict_eq. apply bool_decide_eq_true. Qed.

Lemma strict_eq_false (a b : option attr) : strict_eq a b = false ↔ a ≠ b.
Proof. unfold strict_eq. apply bool_decide_eq_false. Qed.

Lemma paid_up_inactive (st : option attr) :
  negb (strict_eq st (Some (AStr "active"))) && negb (strict_eq st (Some (AStr "trialing")))
  = negb (bool_decide (paid_up st)).
Proof.
  unfold paid_up, strict_eq.
  destruct (decide (st = Some (AStr "active"))) as [->|Ha]; [done|].
  destruct (decide (st = Some (AStr "trialing"))) as [->|Ht]; [done|].
  rewrite !bool_decide_eq_false_2 by tauto. done.
Qed.

Lemma _throwPaymentErrors_cases (b1 b2 b3 b4 : bool) (st : option attr) (w : world) :
  _throwPaymentErrors b1 b2 b3 b4 st w =
    (w, if b1 then inl (VNamed Forbidden "SubscriptionPlanNotSet" [])
        else if b2 then inl (VNamed NotFound "SubscriptionNotFound" [])
        else if b3 then inl (VNamed PaymentRequired "SubscribedToIncorrectPlan" [])
        else if b4 then inl (VNamed PaymentRequired "SubscriptionInactive"
                               [("subscriptionStatus", st)])
        else inr tt).
Proof. by destruct b1, b2, b3, b4. Qed.

(** Past the two early returns the check runs on the fields of the active
    environment, in the order of [_throwPaymentErrors]. *)
Lemma validatePayment_enforced (user app admin : item) (w : world) :
  ¬ payments_disabled app →
  ¬ prod_payments_unpaid app admin →
  validatePayment user app admin w =
    _throwPaymentErrors
      (negb (truthy (app_plan app)))
      (negb (truthy (user_plan user app)))
      (negb (bool_decide (app_plan app = user_plan user app)))
      (negb (bool_decide (paid_up (user_status user app))))
      (user_status user app) w.
Proof.
  intros Hen Hpaid. unfold validatePayment.
  unfold payments_disabled, prod_payments_unpaid, payments_mode_is in *.
  unfold app_plan, user_plan, user_status, active_env, payments_mode_is.
  rewrite paid_up_inactive. unfold strict_eq.
  destruct (decide (app !! "payments-mode" = Some (AStr "prod"))) as [Hp|Hp].
  - rewrite !(bool_decide_eq_true_2 _ Hp). simpl.
    destruct (prodPaymentsEnabled admin) eqn:He; [done | tauto].
  - rewrite !(bool_decide_eq_false_2 _ Hp). simpl.
    destruct (decide (app !! "payments-mode" = Some (AStr "test"))) as [Ht|Ht]; [|tauto].
    by rewrite (bool_decide_eq_true_2 _ Ht).
Qed.

(** C6, as the code has it: the action is permitted when payments are
    disabled for the app, when the app is in prod mode and its admin has not
    paid for prod payments, or when the user holds the app's plan with status
    active or trialing. In every other case exactly one error is thrown, the
    first that applies of SubscriptionPlanNotSet, SubscriptionNotFound,
    SubscribedToIncorrectPlan (whatever the status) and SubscriptionInactive.
    The store is never written. *)
Theorem validatePayment_verdict (user app admin : item) (w : world) :
  fst (validatePayment user app admin w) = w
  ∧ (snd (validatePayment user app admin w) = inr tt ↔
       payments_disabled app ∨ prod_payments_unpaid app admin
       ∨ (on_app_plan user app ∧ paid_up (user_status user app)))
  ∧ (¬ payments_disabled app → ¬ prod_payments_unpaid app admin →
       (truthy (app_plan app) = false →
          snd (validatePayment user app admin w)
            = inl (VNamed Forbidden "SubscriptionPlanNotSet" []))
       ∧ (truthy (app_plan app) = true → truthy (user_plan user app) = false →
          snd (validatePayment user app admin w)
            = inl (VNamed NotFound "SubscriptionNotFound" []))
       ∧ (truthy (app_plan app) = true → truthy (user_plan user app) = true →
          user_plan user app ≠ app_plan app →
          snd (validatePayment user app admin w)
            = inl (VNamed PaymentRequired "SubscribedToIncorrectPlan" []))
       ∧ (on_app_plan user app → ¬ paid_up (user_status user app) →
          snd (validatePayment user app admin w)
            = inl (VNamed PaymentRequired "SubscriptionInactive"
                     [("subscriptionStatus", user_status user app)]))).
Proof.
  destruct (decide (payments_disabled app)) as [Hd|Hd].
  { assert (validatePayment user app admin w = (w, inr tt)) as ->.
    { unfold validatePayment. destruct Hd as [Hp Ht].
      unfold payments_mode_is in *.
      rewrite (proj2 (strict_eq_false _ _) Hp), (proj2 (strict_eq_false _ _) Ht). done. }
    repeat split; try tauto; done. }
  destruct (decide (prod_payments_unpaid app admin)) as [Hu|Hu].
  { assert (validatePayment user app admin w = (w, inr tt)) as ->.
    { unfold validatePayment. destruct Hu as [Hp He].
      unfold payments_mode_is in *.
      rewrite !(proj2 (strict_eq_true _ _) Hp), He. done. }
    repeat split; try tauto; done. }
  rewrite (validatePayment_enforced _ _ _ _ Hd Hu), _throwPaymentErrors_cases.
  unfold on_app_plan. simpl.
  destruct (truthy (app_plan app)) eqn:Ha; simpl;
    [destruct (truthy (user_plan user app)) eqn:Hb; simpl;
      [destruct (decide (app_plan app = user_plan user app)) as [Heq|Hne];
        [rewrite (bool_decide_eq_true_2 _ Heq); simpl;
         destruct (decide (paid_up (user_status user app))) as [Hp|Hp];
           [rewrite (bool_decide_eq_true_2 _ Hp) | rewrite (bool_decide_eq_false_2 _ Hp)]
        |rewrite (bool_decide_eq_false_2 _ Hne)]|]|];
    simpl; (split; [done|]).
  all: intuition (congruence || discriminate).
Qed.

End Entitlement.

(** C6 as written fails on an app in prod mode whose admin has not paid for
    prod payments: payments are not disabled for the app and the user holds
    no plan, yet the action is permitted. *)
Lemma validatePayment_unpaid_prod_permits :
  snd (@validatePayment (Sample.imports false)
         (Sample.alice []) Sample.app Sample.admin Sample.empty_world) = inr tt
  ∧ ¬ payments_disabled Sample.app
  ∧ ¬ (on_app_plan (Sample.alice []) Sample.app
       ∧ paid_up (user_status (Sample.alice []) Sample.app)).
Proof.
  split; [reflexivity|]. split.
  - intros [Hprod _]. apply Hprod. reflexivity.
  - intros [_ [Hs|Hs]]; vm_compute in Hs; discriminate.
Qed.

Lemma validatePayment_verdict_witness :
  snd (@validatePayment (Sample.imports true)
         (Sample.alice [("prod-subscription-plan-id", Some (AStr "plan-gold"));
                        ("prod-subscription-status", Some (AStr "past_due"))])
         Sample.app Sample.admin Sample.empty_world)
  = inl (VNamed PaymentRequired "SubscriptionInactive"
           [("subscriptionStatus", Some (AStr "past_due"))])
  ∧ snd (@validatePayment (Sample.imports true)
         (Sample.alice [("prod-subscription-plan-id", Some (AStr "plan-old"));
                        ("prod-subscription-status", Some (AStr "active"))])
         Sample.app Sample.admin Sample.empty_world)
  = inl (VNamed PaymentRequired "SubscribedToIncorrectPlan" []).
Proof.
  split.
  - destruct (@validatePayment_verdict (Sample.imports true)
      (Sample.alice [("prod-subscription-plan-id", Some (AStr "plan-gold"));
                     ("prod-subscription-status", Some (AStr "past_due"))])
      Sample.app Sample.admin Sample.empty_world) as (_ & _ & Hrest).
    destruct Hrest as (_ & _ & _ & Hinactive).
    + intros [Hprod _]. apply Hprod. reflexivity.
    + intros [_ Hen]. discriminate Hen.
    + apply Hinactive.
      * split; reflexivity.
      * intros [Hs|Hs]; vm_compute in Hs; discriminate.
  - destruct (@validatePayment_verdict (Sample.imports true)
      (Sample.alice [("prod-subscription-plan-id", Some (AStr "plan-old"));
                     ("prod-subscription-status", Some (AStr "active"))])
      Sample.app Sample.admin Sample.empty_world) as (_ & _ & Hrest).
    destruct Hrest as (_ & _ & Hwrong & _).
    + intros [Hprod _]. apply Hprod. reflexivity.
    + intros [_ Hen]. discriminate Hen.
    + apply Hwrong; [reflexivity | reflexivity |].
      intros Heq. vm_compute in Heq. discriminate.
Defined.

(** ** Password check and lockout *)

Section Lockout.
Context `{Imports}.

Lemma users_key_self (user : item) (k : string * string) :
  users_key user = Some k →
  users_key (obj [("username", user !! "username"); ("app-id", user !! "app-id")]) = Some k.
Proof.
  unfold users_key.
  destruct (user !! "app-id") as [[a| | | | |]|] eqn:Ha; try done.
  destruct (user !! "username") as [[n| | | | |]|] eqn:Hn; try done.
Qed.

(** What an update of the users table does on a reachable store. *)
Lemma users_update_lands (params : update_params) (k : string * string) (it : item) (w : world) :
  ddb_down w = None →
  users_key (Key params) = Some k →
  cond_defined (ConditionExpression params) = true →
  forallb action_defined (UpdateExpression params) = true →
  eval_cond (ConditionExpression params) (users w !! k) = true →
  apply_actions (UpdateExpression params) (default (Key params) (users w !! k)) = inr it →
  users_update params w = (set_users (<[k := it]> (users w)) w, inr tt).
Proof.
  intros Hd Hk Hdef Hact Hc Ha. unfold users_update, update.
  by rewrite Hd, Hk, Hdef, Hact, Hc, Ha.
Qed.

Lemma users_update_refused (params : update_params) (k : string * string) (w : world) :
  ddb_down w = None →
  users_key (Key params) = Some k →
  cond_defined (ConditionExpression params) = true →
  forallb action_defined (UpdateExpression params) = true →
  eval_cond (ConditionExpression params) (users w !! k) = false →
  users_update params w = (w, inl ConditionalCheckFailedException).
Proof.
  intros Hd Hk Hdef Hact Hc. unfold users_update, update.
  by rewrite Hd, Hk, Hdef, Hact, Hc.
Qed.

(** The write that clears the lockout state, on a reachable store. *)
Lemma _allowUserToRetryPassword_lands (user : item) (k : string * string) (w : world) :
  users_key user = Some k →
  ddb_down w = None →
  _allowUserToRetryPassword user w =
    (set_users (<[k := cleared (default
                     (obj [("username", user !! "username"); ("app-id", user !! "app-id")])
                     (users w !! k))]> (users w)) w, inr tt).
Proof.
  intros Hk Hd. unfold _allowUserToRetryPassword, detached.
  erewrite users_update_lands; [done | done | by apply users_key_self | done..].
Qed.

Lemma locked_out_num_ge (user : item) :
  locked_out user →
  num_ge (user !! "incorrect-password-attempts-in-a-row") MAX_INCORRECT_PASSWORD_GUESSES = true.
Proof. intros (n & -> & Hn). simpl. by apply Z.leb_le. Qed.

Lemma cleared_not_locked (user : item) :
  num_ge (cleared user !! "incorrect-password-attempts-in-a-row") MAX_INCORRECT_PASSWORD_GUESSES
  = false.
Proof. unfold cleared. by rewrite lookup_insert_eq. Qed.

Lemma cleared_lookup (user : item) (a : string) :
  a ≠ "incorrect-password-attempts-in-a-row" → a ≠ "suspended-at" →
  cleared user !! a = user !! a.
Proof.
  intros H1 H2. unfold cleared.
  rewrite lookup_insert_ne by done. by rewrite lookup_delete_ne.
Qed.

(** The three detached writes address the item by its key attributes only. *)
Lemma _allowUserToRetryPassword_cleared (user : item) :
  _allowUserToRetryPassword (cleared user) = _allowUserToRetryPassword user.
Proof. unfold _allowUserToRetryPassword. by rewrite !cleared_lookup. Qed.

Lemma _incrementIncorrectPasswordAttempt_cleared (user : item) :
  _incrementIncorrectPasswordAttempt (cleared user) = _incrementIncorrectPasswordAttempt user.
Proof. unfold _incrementIncorrectPasswordAttempt. by rewrite !cleared_lookup. Qed.

(** A locked-out user whose suspension is not yet on record, or not yet 24
    hours old, is refused whatever the password token. *)
Lemma _validatePassword_limit_exceeded (passwordToken : string) (user : item) (now : Z)
    (w : world) :
  locked_out user →
  (user !! "suspended-at" = None
   ∨ ∃ d, user !! "suspended-at" = Some (ADate d) ∧ now - d < MS_IN_A_DAY) →
  snd (_validatePassword passwordToken (Some user) now w)
    = inl (VObj "PasswordAttemptLimitExceeded" [("delay", SStr "24 hours")]).
Proof.
  intros Hlock Hs. unfold _validatePassword.
  rewrite (locked_out_num_ge _ Hlock).
  destruct Hs as [-> | (d & -> & Hd)]; simpl.
  - done.
  - unfold mbind, M_bind, mret, M_ret. simpl.
    by rewrite (proj2 (Z.ltb_lt _ _) Hd).
Qed.

(** Once the suspension is 24 hours old the check issues the clearing write
    and goes on as the check of the cleared record. *)
Lemma _validatePassword_suspension_over (passwordToken : string) (user : item) (d now : Z)
    (w : world) :
  lockout_consistent user →
  user !! "suspended-at" = Some (ADate d) →
  MS_IN_A_DAY ≤ now - d →
  _validatePassword passwordToken (Some user) now w
    = _validatePassword passwordToken (Some (cleared user)) now
        (fst (_allowUserToRetryPassword user w)).
Proof.
  intros Hcons Hs Hd.
  unfold _validatePassword at 1.
  rewrite (locked_out_num_ge _ (Hcons (mk_is_Some _ _ Hs))), Hs.
  simpl truthy. simpl negb. simpl Date_of. unfold elapsed_lt.
  rewrite (proj2 (Z.ltb_ge _ _) Hd). simpl orb.
  unfold _validatePassword. rewrite cleared_not_locked.
  rewrite !cleared_lookup by done.
  rewrite _allowUserToRetryPassword_cleared, _incrementIncorrectPasswordAttempt_cleared.
  unfold mbind, M_bind, mret, M_ret, _allowUserToRetryPassword at 1, detached. simpl.
  done.
Qed.

Lemma cleared_idemp (user : item) : cleared (cleared user) = cleared user.
Proof.
  unfold cleared. rewrite delete_insert_ne by done.
  rewrite delete_delete_eq. by rewrite insert_insert_eq.
Qed.

(** The write that counts an incorrect attempt, on a reachable store that
    holds a cleared record. *)
Lemma _incrementIncorrectPasswordAttempt_cleared_lands (user : item) (k : string * string)
    (w : world) :
  users_key user = Some k →
  ddb_down w = None →
  users w !! k = Some (cleared user) →
  _incrementIncorrectPasswordAttempt user w
    = (set_users (<[k := counted user]> (users w)) w, inr tt).
Proof.
  intros Hk Hd Hw. unfold _incrementIncorrectPasswordAttempt, detached.
  erewrite users_update_lands; [done | done | by apply users_key_self | done | done | done |].
  rewrite Hw. cbn.
  assert (cleared user !! "incorrect-password-attempts-in-a-row" = Some (ANum 0)) as ->
    by apply lookup_insert_eq.
  done.
Qed.

Lemma Buffer_equals_fst (h : string) (v : option attr) (w w1 : world) (r : exn + bool) :
  Buffer_equals h v w = (w1, r) → w1 = w.
Proof. unfold Buffer_equals. destruct v as [[]|]; by intros [= <- _]. Qed.

Lemma Buffer_equals_bin (h b : string) (w : world) :
  Buffer_equals h (Some (ABin b)) w = (w, inr (String.eqb h b)).
Proof. done. Qed.

(** A check that is not stopped by the lockout, on a permanent hash that
    does not match, comes down to the temporary password. *)
Lemma _validatePassword_temp_branch (passwordToken permanent : string) (user : item)
    (now : Z) (w : world) :
  num_ge (user !! "incorrect-password-attempts-in-a-row") MAX_INCORRECT_PASSWORD_GUESSES = false →
  user !! "password-token" = Some (ABin permanent) →
  permanent ≠ sha256_hash passwordToken →
  _validatePassword passwordToken (Some user) now w =
    (tempPasswordIsCorrect ←
       (if truthy (user !! "temp-password-token")
        then Buffer_equals (sha256_hash passwordToken) (user !! "temp-password-token")
        else mret false);
     if negb tempPasswordIsCorrect
     then _incrementIncorrectPasswordAttempt user ;;
          throw (VObj "Incorrect password or temp password" [])
     else if elapsed_gt now (Date_of (user !! "temp-password-creation-date")) MS_IN_A_DAY
     then _incrementIncorrectPasswordAttempt user ;;
          throw (VObj "Temp password expired" [])
     else mret tempPasswordIsCorrect) w.
Proof.
  intros Hfree Hperm Hne. unfold _validatePassword. rewrite Hfree, Hperm.
  assert (String.eqb (sha256_hash passwordToken) permanent = false) as Heqb.
  { apply String.eqb_neq. congruence. }
  unfold mbind at 1 2, M_bind, mret at 1, M_ret.
  by rewrite Buffer_equals_bin, Heqb.
Qed.

(** The check of the permanent password, on a user who is not locked out. *)
Lemma _validatePassword_correct (passwordToken : string) (user : item) (now : Z) (w : world) :
  num_ge (user !! "incorrect-password-attempts-in-a-row") MAX_INCORRECT_PASSWORD_GUESSES = false →
  user !! "password-token" = Some (ABin (sha256_hash passwordToken)) →
  _validatePassword passwordToken (Some user) now w
    = (fst (_allowUserToRetryPassword user w), inr false).
Proof.
  intros Hfree Hperm. unfold _validatePassword. rewrite Hfree, Hperm.
  unfold mbind, M_bind, mret, M_ret. rewrite Buffer_equals_bin, String.eqb_refl.
  unfold _allowUserToRetryPassword, detached. done.
Qed.

(** C3: a locked-out user whose suspension is not yet 24 hours old (or not
    yet recorded, as on the 26th attempt) is refused with
    PasswordAttemptLimitExceeded and the 24-hour delay, whatever password is
    supplied. Once the suspension date is at least 24 hours old the check
    first issues the write that removes suspended-at and resets the counter
    to 0, and then judges the password as on any record that is not locked:
    a token whose hash is the stored one is accepted; a token that matches
    neither the stored hash nor a temporary one is refused as incorrect; a
    token that matches the temporary hash is accepted, with the
    used-temp-password flag, up to 24 hours after the temporary password
    was created and refused as expired after that. On a reachable store an
    accepted check leaves the cleared record, and a refused one the cleared
    record with one incorrect attempt counted. *)
Theorem _validatePassword_lockout (passwordToken : string) (user : item) (now : Z) (w : world) :
  (locked_out user →
   (user !! "suspended-at" = None
    ∨ ∃ d, user !! "suspended-at" = Some (ADate d) ∧ now - d < MS_IN_A_DAY) →
   snd (_validatePassword passwordToken (Some user) now w)
     = inl (VObj "PasswordAttemptLimitExceeded" [("delay", SStr "24 hours")]))
  ∧ (∀ d permanent,
       lockout_consistent user →
       user !! "suspended-at" = Some (ADate d) →
       MS_IN_A_DAY ≤ now - d →
       user !! "password-token" = Some (ABin permanent) →
       let run := _validatePassword passwordToken (Some user) now w in
       run = _validatePassword passwordToken (Some (cleared user)) now
               (fst (_allowUserToRetryPassword user w))
       ∧ (sha256_hash passwordToken = permanent → snd run = inr false)
       ∧ (sha256_hash passwordToken ≠ permanent →
            (truthy (user !! "temp-password-token") = false
             ∨ ∃ temp, user !! "temp-password-token" = Some (ABin temp)
                       ∧ temp ≠ sha256_hash passwordToken) →
            snd run = inl (VObj "Incorrect password or temp password" []))
       ∧ (sha256_hash passwordToken ≠ permanent →
            user !! "temp-password-token" = Some (ABin (sha256_hash passwordToken)) →
            ∀ created, user !! "temp-password-creation-date" = Some (ADate created) →
              (now - created ≤ MS_IN_A_DAY → snd run = inr true)
              ∧ (MS_IN_A_DAY < now - created →
                   snd run = inl (VObj "Temp password expired" [])))
       ∧ (∀ k, users_key user = Some k → ddb_down w = None → users w !! k = Some user →
            users (fst (_allowUserToRetryPassword user w)) !! k = Some (cleared user)
            ∧ (∀ usedTemp, snd run = inr usedTemp →
                 fst run = set_users (<[k := cleared user]> (users w)) w)
            ∧ (snd run = inl (VObj "Incorrect password or temp password" [])
               ∨ snd run = inl (VObj "Temp password expired" []) →
                 fst run = set_users (<[k := counted user]> (users w)) w))).
Proof.
  split; [apply _validatePassword_limit_exceeded|].
  intros d permanent Hcons Hs Hd Hperm run.
  assert (run = _validatePassword passwordToken (Some (cleared user)) now
                  (fst (_allowUserToRetryPassword user w))) as Hrun
    by (by apply (_validatePassword_suspension_over _ _ d)).
  split; [done|].
  assert (cleared user !! "password-token" = Some (ABin permanent)) as Hperm'
    by (by rewrite cleared_lookup).
  pose proof (cleared_not_locked user) as Hfree.
  split; [|split; [|split]].
  - intros <-. rewrite Hrun. by rewrite (_validatePassword_correct _ _ _ _ Hfree Hperm').
  - intros Hne Htemp. rewrite Hrun.
    rewrite (_validatePassword_temp_branch _ permanent _ _ _ Hfree Hperm') by congruence.
    rewrite !cleared_lookup by done.
    destruct Htemp as [-> | (temp & -> & Htne)].
    + done.
    + assert (String.eqb (sha256_hash passwordToken) temp = false) as Heqb
        by (apply String.eqb_neq; congruence).
      cbn [truthy]. rewrite bind_run, Buffer_equals_bin, Heqb. done.
  - intros Hne Htemp created Hcreated. rewrite Hrun.
    rewrite (_validatePassword_temp_branch _ permanent _ _ _ Hfree Hperm') by congruence.
    rewrite !cleared_lookup by done. rewrite Htemp, Hcreated.
    cbn [truthy]. rewrite bind_run, Buffer_equals_bin, String.eqb_refl.
    cbn [negb Date_of elapsed_gt].
    destruct (Z.gtb_spec (now - created) MS_IN_A_DAY) as [Hgt|Hle].
    + split; [lia | done].
    + split; [done | lia].
  - intros k Hk Hdown Hw.
    rewrite (_allowUserToRetryPassword_lands _ _ _ Hk Hdown) in Hrun |- *.
    rewrite Hw in Hrun |- *. cbn [fst default from_option id] in Hrun |- *.
    set (w1 := set_users (<[k := cleared user]> (users w)) w) in *.
    assert (users w1 !! k = Some (cleared user)) as Hw1 by apply lookup_insert_eq.
    assert (ddb_down w1 = None) as Hd1 by done.
    assert (users_key (cleared user) = Some k) as Hk1.
    { unfold users_key. rewrite !cleared_lookup by done. exact Hk. }
    split; [done|].
    assert (_allowUserToRetryPassword (cleared user) w1 = (w1, inr tt)) as Hallow.
    { rewrite (_allowUserToRetryPassword_lands _ _ _ Hk1 Hd1), Hw1.
      cbn [default from_option id]. rewrite cleared_idemp.
      unfold w1. cbn [users set_users]. by rewrite insert_insert_eq. }
    assert (_incrementIncorrectPasswordAttempt (cleared user) w1
            = (set_users (<[k := counted user]> (users w)) w, inr tt)) as Hcount.
    { rewrite _incrementIncorrectPasswordAttempt_cleared.
      rewrite (_incrementIncorrectPasswordAttempt_cleared_lands _ _ _ Hk Hd1 Hw1).
      unfold w1. cbn [users set_users]. by rewrite insert_insert_eq. }
    clearbody run. subst run.
    destruct (decide (sha256_hash passwordToken = permanent)) as [<- | Hne].
    + rewrite (_validatePassword_correct _ _ _ _ Hfree Hperm'), Hallow.
      split; [done | by intros [|]].
    + rewrite (_validatePassword_temp_branch _ permanent _ _ _ Hfree Hperm') by congruence.
      rewrite !cleared_lookup by done. rewrite bind_run.
      destruct (truthy (user !! "temp-password-token")) eqn:Ht.
      * destruct (user !! "temp-password-token") as [[| | | |b|]|] eqn:Htok;
          try (split; [by intros ? | by intros [|]]).
        rewrite Buffer_equals_bin.
        destruct (String.eqb (sha256_hash passwordToken) b); cbn [negb].
        -- destruct (elapsed_gt _ _ _).
           ++ rewrite bind_run, Hcount. split; [by intros ? | done].
           ++ split; [done | by intros [|]].
        -- rewrite bind_run, Hcount. split; [by intros ? | done].
      * cbn [mret M_ret negb]. rewrite bind_run, Hcount. split; [by intros ? | done].
Qed.

(** C4, as the code has it: for a user who is not locked out and whose
    permanent hash does not match, a token whose hash is the stored
    temporary one is accepted, with the used-temp-password flag, exactly
    while at most 24 hours have passed since the temporary password was
    created; past 24 hours the check throws the expired error, which is not
    the error thrown when neither hash matches. *)
Theorem _validatePassword_temp_window (passwordToken permanent : string) (user : item)
    (created now : Z) (w : world) :
  num_ge (user !! "incorrect-password-attempts-in-a-row") MAX_INCORRECT_PASSWORD_GUESSES = false →
  user !! "password-token" = Some (ABin permanent) →
  permanent ≠ sha256_hash passwordToken →
  user !! "temp-password-creation-date" = Some (ADate created) →
  (user !! "temp-password-token" = Some (ABin (sha256_hash passwordToken)) →
     (snd (_validatePassword passwordToken (Some user) now w) = inr true
        ↔ now - created ≤ MS_IN_A_DAY)
     ∧ (now - created ≤ MS_IN_A_DAY →
          fst (_validatePassword passwordToken (Some user) now w) = w)
     ∧ (MS_IN_A_DAY < now - created →
          snd (_validatePassword passwordToken (Some user) now w)
            = inl (VObj "Temp password expired" [])))
  ∧ (∀ temp, user !! "temp-password-token" = Some (ABin temp) →
       temp ≠ sha256_hash passwordToken →
       snd (_validatePassword passwordToken (Some user) now w)
         = inl (VObj "Incorrect password or temp password" []))
  ∧ VObj "Temp password expired" [] ≠ VObj "Incorrect password or temp password" [].
Proof.
  intros Hfree Hperm Hne Hcreated.
  rewrite (_validatePassword_temp_branch _ _ _ _ _ Hfree Hperm Hne).
  split; [|split; [|done]].
  - intros Htemp. rewrite Htemp, Hcreated. simpl.
    unfold mbind, M_bind, mret, M_ret. simpl. rewrite String.eqb_refl. simpl.
    destruct (Z.gtb_spec (now - created) MS_IN_A_DAY) as [Hgt|Hle]; simpl.
    + split; [split; [done | lia] | split; [lia | done]].
    + split; [split; [done | done] | split; [done | lia]].
  - intros temp Htemp Htne. rewrite Htemp. simpl.
    assert (String.eqb (sha256_hash passwordToken) temp = false) as Heqb.
    { apply String.eqb_neq. congruence. }
    unfold mbind, M_bind, mret, M_ret. simpl. by rewrite Heqb.
Qed.

(** *** The lockout state stays consistent

    Whatever happens to the writes of a password check, the item stored
    under the key of the user keeps the rule that a suspension date goes
    with a counter at the limit. *)

Lemma detached_update_cases (params : update_params) (k : string * string) (stored : item)
    (w w1 : world) (r : exn + unit) :
  detached (users_update params) w = (w1, r) →
  users_key (Key params) = Some k →
  users w !! k = Some stored →
  r = inr tt
  ∧ (w1 = w
     ∨ ∃ stored', apply_actions (UpdateExpression params) stored = inr stored'
                  ∧ w1 = set_users (<[k := stored']> (users w)) w).
Proof.
  unfold detached, users_update, update. intros [= <- <-] Hk Hw. split; [done|].
  destruct (ddb_down w); [by left|]. rewrite Hk, Hw.
  destruct (negb _); [by left|].
  destruct (eval_cond _ _); [|by left].
  cbn [default from_option id].
  destruct (apply_actions _ stored) as [e|stored']; [by left|].
  right. by exists stored'.
Qed.

Lemma _allowUserToRetryPassword_consistent (user : item) (k : string * string)
    (w w1 : world) (r : exn + unit) :
  _allowUserToRetryPassword user w = (w1, r) →
  users_key user = Some k →
  consistent_at k w →
  r = inr tt ∧ consistent_at k w1.
Proof.
  intros Hrun Hk (stored & Hw & Hc).
  eapply detached_update_cases in Hrun as [-> [-> | (stored' & Ha & ->)]];
    [| |by apply users_key_self|done]; (split; [done|]).
  - by exists stored.
  - exists stored'. cbn. rewrite lookup_insert_eq. split; [done|].
    cbn in Ha. injection Ha as <-. intros [v Hv].
    rewrite lookup_insert_ne, lookup_delete_eq in Hv; done.
Qed.

Lemma _incrementIncorrectPasswordAttempt_consistent (user : item) (k : string * string)
    (w w1 : world) (r : exn + unit) :
  _incrementIncorrectPasswordAttempt user w = (w1, r) →
  users_key user = Some k →
  consistent_at k w →
  r = inr tt ∧ consistent_at k w1.
Proof.
  intros Hrun Hk (stored & Hw & Hc).
  eapply detached_update_cases in Hrun as [-> [-> | (stored' & Ha & ->)]];
    [| |by apply users_key_self|done]; (split; [done|]).
  - by exists stored.
  - exists stored'. cbn. rewrite lookup_insert_eq. split; [done|].
    cbn in Ha. intros [v Hv].
    destruct (stored !! "incorrect-password-attempts-in-a-row") as [[|m| | | |]|] eqn:Hn;
      try done; injection Ha as <-; rewrite lookup_insert_ne in Hv by done;
      destruct (Hc (mk_is_Some _ _ Hv)) as (n & Hn' & Hle); rewrite Hn in Hn'; [|done].
    injection Hn' as <-. exists (m + 1). rewrite lookup_insert_eq. split; [done|lia].
Qed.

Lemma _suspendUser_consistent (user : item) (k : string * string) (now : Z)
    (w w1 : world) (r : exn + unit) :
  _suspendUser user now w = (w1, r) →
  users_key user = Some k →
  users w !! k = Some user →
  locked_out user →
  r = inr tt ∧ consistent_at k w1.
Proof.
  intros Hrun Hk Hw Hlock.
  eapply detached_update_cases in Hrun as [-> [-> | (stored' & Ha & ->)]];
    [| |by apply users_key_self|done]; (split; [done|]).
  - exists user. split; [done | by intros _].
  - exists stored'. cbn. rewrite lookup_insert_eq. split; [done|].
    cbn in Ha. injection Ha as <-. intros _.
    destruct Hlock as (n & Hn & Hle). exists n. by rewrite lookup_insert_ne.
Qed.

Lemma num_ge_locked_out (user : item) :
  num_ge (user !! "incorrect-password-attempts-in-a-row") MAX_INCORRECT_PASSWORD_GUESSES = true →
  locked_out user.
Proof.
  unfold locked_out. destruct (user !! _) as [[|n|[]| | |]|]; try done.
  intros Hn%Z.leb_le. by exists n.
Qed.

(** X6: a password check run on the stored item leaves the stored item
    consistent: whatever the token and the outcome, a suspension date is on
    record only with a counter that has reached the limit. *)
Lemma _validatePassword_keeps_consistent (passwordToken : string) (user : item)
    (k : string * string) (now : Z) (w : world) :
  users_key user = Some k →
  users w !! k = Some user →
  lockout_consistent user →
  consistent_at k (fst (_validatePassword passwordToken (Some user) now w)).
Proof.
  intros Hk Hw Hc.
  assert (consistent_at k w) as Hinv by (by exists user).
  unfold _validatePassword. rewrite bind_run.
  assert (∃ w0 r, ((if num_ge (user !! "incorrect-password-attempts-in-a-row")
                         MAX_INCORRECT_PASSWORD_GUESSES
                    then
                      (if negb (truthy (user !! "suspended-at"))
                       then _suspendUser user now else mret tt) ;;
                      if negb (truthy (user !! "suspended-at"))
                         || elapsed_lt now (Date_of (user !! "suspended-at")) MS_IN_A_DAY
                      then throw (VObj "PasswordAttemptLimitExceeded"
                                    [("delay", SStr "24 hours")])
                      else _allowUserToRetryPassword user
                    else mret tt) : M unit) w = (w0, r) ∧ consistent_at k w0)
    as (w0 & r & -> & Hinv0).
  { destruct (num_ge _ _) eqn:Hge; [|by eexists _, _].
    rewrite bind_run.
    destruct (truthy (user !! "suspended-at")); cbn [negb orb].
    - destruct (elapsed_lt _ _ _); [by eexists _, _|].
      destruct (_allowUserToRetryPassword user w) as [w1 r1] eqn:Hrun.
      destruct (_allowUserToRetryPassword_consistent _ _ _ _ _ Hrun Hk Hinv) as [_ ?].
      by eexists _, _.
    - destruct (_suspendUser user now w) as [w1 r1] eqn:Hrun.
      destruct (_suspendUser_consistent _ _ _ _ _ _ Hrun Hk Hw (num_ge_locked_out _ Hge))
        as [-> ?].
      by eexists _, _. }
  destruct r as [e|[]]; [done|]. rewrite bind_run.
  destruct (Buffer_equals _ (user !! "password-token") w0) as [w1 [e|correct]] eqn:Hb;
    apply Buffer_equals_fst in Hb as ->; [done|].
  destruct correct.
  - rewrite bind_run.
    destruct (_allowUserToRetryPassword user w0) as [w2 r2] eqn:Hrun.
    destruct (_allowUserToRetryPassword_consistent _ _ _ _ _ Hrun Hk Hinv0) as [-> ?]. done.
  - rewrite bind_run.
    match goal with |- context [(if ?b then ?x else mret false) w0] =>
      destruct (((if b then x else mret false) : M bool) w0) as [w2 [e|temp]] eqn:Ht end.
    all: assert (w2 = w0) as ->
      by (destruct (truthy _); [by apply Buffer_equals_fst in Ht
                               |unfold mret, M_ret in Ht; by simplify_eq]).
    { done. }
    destruct temp; cbn [negb].
    + destruct (elapsed_gt _ _ _); [|done]. rewrite bind_run.
      destruct (_incrementIncorrectPasswordAttempt user w0) as [w3 r3] eqn:Hrun.
      destruct (_incrementIncorrectPasswordAttempt_consistent _ _ _ _ _ Hrun Hk Hinv0)
        as [-> ?]. done.
    + rewrite bind_run.
      destruct (_incrementIncorrectPasswordAttempt user w0) as [w3 r3] eqn:Hrun.
      destruct (_incrementIncorrectPasswordAttempt_consistent _ _ _ _ _ Hrun Hk Hinv0)
        as [-> ?]. done.
Qed.

End Lockout.

(** C4 as written fails at the boundary: exactly 24 hours after its creation
    the temporary password is still accepted, although fewer than 24 hours
    have not elapsed. *)
Lemma temp_password_accepted_at_24h :
  snd (@_validatePassword (Sample.imports true) "tmp"
         (Some (Sample.alice [("temp-password-token", Some (ABin "sha256:tmp"));
                              ("temp-password-creation-date", Some (ADate 1000))]))
         (1000 + MS_IN_A_DAY)
         (Sample.alice_world [("temp-password-token", Some (ABin "sha256:tmp"));
                              ("temp-password-creation-date", Some (ADate 1000))]))
  = inr true
  ∧ ¬ ((1000 + MS_IN_A_DAY) - 1000 < MS_IN_A_DAY).
Proof. split; [reflexivity | lia]. Qed.

Lemma _validatePassword_temp_window_witness :
  snd (@_validatePassword (Sample.imports true) "tmp"
         (Some (Sample.alice [("temp-password-token", Some (ABin "sha256:tmp"));
                              ("temp-password-creation-date", Some (ADate 1000))]))
         (1001 + MS_IN_A_DAY)
         Sample.empty_world)
  = inl (VObj "Temp password expired" []).
Proof.
  destruct (@_validatePassword_temp_window (Sample.imports true) "tmp" "sha256:pw"
              (Sample.alice [("temp-password-token", Some (ABin "sha256:tmp"));
                             ("temp-password-creation-date", Some (ADate 1000))])
              1000 (1001 + MS_IN_A_DAY) Sample.empty_world) as (Hmatch & _).
  - reflexivity.
  - reflexivity.
  - discriminate.
  - reflexivity.
  - destruct Hmatch as (_ & _ & Hexpired); [reflexivity|].
    apply Hexpired. lia.
Defined.

Lemma _validatePassword_lockout_witness :
  snd (@_validatePassword (Sample.imports true) "pw"
         (Some (Sample.alice [("incorrect-password-attempts-in-a-row", Some (ANum 25))]))
         5000
         (Sample.alice_world [("incorrect-password-attempts-in-a-row", Some (ANum 25))]))
  = inl (VObj "PasswordAttemptLimitExceeded" [("delay", SStr "24 hours")])
  ∧ snd (@_validatePassword (Sample.imports true) "pw"
           (Some (Sample.alice [("incorrect-password-attempts-in-a-row", Some (ANum 25));
                                ("suspended-at", Some (ADate 5000))]))
           (5000 + MS_IN_A_DAY)
           (Sample.alice_world [("incorrect-password-attempts-in-a-row", Some (ANum 25));
                                ("suspended-at", Some (ADate 5000))]))
    = inr false
  ∧ snd (@_validatePassword (Sample.imports true) "guess"
           (Some (Sample.alice [("incorrect-password-attempts-in-a-row", Some (ANum 25));
                                ("suspended-at", Some (ADate 5000))]))
           (5000 + MS_IN_A_DAY)
           (Sample.alice_world [("incorrect-password-attempts-in-a-row", Some (ANum 25));
                                ("suspended-at", Some (ADate 5000))]))
    = inl (VObj "Incorrect password or temp password" [])
  ∧ users (fst (_allowUserToRetryPassword
                  (Sample.alice [("incorrect-password-attempts-in-a-row", Some (ANum 25));
                                 ("suspended-at", Some (ADate 5000))])
                  (Sample.alice_world [("incorrect-password-attempts-in-a-row", Some (ANum 25));
                                       ("suspended-at", Some (ADate 5000))])))
      !! ("app-1", "alice")
    = Some (cleared (Sample.alice [("incorrect-password-attempts-in-a-row", Some (ANum 25));
                                   ("suspended-at", Some (ADate 5000))]))
  ∧ fst (@_validatePassword (Sample.imports true) "guess"
           (Some (Sample.alice [("incorrect-password-attempts-in-a-row", Some (ANum 25));
                                ("suspended-at", Some (ADate 5000))]))
           (5000 + MS_IN_A_DAY)
           (Sample.alice_world [("incorrect-password-attempts-in-a-row", Some (ANum 25));
                                ("suspended-at", Some (ADate 5000))]))
    = set_users
        (<[("app-1", "alice") :=
             counted (Sample.alice [("incorrect-password-attempts-in-a-row", Some (ANum 25));
                                    ("suspended-at", Some (ADate 5000))])]>
           (users (Sample.alice_world
                     [("incorrect-password-attempts-in-a-row", Some (ANum 25));
                      ("suspended-at", Some (ADate 5000))])))
        (Sample.alice_world [("incorrect-password-attempts-in-a-row", Some (ANum 25));
                             ("suspended-at", Some (ADate 5000))]).
Proof.
  assert (lockout_consistent
            (Sample.alice [("incorrect-password-attempts-in-a-row", Some (ANum 25));
                           ("suspended-at", Some (ADate 5000))])) as Hcons.
  { intros _. exists 25. split; [reflexivity | unfold MAX_INCORRECT_PASSWORD_GUESSES; lia]. }
  split; [|split; [|split; [|split]]].
  - apply (@_validatePassword_lockout (Sample.imports true)).
    + exists 25. split; [reflexivity | unfold MAX_INCORRECT_PASSWORD_GUESSES; lia].
    + left. reflexivity.
  - apply (proj2 (@_validatePassword_lockout (Sample.imports true) "pw" _ _ _) 5000 "sha256:pw").
    + exact Hcons.
    + reflexivity.
    + lia.
    + reflexivity.
    + reflexivity.
  - apply (proj2 (@_validatePassword_lockout (Sample.imports true) "guess" _ _ _)
             5000 "sha256:pw").
    + exact Hcons.
    + reflexivity.
    + lia.
    + reflexivity.
    + discriminate.
    + left. reflexivity.
  - apply (proj2 (@_validatePassword_lockout (Sample.imports true) "pw" _
                    (5000 + MS_IN_A_DAY) _) 5000 "sha256:pw").
    + exact Hcons.
    + reflexivity.
    + lia.
    + reflexivity.
    + reflexivity.
    + reflexivity.
    + reflexivity.
  - apply (proj2 (@_validatePassword_lockout (Sample.imports true) "guess" _
                    (5000 + MS_IN_A_DAY) _) 5000 "sha256:pw").
    + exact Hcons.
    + reflexivity.
    + lia.
    + reflexivity.
    + reflexivity.
    + reflexivity.
    + reflexivity.
    + left. reflexivity.
Defined.

(** ** Subscription events *)

Section SubscriptionEvents.
Context `{Imports}.

(** An update either lands as one conditional write or leaves the store as
    it was. *)
Lemma users_update_inv (params : update_params) (w : world) :
  snd (users_update params w) = inr tt →
  ∃ k it,
    ddb_down w = None
    ∧ users_key (Key params) = Some k
    ∧ forallb action_defined (UpdateExpression params) = true
    ∧ eval_cond (ConditionExpression params) (users w !! k) = true
    ∧ apply_actions (UpdateExpression params) (default (Key params) (users w !! k)) = inr it
    ∧ fst (users_update params w) = set_users (<[k := it]> (users w)) w.
Proof.
  unfold users_update, update.
  destruct (ddb_down w) eqn:Hd; [done|].
  destruct (users_key (Key params)) as [k|] eqn:Hk; [|done].
  destruct (cond_defined (ConditionExpression params)); [|done].
  destruct (forallb action_defined (UpdateExpression params)) eqn:Hact; [|done].
  simpl.
  destruct (eval_cond (ConditionExpression params) (users w !! k)) eqn:Hc; [|done].
  destruct (apply_actions _ _) as [e|it] eqn:Ha; [done|].
  intros _. by exists k, it.
Qed.

Lemma users_update_failed (params : update_params) (w : world) :
  snd (users_update params w) ≠ inr tt → fst (users_update params w) = w.
Proof.
  unfold users_update, update.
  destruct (ddb_down w); [done|].
  destruct (users_key (Key params)); [|done].
  destruct (negb _); [done|].
  destruct (eval_cond _ _); [|done].
  by destruct (apply_actions _ _).
Qed.

Lemma users_update_guard_false (params : update_params) (k : string * string) (w : world) :
  users_key (Key params) = Some k →
  eval_cond (ConditionExpression params) (users w !! k) = false →
  fst (users_update params w) = w ∧ snd (users_update params w) ≠ inr tt.
Proof.
  intros Hk Hc. unfold users_update, update. rewrite Hk, Hc.
  destruct (ddb_down w); [done|]. by destruct (negb _).
Qed.

Lemma stripe_params_key (user : item) (k : string * string)
    (customerId subscriptionId planId status cancelAt ts : option attr) (isProduction : bool) :
  users_key user = Some k →
  users_key (Key (_buildStripeSubscriptionDdbParams user customerId subscriptionId planId
                    status cancelAt ts isProduction)) = Some k.
Proof. intros Hk. by apply users_key_self. Qed.

(** The guard of the event write, on the item under the key: the stored
    timestamp is missing, or it is a number below the incoming one. *)
Lemma stripe_params_guard (user stored : item)
    (customerId subscriptionId planId status cancelAt ts : option attr) (isProduction : bool) :
  eval_cond (ConditionExpression
               (_buildStripeSubscriptionDdbParams user customerId subscriptionId planId
                  status cancelAt ts isProduction)) (Some stored) = true →
  stored !! timestamp_name isProduction = None
  ∨ ∃ t0 t, stored !! timestamp_name isProduction = Some (ANum t0)
            ∧ ts = Some (ANum t) ∧ t0 < t.
Proof.
  cbn [_buildStripeSubscriptionDdbParams ConditionExpression eval_cond].
  intros [_ [Hnone|Hlt]%orb_true_iff]%andb_true_iff.
  - left. by apply bool_decide_eq_true in Hnone.
  - right. unfold attr_lt, attr_of, timestamp_name in *.
    destruct (stored !! _) as [[| t0 | | | |]|]; try done.
    destruct ts as [[| t | | | |]|]; try done.
    exists t0, t. by apply Z.ltb_lt in Hlt.
Qed.

(** Once the write has landed, the item holds the incoming timestamp. *)
Lemma stripe_params_stamp (user base it : item)
    (customerId subscriptionId planId status cancelAt ts : option attr) (isProduction : bool) :
  apply_actions (UpdateExpression
                   (_buildStripeSubscriptionDdbParams user customerId subscriptionId planId
                      status cancelAt ts isProduction)) base = inr it →
  is_Some ts ∧ it !! timestamp_name isProduction = ts.
Proof.
  cbn [_buildStripeSubscriptionDdbParams UpdateExpression].
  destruct customerId, subscriptionId, planId, status, ts; try done.
  destruct (truthy cancelAt) eqn:Hc.
  - destruct cancelAt; [|done]. destruct isProduction; simpl; intros [= <-];
      (split; [done|]); by simplify_map_eq.
  - destruct isProduction; simpl; intros [= <-]; (split; [done|]); by simplify_map_eq.
Qed.

(** C5: on the item stored for the user, an event whose timestamp equals or
    precedes the stored timestamp of its environment changes nothing; an
    event that has been applied changes nothing when applied again; and when
    an event is applied over a stored timestamp, the incoming timestamp is
    strictly greater and becomes the stored one. *)
Theorem subscription_event_in_order (user stored : item) (k : string * string)
    (customerId subscriptionId planId status cancelAt ts : option attr)
    (isProduction : bool) (w : world) :
  let params := _buildStripeSubscriptionDdbParams user customerId subscriptionId planId
                  status cancelAt ts isProduction in
  users_key user = Some k →
  users w !! k = Some stored →
  (∀ t0 t, stored !! timestamp_name isProduction = Some (ANum t0) →
           ts = Some (ANum t) → t ≤ t0 →
           fst (users_update params w) = w ∧ snd (users_update params w) ≠ inr tt)
  ∧ (snd (users_update params w) = inr tt →
       fst (users_update params (fst (users_update params w))) = fst (users_update params w)
       ∧ snd (users_update params (fst (users_update params w))) ≠ inr tt)
  ∧ (∀ t0, stored !! timestamp_name isProduction = Some (ANum t0) →
           snd (users_update params w) = inr tt →
           ∃ t stored', ts = Some (ANum t) ∧ t0 < t
                        ∧ users (fst (users_update params w)) !! k = Some stored'
                        ∧ stored' !! timestamp_name isProduction = Some (ANum t)).
Proof.
  intros params Hk Hw.
  pose proof (stripe_params_key user k customerId subscriptionId planId status cancelAt ts
                isProduction Hk) as Hkey.
  fold params in Hkey.
  split; [|split].
  - intros t0 t Hstored -> Hle.
    apply (users_update_guard_false params k w Hkey).
    rewrite Hw. apply not_true_is_false. intros Hc.
    apply stripe_params_guard in Hc as [Hnone | (t0' & t' & Ht0 & [= <-] & Hlt)].
    + congruence.
    + rewrite Hstored in Ht0. injection Ht0 as <-. lia.
  - intros Hok.
    destruct (users_update_inv params w Hok) as (k' & it & Hd & Hk' & _ & _ & Ha & Hfst).
    rewrite Hkey in Hk'. injection Hk' as <-.
    rewrite Hfst.
    apply (users_update_guard_false params k _ Hkey).
    cbn [users set_users]. rewrite lookup_insert_eq.
    apply not_true_is_false. intros Hc.
    apply stripe_params_stamp in Ha as [Hsome Hts].
    apply stripe_params_guard in Hc as [Hnone | (t0' & t' & Ht0 & Hts' & Hlt)].
    + rewrite Hts in Hnone. rewrite Hnone in Hsome. by destruct Hsome.
    + rewrite Hts, Hts' in Ht0. injection Ht0 as <-. lia.
  - intros t0 Hstored Hok.
    destruct (users_update_inv params w Hok) as (k' & it & Hd & Hk' & _ & Hc & Ha & Hfst).
    rewrite Hkey in Hk'. injection Hk' as <-.
    rewrite Hw in Hc.
    apply stripe_params_guard in Hc as [Hnone | (t0' & t & Ht0 & -> & Hlt)]; [congruence|].
    rewrite Hstored in Ht0. injection Ht0 as <-.
    apply stripe_params_stamp in Ha as [_ Hts].
    exists t, it. rewrite Hfst. cbn [users set_users]. by rewrite lookup_insert_eq.
Qed.

(** The one item an index query returns is stored under its own key and
    carries the attribute asked for. *)
Lemma query_single (a : string) (v : attr) (t : gmap (string * string) item) (user : item) :
  keyed t →
  query a v t = [user] →
  user !! a = Some v ∧ ∃ k, users_key user = Some k ∧ t !! k = Some user.
Proof.
  intros Hkeyed Hq.
  assert (user ∈ query a v t) as Hin by (rewrite Hq; apply list_elem_of_singleton; done).
  unfold query in Hin. apply list_elem_of_filter in Hin as [Hattr Hin].
  apply list_elem_of_fmap in Hin as ([k it] & -> & Hin).
  apply elem_of_map_to_list in Hin. simpl in *.
  split; [done|]. exists k. split; [by apply (Hkeyed k)|done].
Qed.

Lemma getUserByUserId_single (uid : attr) (user : item) (w : world) :
  ddb_down w = None →
  query "user-id" uid (users w) = [user] →
  getUserByUserId (Some uid) w = (w, inr (Some user)).
Proof. intros Hd Hq. unfold getUserByUserId. by rewrite Hd, Hq. Qed.

(** C1, as the code has it: an event that passes the integrity checks but
    whose timestamp is not greater than the stored one leaves the store as it
    was, and the failed condition of the write is thrown on to the webhook
    caller; it is not among the errors the function keeps to itself. *)
Theorem updateSubscriptionInDdb_stale_event (metadata : metadata_t)
    (customerId subscriptionId subscriptionPlanId status cancelAt stripeEventTimestamp : option attr)
    (isProduction : bool) (stripeAccountId : option attr)
    (userId adminId appId : string) (admin app user : item) (t0 t : Z) (w : world) :
  ddb_down w = None →
  keyed (users w) →
  __userbase_user_id metadata = Some userId → userId ≠ "" →
  __userbase_admin_id metadata = Some adminId → adminId ≠ "" →
  __userbase_app_id metadata = Some appId → appId ≠ "" →
  findAdminByAdminId (Some (AStr adminId)) = Some admin →
  getAppByAppId (Some (AStr appId)) = Some app →
  query "user-id" (AStr userId) (users w) = [user] →
  app !! "admin-id" = Some (AStr adminId) →
  user !! "app-id" = Some (AStr appId) →
  admin !! "stripe-account-id" = stripeAccountId →
  app !! (env_prefix isProduction +:+ "-subscription-plan-id") = subscriptionPlanId →
  is_Some customerId → is_Some subscriptionId → is_Some subscriptionPlanId → is_Some status →
  user !! timestamp_name isProduction = Some (ANum t0) →
  stripeEventTimestamp = Some (ANum t) →
  t ≤ t0 →
  updateSubscriptionInDdb metadata customerId subscriptionId subscriptionPlanId status cancelAt
    stripeEventTimestamp isProduction stripeAccountId w
  = (w, inl ConditionalCheckFailedException)
  ∧ swallowed (exn_message ConditionalCheckFailedException) = false.
Proof.
  intros Hd Hkeyed Hu Hune Ha Hane Hp Hpne Hadmin Happ Hq Hown Hbelongs Hacct Hplan
    [c ->] [s ->] [p ->] [st ->] Hstored -> Hle.
  split; [|done].
  destruct (query_single _ _ _ _ Hkeyed Hq) as (Huid & k & Hk & Hw).
  unfold updateSubscriptionInDdb. rewrite Hu, Ha, Hp.
  rewrite !blank_Some by done. cbn [str fmap option_fmap option_map].
  rewrite Hadmin, Happ.
  unfold try_catch, mbind at 1 2 3 4, M_bind, mret, M_ret, throw.
  rewrite (getUserByUserId_single _ _ _ Hd Hq).
  rewrite (proj2 (strict_eq_true _ _) Hown), (proj2 (strict_eq_true _ _) Hbelongs),
    (proj2 (strict_eq_true _ _) Hacct).
  assert ((isProduction && negb (strict_eq (app !! "prod-subscription-plan-id") (Some p))
           || negb isProduction
              && negb (strict_eq (app !! "test-subscription-plan-id") (Some p))) = false) as ->.
  { destruct isProduction; cbn [andb orb negb];
      [change (app !! "prod-subscription-plan-id" = Some p) in Hplan
      |change (app !! "test-subscription-plan-id" = Some p) in Hplan];
      by rewrite (proj2 (strict_eq_true _ _) Hplan). }
  cbn [negb].
  rewrite (users_update_refused _ k).
  - done.
  - done.
  - by apply stripe_params_key.
  - cbn. rewrite Huid. done.
  - cbn [_buildStripeSubscriptionDdbParams UpdateExpression].
    destruct cancelAt as [v|]; [destruct (truthy (Some v))|]; done.
  - rewrite Hw. apply not_true_is_false. intros Hc.
    apply stripe_params_guard in Hc as [Hnone | (t0' & t' & Ht0 & [= <-] & Hlt)].
    + congruence.
    + rewrite Hstored in Ht0. injection Ht0 as <-. lia.
Qed.

(** X7: an event whose plan is not the one configured on the app is dropped
    without a word: the call returns and the store is as it was. *)
Lemma updateSubscriptionInDdb_wrong_plan_dropped (metadata : metadata_t)
    (customerId subscriptionId subscriptionPlanId status cancelAt stripeEventTimestamp : option attr)
    (isProduction : bool) (stripeAccountId : option attr)
    (userId adminId appId : string) (admin app user : item) (w : world) :
  ddb_down w = None →
  __userbase_user_id metadata = Some userId → userId ≠ "" →
  __userbase_admin_id metadata = Some adminId → adminId ≠ "" →
  __userbase_app_id metadata = Some appId → appId ≠ "" →
  findAdminByAdminId (Some (AStr adminId)) = Some admin →
  getAppByAppId (Some (AStr appId)) = Some app →
  query "user-id" (AStr userId) (users w) = [user] →
  app !! "admin-id" = Some (AStr adminId) →
  user !! "app-id" = Some (AStr appId) →
  admin !! "stripe-account-id" = stripeAccountId →
  app !! (env_prefix isProduction +:+ "-subscription-plan-id") ≠ subscriptionPlanId →
  updateSubscriptionInDdb metadata customerId subscriptionId subscriptionPlanId status cancelAt
    stripeEventTimestamp isProduction stripeAccountId w
  = (w, inr tt).
Proof.
  intros Hd Hu Hune Ha Hane Hp Hpne Hadmin Happ Hq Hown Hbelongs Hacct Hplan.
  unfold updateSubscriptionInDdb. rewrite Hu, Ha, Hp.
  rewrite !blank_Some by done. cbn [str fmap option_fmap option_map].
  rewrite Hadmin, Happ.
  unfold try_catch, mbind at 1 2 3 4, M_bind, mret, M_ret, throw.
  rewrite (getUserByUserId_single _ _ _ Hd Hq).
  rewrite (proj2 (strict_eq_true _ _) Hown), (proj2 (strict_eq_true _ _) Hbelongs),
    (proj2 (strict_eq_true _ _) Hacct).
  assert ((isProduction
             && negb (strict_eq (app !! "prod-subscription-plan-id") subscriptionPlanId)
           || negb isProduction
              && negb (strict_eq (app !! "test-subscription-plan-id") subscriptionPlanId))
          = true) as ->.
  { destruct isProduction; cbn [andb orb negb];
      [change (app !! "prod-subscription-plan-id" ≠ subscriptionPlanId) in Hplan
      |change (app !! "test-subscription-plan-id" ≠ subscriptionPlanId) in Hplan];
      by rewrite (proj2 (strict_eq_false _ _) Hplan). }
  done.
Qed.

(** An event of one environment leaves the timestamp of the other alone. *)
Lemma stripe_params_other_env (user base it : item)
    (customerId subscriptionId planId status cancelAt ts : option attr) (isProduction : bool) :
  apply_actions (UpdateExpression
                   (_buildStripeSubscriptionDdbParams user customerId subscriptionId planId
                      status cancelAt ts isProduction)) base = inr it →
  it !! timestamp_name (negb isProduction) = base !! timestamp_name (negb isProduction).
Proof.
  cbn [_buildStripeSubscriptionDdbParams UpdateExpression].
  destruct customerId, subscriptionId, planId, status, ts; try done.
  destruct (truthy cancelAt) eqn:Hc.
  - destruct cancelAt; [|done]. destruct isProduction; simpl; intros [= <-]; by simplify_map_eq.
  - destruct isProduction; simpl; intros [= <-]; by simplify_map_eq.
Qed.

Lemma getUserByUserId_inv (userId : option attr) (w w0 : world) (r : exn + option item) :
  getUserByUserId userId w = (w0, r) →
  w0 = w ∧ ∀ user, r = inr (Some user) → In user (snd <$> map_to_list (users w)).
Proof.
  unfold getUserByUserId. destruct (ddb_down w); [by intros [= <- <-]|].
  destruct userId as [uid|]; [|by intros [= <- <-]].
  destruct (query "user-id" uid (users w)) as [|u0 [|]] eqn:Hq; intros [= <- <-];
    (split; [done|]); intros user [= <-].
  assert (u0 ∈ query "user-id" uid (users w)) as Hel by (rewrite Hq; by left).
  unfold query in Hel. apply list_elem_of_filter in Hel as [_ Hel].
  by apply list_elem_of_In.
Qed.

(** The webhook entry point changes the store by its one conditional write
    or not at all. *)
Lemma updateSubscriptionInDdb_writes (metadata : metadata_t)
    (customerId subscriptionId subscriptionPlanId status cancelAt stripeEventTimestamp : option attr)
    (isProduction : bool) (stripeAccountId : option attr) (w : world) :
  fst (updateSubscriptionInDdb metadata customerId subscriptionId subscriptionPlanId status
         cancelAt stripeEventTimestamp isProduction stripeAccountId w) = w
  ∨ ∃ user, In user (snd <$> map_to_list (users w))
      ∧ fst (updateSubscriptionInDdb metadata customerId subscriptionId subscriptionPlanId status
               cancelAt stripeEventTimestamp isProduction stripeAccountId w)
        = fst (users_update
                 (_buildStripeSubscriptionDdbParams user customerId subscriptionId
                    subscriptionPlanId status cancelAt stripeEventTimestamp isProduction) w)
      ∧ snd (users_update
               (_buildStripeSubscriptionDdbParams user customerId subscriptionId
                  subscriptionPlanId status cancelAt stripeEventTimestamp isProduction) w)
        = inr tt.
Proof.
  unfold updateSubscriptionInDdb. rewrite try_catch_run, bind_run.
  destruct (blank (__userbase_user_id metadata)); [by left|]. cbn [mret M_ret].
  rewrite bind_run. destruct (blank (__userbase_app_id metadata)); [by left|]. cbn [mret M_ret].
  rewrite bind_run. destruct (blank (__userbase_admin_id metadata)); [by left|]. cbn [mret M_ret].
  rewrite bind_run.
  destruct (getUserByUserId (str (__userbase_user_id metadata)) w) as [w0 [e|user]] eqn:Hg;
    apply getUserByUserId_inv in Hg as [-> Hin].
  { left. by destruct (swallowed _). }
  destruct (findAdminByAdminId _) as [admin|]; [|by left].
  destruct (getAppByAppId _) as [app|]; [|by left].
  destruct user as [user|]; [|by left].
  destruct (negb (strict_eq (app !! "admin-id") _)); [by left|].
  destruct (negb (strict_eq (user !! "app-id") _)); [by left|].
  destruct (negb (strict_eq (admin !! "stripe-account-id") _)); [by left|].
  match goal with |- context [if ?b then throw (Error "IncorrectSubscriptionPlanId") else _] =>
    destruct b; [by left|] end.
  destruct (users_update _ w) as [w1 [e|[]]] eqn:Hupd.
  - left. assert (w1 = w) as ->.
    { pose proof (users_update_failed
                    (_buildStripeSubscriptionDdbParams user customerId subscriptionId
                       subscriptionPlanId status cancelAt stripeEventTimestamp isProduction) w)
        as Hf. rewrite Hupd in Hf. apply Hf. done. }
    by destruct (swallowed _).
  - right. exists user. split; [by apply Hin|]. by rewrite Hupd.
Qed.

(** X8: whatever events arrive and in whatever order, the timestamp stored
    for an environment on an item never goes down. *)
Lemma updateSubscriptionInDdb_timestamp_monotone (metadata : metadata_t)
    (customerId subscriptionId subscriptionPlanId status cancelAt stripeEventTimestamp : option attr)
    (isProduction : bool) (stripeAccountId : option attr) (w : world)
    (k : string * string) (stored : item) (env : bool) (t0 : Z) :
  keyed (users w) →
  users w !! k = Some stored →
  stored !! timestamp_name env = Some (ANum t0) →
  ∃ stored' t1,
    users (fst (updateSubscriptionInDdb metadata customerId subscriptionId subscriptionPlanId
                  status cancelAt stripeEventTimestamp isProduction stripeAccountId w)) !! k
      = Some stored'
    ∧ stored' !! timestamp_name env = Some (ANum t1)
    ∧ t0 ≤ t1.
Proof.
  intros Hkeyed Hw Hts.
  destruct (updateSubscriptionInDdb_writes metadata customerId subscriptionId subscriptionPlanId
              status cancelAt stripeEventTimestamp isProduction stripeAccountId w)
    as [-> | (user & Hin & -> & Hok)].
  { exists stored, t0. split; [done|]. split; [done|lia]. }
  apply list_elem_of_In, list_elem_of_fmap in Hin as ([k' user'] & -> & Hin).
  apply elem_of_map_to_list in Hin. cbn [snd] in *.
  pose proof (Hkeyed _ _ Hin) as Hk'.
  destruct (users_update_inv _ _ Hok) as (k'' & it & Hd & Hkey & _ & Hc & Ha & ->).
  rewrite (stripe_params_key _ _ _ _ _ _ _ _ _ Hk') in Hkey. injection Hkey as <-.
  cbn [users set_users].
  destruct (decide (k' = k)) as [->|Hne].
  2:{ rewrite lookup_insert_ne by done. exists stored, t0. split; [done|]. split; [done|lia]. }
  rewrite lookup_insert_eq. rewrite Hw in Hin. injection Hin as <-.
  rewrite Hw in Hc, Ha. cbn [default from_option id] in Ha.
  exists it. destruct (decide (env = isProduction)) as [->|Henv].
  - apply stripe_params_guard in Hc as [Hnone | (t0' & t & Ht0 & -> & Hlt)]; [congruence|].
    rewrite Hts in Ht0. injection Ht0 as <-.
    apply stripe_params_stamp in Ha as [_ Hstamp]. exists t. split; [done|]. split; [done|lia].
  - assert (env = negb isProduction) as -> by (by destruct env, isProduction).
    apply stripe_params_other_env in Ha. exists t0. rewrite Ha. split; [done|]. split; [done|lia].
Qed.

End SubscriptionEvents.

Lemma keyed_insert (t : gmap (string * string) item) (k : string * string) (it : item) :
  keyed t → users_key it = Some k → keyed (<[k := it]> t).
Proof.
  intros Ht Hk k' it' Hl.
  apply lookup_insert_Some in Hl as [[<- <-] | [_ Hl]]; [done | by apply Ht].
Qed.

Lemma keyed_empty : keyed ∅.
Proof. intros k it Hl. by rewrite lookup_empty in Hl. Qed.

Lemma keyed_alice_world (extra : list (string * option attr)) :
  users_key (Sample.alice extra) = Some ("app-1", "alice") →
  keyed (users (Sample.alice_world extra)).
Proof. intros Hk. apply keyed_insert; [apply keyed_empty | done]. Qed.

(** C1 as written fails on a stale event: with timestamp 100 stored, the
    event of timestamp 50 leaves the record as it was, but the call ends in
    the thrown [ConditionalCheckFailedException] instead of returning. *)
Lemma stale_event_is_rethrown :
  @updateSubscriptionInDdb (Sample.imports true) Sample.metadata
    (Some (AStr "cus-1")) (Some (AStr "sub-1")) (Some (AStr "plan-gold"))
    (Some (AStr "active")) None (Some (ANum 50)) true (Some (AStr "acct-1"))
    (Sample.alice_world [("prod-stripe-event-timestamp", Some (ANum 100))])
  = (Sample.alice_world [("prod-stripe-event-timestamp", Some (ANum 100))],
     inl ConditionalCheckFailedException)
  ∧ (inl ConditionalCheckFailedException : exn + unit) ≠ inr tt.
Proof. split; [reflexivity | discriminate]. Qed.

Lemma updateSubscriptionInDdb_stale_event_witness :
  @updateSubscriptionInDdb (Sample.imports true) Sample.metadata
    (Some (AStr "cus-1")) (Some (AStr "sub-1")) (Some (AStr "plan-gold"))
    (Some (AStr "active")) None (Some (ANum 100)) true (Some (AStr "acct-1"))
    (Sample.alice_world [("prod-stripe-event-timestamp", Some (ANum 100))])
  = (Sample.alice_world [("prod-stripe-event-timestamp", Some (ANum 100))],
     inl ConditionalCheckFailedException).
Proof.
  apply (@updateSubscriptionInDdb_stale_event (Sample.imports true) Sample.metadata
           (Some (AStr "cus-1")) (Some (AStr "sub-1")) (Some (AStr "plan-gold"))
           (Some (AStr "active")) None (Some (ANum 100)) true (Some (AStr "acct-1"))
           "user-1" "admin-1" "app-1" Sample.admin Sample.app
           (Sample.alice [("prod-stripe-event-timestamp", Some (ANum 100))]) 100 100).
  - reflexivity.
  - apply keyed_alice_world. reflexivity.
  - reflexivity.
  - discriminate.
  - reflexivity.
  - discriminate.
  - reflexivity.
  - discriminate.
  - reflexivity.
  - reflexivity.
  - reflexivity.
  - reflexivity.
  - reflexivity.
  - reflexivity.
  - reflexivity.
  - eexists; reflexivity.
  - eexists; reflexivity.
  - eexists; reflexivity.
  - eexists; reflexivity.
  - reflexivity.
  - reflexivity.
  - lia.
Defined.

Lemma subscription_event_in_order_witness :
  fst (users_update (Sample.event 100)
         (Sample.alice_world [("prod-stripe-event-timestamp", Some (ANum 100))]))
  = Sample.alice_world [("prod-stripe-event-timestamp", Some (ANum 100))]
  ∧ ∃ stored',
      users (fst (users_update (Sample.event 101)
                    (Sample.alice_world [("prod-stripe-event-timestamp", Some (ANum 100))])))
        !! ("app-1", "alice") = Some stored'
      ∧ stored' !! "prod-stripe-event-timestamp" = Some (ANum 101).
Proof.
  split.
  - destruct (subscription_event_in_order (Sample.alice [])
                (Sample.alice [("prod-stripe-event-timestamp", Some (ANum 100))])
                ("app-1", "alice")
                (Some (AStr "cus-1")) (Some (AStr "sub-1")) (Some (AStr "plan-gold"))
                (Some (AStr "active")) None (Some (ANum 100)) true
                (Sample.alice_world [("prod-stripe-event-timestamp", Some (ANum 100))]))
      as (Hstale & _ & _); [reflexivity | reflexivity |].
    apply (Hstale 100 100); [reflexivity | reflexivity | lia].
  - destruct (subscription_event_in_order (Sample.alice [])
                (Sample.alice [("prod-stripe-event-timestamp", Some (ANum 100))])
                ("app-1", "alice")
                (Some (AStr "cus-1")) (Some (AStr "sub-1")) (Some (AStr "plan-gold"))
                (Some (AStr "active")) None (Some (ANum 101)) true
                (Sample.alice_world [("prod-stripe-event-timestamp", Some (ANum 100))]))
      as (_ & _ & Hnewer); [reflexivity | reflexivity |].
    destruct (Hnewer 100) as (t & stored' & Ht & _ & Hl & Hs); [reflexivity | reflexivity |].
    exists stored'. injection Ht as <-. split; [exact Hl | exact Hs].
Defined.

(** ** Key validation *)

Section KeyValidation.
Context `{Imports}.

(** C2, as the code has it: a client message that differs from the expected
    one and a seed commit whose condition fails (flag already cleared, or
    user id or public key changed) both end in an Unauthorized response and
    leave the store as it was, but not in the same one: the first says
    "Failed to validate key", the second "Invalid seed". *)
Theorem validateKey_failure_responses (validationMessage : string)
    (userProvidedValidationMessage : option string) (conn : option exn)
    (admin app user : item) (w : world) :
  (userProvidedValidationMessage ≠ Some (base64 validationMessage) →
     validateKey validationMessage userProvidedValidationMessage conn admin app user w
       = (w, inr (errorResponse Unauthorized "Failed to validate key")))
  ∧ (∀ k,
       userProvidedValidationMessage = Some (base64 validationMessage) →
       truthy (user !! "seed-not-saved-yet") = true →
       ddb_down w = None →
       users_key user = Some k →
       is_Some (user !! "user-id") →
       is_Some (user !! "public-key") →
       attr_of (users w !! k) "seed-not-saved-yet" = None
       ∨ attr_of (users w !! k) "user-id" ≠ user !! "user-id"
       ∨ attr_of (users w !! k) "public-key" ≠ user !! "public-key" →
       validateKey validationMessage userProvidedValidationMessage conn admin app user w
         = (w, inr (errorResponse Unauthorized "Invalid seed")))
  ∧ errorResponse Unauthorized "Invalid seed"
    ≠ errorResponse Unauthorized "Failed to validate key".
Proof.
  split; [|split; [|done]].
  - intros Hne. unfold validateKey.
    rewrite bool_decide_eq_false_2; [done | congruence].
  - intros k -> Hflag Hd Hk Huid Hpk Hstale. unfold validateKey.
    rewrite bool_decide_eq_true_2 by done. rewrite Hflag.
    unfold try_catch, mbind, M_bind, mret, M_ret, userSavedSeed.
    rewrite (users_update_refused _ k); [done | done | by apply users_key_self | | done |].
    + cbn. by rewrite !bool_decide_eq_true_2.
    + cbn. apply not_true_is_false.
      intros [[Hf%bool_decide_eq_true Hu%bool_decide_eq_true]%andb_true_iff
                Hp%bool_decide_eq_true]%andb_true_iff.
      destruct Hstale as [Hs|[Hs|Hs]].
      * rewrite Hs in Hf. by destruct Hf.
      * by destruct Hu.
      * by destruct Hp.
Qed.

End KeyValidation.

(** C2 as written fails: the mismatch of the client message and the refused
    seed commit are told apart by the message of the response. Here alice
    still carries the bootstrap flag in the copy the caller holds, while the
    stored item has lost it. *)
Lemma validateKey_failures_differ :
  snd (@validateKey (Sample.imports true) "challenge" (Some "guess") None
         Sample.admin Sample.app (Sample.alice [("seed-not-saved-yet", Some (ABool true))])
         (Sample.alice_world []))
  = inr (errorResponse Unauthorized "Failed to validate key")
  ∧ snd (@validateKey (Sample.imports true) "challenge" (Some "challenge") None
         Sample.admin Sample.app (Sample.alice [("seed-not-saved-yet", Some (ABool true))])
         (Sample.alice_world []))
  = inr (errorResponse Unauthorized "Invalid seed")
  ∧ snd (@validateKey (Sample.imports true) "challenge" (Some "guess") None
           Sample.admin Sample.app (Sample.alice [("seed-not-saved-yet", Some (ABool true))])
           (Sample.alice_world []))
    ≠ snd (@validateKey (Sample.imports true) "challenge" (Some "challenge") None
             Sample.admin Sample.app (Sample.alice [("seed-not-saved-yet", Some (ABool true))])
             (Sample.alice_world [])).
Proof. split; [reflexivity | split; [reflexivity | discriminate]]. Qed.

Lemma validateKey_failure_responses_witness :
  @validateKey (Sample.imports true) "challenge" (Some "guess") None
    Sample.admin Sample.app (Sample.alice []) (Sample.alice_world [])
  = (Sample.alice_world [], inr (errorResponse Unauthorized "Failed to validate key"))
  ∧ @validateKey (Sample.imports true) "challenge" (Some "challenge") None
      Sample.admin Sample.app (Sample.alice [("seed-not-saved-yet", Some (ABool true))])
      (Sample.alice_world [])
    = (Sample.alice_world [], inr (errorResponse Unauthorized "Invalid seed")).
Proof.
  split.
  - apply (@validateKey_failure_responses (Sample.imports true)). discriminate.
  - apply (proj1 (proj2 (@validateKey_failure_responses (Sample.imports true) "challenge"
                           (Some "challenge") None Sample.admin Sample.app
                           (Sample.alice [("seed-not-saved-yet", Some (ABool true))])
                           (Sample.alice_world []))) ("app-1", "alice")).
    + reflexivity.
    + reflexivity.
    + reflexivity.
    + reflexivity.
    + eexists; reflexivity.
    + eexists; reflexivity.
    + left. reflexivity.
Defined.

(** ** Sign-up and sign-in *)

Section AccountsProofs.
Context `{Imports}.

Lemma obj_lookup (props : list (string * option attr)) (k : string) :
  obj props !! k = props_get k props.
Proof.
  induction props as [|[k' [v|]] rest IH]; simpl.
  - apply lookup_empty.
  - destruct (String.eqb_spec k k') as [->|Hne].
    + apply lookup_insert_eq.
    + rewrite lookup_insert_ne by done. apply IH.
  - rewrite IH. by destruct (String.eqb k k').
Qed.

Lemma stateless_ret {A} (x : A) : stateless (mret x).
Proof. done. Qed.

Lemma stateless_throw {A} (e : exn) : stateless (@throw A e).
Proof. done. Qed.

Lemma stateless_bind {A B} (m : M A) (f : A → M B) :
  stateless m → (∀ x, stateless (f x)) → stateless (m ≫= f).
Proof.
  intros Hm Hf w. unfold mbind, M_bind. specialize (Hm w).
  destruct (m w) as [w1 [e|x]]; simpl in *; subst; [done | apply Hf].
Qed.

Lemma stateless_try_catch {A} (m : M A) (h : exn → M A) :
  stateless m → (∀ e, stateless (h e)) → stateless (try_catch m h).
Proof.
  intros Hm Hh w. unfold try_catch. specialize (Hm w).
  destruct (m w) as [w1 [e|x]]; simpl in *; subst; [apply Hh | done].
Qed.

Lemma stateless_if {A} (b : bool) (m1 m2 : M A) :
  stateless m1 → stateless m2 → stateless (if b then m1 else m2).
Proof. by destruct b. Qed.

Lemma stateless_run {A} (m : M A) (w : world) (r : exn + A) :
  stateless m → snd (m w) = r → m w = (w, r).
Proof. intros Hm <-. specialize (Hm w). destruct (m w); simpl in *. by subst. Qed.

Lemma stateless_fst {A} (m : M A) (w w0 : world) (r : exn + A) :
  stateless m → m w = (w0, r) → w0 = w.
Proof. intros Hm Hr. specialize (Hm w). by rewrite Hr in Hm. Qed.

Lemma _validateProfile_loop_stateless (kv : list (string * scalar)) (counter : Z) :
  stateless (_validateProfile_loop kv counter).
Proof.
  revert counter. induction kv as [|[key value] rest IH]; intros counter; simpl.
  - apply stateless_ret.
  - apply stateless_if; [apply stateless_throw|].
    destruct value; try apply stateless_throw.
    repeat (apply stateless_if; [apply stateless_throw|]). apply IH.
Qed.

Lemma _validateProfile_stateless (profile : attr) : stateless (_validateProfile profile).
Proof.
  destruct profile; try apply stateless_throw.
  apply stateless_bind; [apply _validateProfile_loop_stateless|].
  intros c. apply stateless_if; [apply stateless_throw | apply stateless_ret].
Qed.

Lemma _validateUsernameInput_stateless (username : option attr) :
  stateless (_validateUsernameInput username).
Proof.
  destruct username as [[]|]; try apply stateless_throw.
  repeat (apply stateless_if || apply stateless_throw || apply stateless_ret).
Qed.

Lemma _validateSignUpInput_stateless appId username passwordToken publicKey passwordSalts
    keySalts passwordBasedBackup email profile :
  stateless (_validateSignUpInput appId username passwordToken publicKey passwordSalts
               keySalts passwordBasedBackup email profile).
Proof.
  apply stateless_try_catch; [|intros e; apply stateless_throw].
  repeat (apply stateless_bind; [|intros _]);
    repeat (apply stateless_if || apply stateless_throw || apply stateless_ret).
  - apply _validateUsernameInput_stateless.
  - destruct email; repeat (apply stateless_if || apply stateless_throw || apply stateless_ret).
  - destruct profile;
      repeat (apply stateless_if || apply stateless_throw || apply stateless_ret
              || apply _validateProfile_stateless).
Qed.

Lemma _validateSubscription_stateless status cancelAt appId :
  stateless (_validateSubscription status cancelAt appId).
Proof.
  unfold _validateSubscription. apply stateless_if; [|apply stateless_ret].
  intros w. by destruct (_ <=? _).
Qed.

(** The closing [catch] of a route always sets a status. *)
Lemma route_catch_sets_status (message : string) (e : exn) (w w' : world) (r : response) :
  route_catch message e w = (w', inr r) → w' = w ∧ is_Some (res_status r).
Proof. destruct e; intros [= <- <-]; eauto. Qed.

Lemma signUp_item_lookup (req : request) (rnd : entropy) (now : Z) (k : string) :
  k ≠ "email" → k ≠ "profile" →
  signUp_item req rnd now !! k =
    props_get k [
      ("username", lower (body_username req));
      ("password-token", ABin <$> (sha256_hash <$> body_passwordToken req));
      ("password-salt", str (body_passwordSalts req ≫= passwordSalt));
      ("password-token-salt", str (body_passwordSalts req ≫= passwordTokenSalt));
      ("app-id", str (query_appId req));
      ("user-id", Some (AStr (uuid rnd)));
      ("public-key", str (body_publicKey req));
      ("encryption-key-salt", str (body_keySalts req ≫= encryptionKeySalt));
      ("diffie-hellman-key-salt", str (body_keySalts req ≫= dhKeySalt));
      ("hmac-key-salt", str (body_keySalts req ≫= hmacKeySalt));
      ("seed-not-saved-yet", Some (ABool true));
      ("creation-date", Some (ADate now));
      ("password-based-encryption-key-salt",
         str (body_passwordBasedBackup req ≫= passwordBasedEncryptionKeySalt));
      ("password-encrypted-seed", str (body_passwordBasedBackup req ≫= passwordEncryptedSeed))
    ].
Proof.
  intros He Hp. unfold signUp_item, _buildSignUpParams. cbn [Item].
  rewrite <- obj_lookup.
  destruct (body_profile req) as [p|]; [destruct (truthy (Some p))|];
    (destruct (body_email req) as [e|]; [destruct (truthy (str (Some e)))|]);
    by rewrite ?lookup_insert_ne by done.
Qed.

Lemma signUp_item_key (req : request) (rnd : entropy) (now : Z) (a n : string) :
  query_appId req = Some a → body_username req = Some (AStr n) →
  users_key (signUp_item req rnd now) = Some (a, toLowerCase n).
Proof.
  intros Ha Hn. unfold users_key.
  rewrite !signUp_item_lookup by done. simpl. by rewrite Ha, Hn.
Qed.

(** A sign-up that reaches the write comes down to the conditional write of the item
    and the creation of the session. *)
Lemma signUp_reaches_write_run (req : request) (rnd : entropy) (now : Z) (w : world) :
  signUp_reaches_write req w →
  signUp req rnd now w =
    try_catch
      (try_catch
         (users_put {| Item := signUp_item req rnd now;
                       put_ConditionExpression :=
                         COr (attribute_not_exists "username")
                             (attribute_exists "seed-not-saved-yet") |})
         (λ e, if bool_decide (exn_name e = Some "ConditionalCheckFailedException")
               then throw (VHttp Conflict (VStr "UsernameAlreadyExists"))
               else throw e) ;;
       session ← createSession (Some (AStr (uuid rnd))) (str (query_appId req)) rnd now;
       mret {| res_status := None; res_body := PSignedUp (uuid rnd) session |})
      (route_catch "Failed to sign up user") w.
Proof.
  intros (Hv & app & admin & Happ & Hlive & Hadmin & Hlive' & Hsub).
  apply stateless_run in Hv; [|apply _validateSignUpInput_stateless].
  apply stateless_run in Hsub; [|apply _validateSubscription_stateless].
  unfold signUp. unfold try_catch at 1 3.
  rewrite (bind_ok _ _ _ _ _ Hv), Happ, Hlive, Hadmin, Hlive'.
  rewrite (bind_ok _ _ _ _ _ Hsub). done.
Qed.

Lemma users_put_lands (params : put_params) (k : string * string) (w : world) :
  ddb_down w = None →
  users_key (Item params) = Some k →
  cond_defined (put_ConditionExpression params) = true →
  eval_cond (put_ConditionExpression params) (users w !! k) = true →
  users_put params w = (set_users (<[k := Item params]> (users w)) w, inr tt).
Proof.
  intros Hd Hk Hdef Hc. unfold users_put, put. by rewrite Hd, Hk, Hdef, Hc.
Qed.

Lemma users_put_refused (params : put_params) (k : string * string) (w : world) :
  ddb_down w = None →
  users_key (Item params) = Some k →
  cond_defined (put_ConditionExpression params) = true →
  eval_cond (put_ConditionExpression params) (users w !! k) = false →
  users_put params w = (w, inl ConditionalCheckFailedException).
Proof.
  intros Hd Hk Hdef Hc. unfold users_put, put. by rewrite Hd, Hk, Hdef, Hc.
Qed.

Lemma createSession_run (userId appId : option attr) (rnd : entropy) (now : Z) (w : world) :
  ddb_down w = None →
  createSession userId appId rnd now w =
    (set_sessions (<[sessionId_hex rnd := session_item userId appId rnd now]> (sessions w)) w,
     inr {| sessionId := sessionId_hex rnd; authToken := authToken_hex rnd;
            creationDate := now |}).
Proof.
  intros Hd. unfold createSession, sessions_put, put, mbind, M_bind. rewrite Hd.
  cbn [Item put_ConditionExpression]. fold (session_item userId appId rnd now).
  assert (sessions_key (session_item userId appId rnd now) = Some (sessionId_hex rnd)) as ->.
  { unfold sessions_key, session_item. by rewrite obj_lookup. }
  done.
Qed.

Lemma users_put_inv (params : put_params) (w w1 : world) :
  users_put params w = (w1, inr tt) →
  ddb_down w = None
  ∧ ∃ k, users_key (Item params) = Some k
         ∧ eval_cond (put_ConditionExpression params) (users w !! k) = true
         ∧ w1 = set_users (<[k := Item params]> (users w)) w.
Proof.
  unfold users_put, put.
  destruct (ddb_down w); [done|].
  destruct (users_key (Item params)) as [k|]; [|done].
  destruct (negb _); [done|].
  destruct (eval_cond _ _) eqn:Hc; [|done].
  intros [= <-]. eauto.
Qed.

(** What a successful sign-up has gone through and has written. *)
Lemma signUp_success_inv (req : request) (rnd : entropy) (now : Z) (w w1 : world)
    (userId : string) (session : session_t) :
  signUp req rnd now w
    = (w1, inr {| res_status := None; res_body := PSignedUp userId session |}) →
  signUp_reaches_write req w
  ∧ ddb_down w = None
  ∧ userId = uuid rnd
  ∧ ∃ k, users_key (signUp_item req rnd now) = Some k
         ∧ users w1 = <[k := signUp_item req rnd now]> (users w)
         ∧ ddb_down w1 = None.
Proof.
  intros Hrun. unfold signUp, try_catch at 1 in Hrun.
  destruct (_validateSignUpInput (query_appId req) (body_username req) (body_passwordToken req)
              (body_publicKey req) (body_passwordSalts req) (body_keySalts req)
              (body_passwordBasedBackup req) (body_email req) (body_profile req) w)
    as [w0 [e|[]]] eqn:Hv.
  { rewrite (bind_throw _ _ _ _ _ Hv) in Hrun.
    apply route_catch_sets_status in Hrun as [_ [? ?]]. done. }
  pose proof (stateless_fst _ _ _ _ (_validateSignUpInput_stateless _ _ _ _ _ _ _ _ _) Hv).
  subst w0.
  rewrite (bind_ok _ _ _ _ _ Hv) in Hrun.
  destruct (getAppByAppId _) as [app|] eqn:Happ; [|done].
  destruct (truthy (app !! "deleted")) eqn:Hlive; [done|].
  destruct (findAdminByAdminId _) as [admin|] eqn:Hadmin; [|done].
  destruct (truthy (admin !! "deleted")) eqn:Hlive'; [done|].
  destruct (_validateSubscription (admin !! "stripe-saas-subscription-status")
              (admin !! "stripe-cancel-saas-subscription-at") (query_appId req) w)
    as [w0 [e|[]]] eqn:Hsub.
  { rewrite (bind_throw _ _ _ _ _ Hsub) in Hrun.
    apply route_catch_sets_status in Hrun as [_ [? ?]]. done. }
  pose proof (stateless_fst _ _ _ _ (_validateSubscription_stateless _ _ _) Hsub).
  subst w0.
  rewrite (bind_ok _ _ _ _ _ Hsub) in Hrun.
  unfold try_catch, mbind, M_bind in Hrun.
  destruct (users_put _ w) as [w2 [e|[]]] eqn:Hput.
  { destruct (bool_decide _); simpl in Hrun; [done|].
    apply route_catch_sets_status in Hrun as [_ [? ?]]. done. }
  apply users_put_inv in Hput as (Hd & k & Hk & Hc & ->).
  rewrite createSession_run in Hrun by done.
  injection Hrun as <- <- <-.
  split.
  { split; [by rewrite Hv|]. exists app, admin. by rewrite Hsub. }
  split; [done|]. split; [done|]. by exists k.
Qed.

Lemma users_put_failed (params : put_params) (w w1 : world) (e : exn) :
  users_put params w = (w1, inl e) → w1 = w.
Proof.
  unfold users_put, put. destruct (ddb_down w); [by intros [= <- _]|].
  destruct (users_key (Item params)); [|by intros [= <- _]].
  destruct (negb _); [by intros [= <- _]|].
  by destruct (eval_cond _ _); intros [= <- _].
Qed.

Lemma createSession_users (userId appId : option attr) (rnd : entropy) (now : Z) (w : world) :
  users (fst (createSession userId appId rnd now w)) = users w.
Proof.
  unfold createSession. rewrite bind_run. unfold sessions_put.
  destruct (ddb_down w); [done|]. by destruct (put sessions_key _ (sessions w)).
Qed.

Lemma route_catch_fst (message : string) (e : exn) (w : world) :
  fst (route_catch message e w) = w.
Proof. by destruct e. Qed.

Lemma route_catch_not_signed_up (message : string) (e : exn) (w : world)
    (userId : string) (session : session_t) :
  snd (route_catch message e w)
  ≠ inr {| res_status := None; res_body := PSignedUp userId session |}.
Proof. by destruct e. Qed.

(** A sign-up writes the users table, and succeeds, only past the guard of
    its put: in every other case the table is as it was and the answer is
    not a success. *)
Lemma signUp_guarded (req : request) (rnd : entropy) (now : Z) (w : world) :
  (users (fst (signUp req rnd now w)) = users w
   ∧ ∀ userId session,
       snd (signUp req rnd now w)
       ≠ inr {| res_status := None; res_body := PSignedUp userId session |})
  ∨ ∃ k, users_key (signUp_item req rnd now) = Some k
         ∧ eval_cond (COr (attribute_not_exists "username")
                          (attribute_exists "seed-not-saved-yet")) (users w !! k) = true.
Proof.
  unfold signUp. rewrite try_catch_run, bind_run.
  destruct (_validateSignUpInput (query_appId req) (body_username req) (body_passwordToken req)
              (body_publicKey req) (body_passwordSalts req) (body_keySalts req)
              (body_passwordBasedBackup req) (body_email req) (body_profile req) w)
    as [w0 [e|[]]] eqn:Hv;
    pose proof (stateless_fst _ _ _ _ (_validateSignUpInput_stateless _ _ _ _ _ _ _ _ _) Hv);
    subst w0.
  { left. split; [by rewrite route_catch_fst | intros; apply route_catch_not_signed_up]. }
  destruct (getAppByAppId _) as [app|]; [|by left].
  destruct (truthy (app !! "deleted")); [by left|].
  destruct (findAdminByAdminId _) as [admin|]; [|by left].
  destruct (truthy (admin !! "deleted")); [by left|].
  rewrite bind_run.
  destruct (_validateSubscription (admin !! "stripe-saas-subscription-status")
              (admin !! "stripe-cancel-saas-subscription-at") (query_appId req) w)
    as [w0 [e|[]]] eqn:Hsub;
    pose proof (stateless_fst _ _ _ _ (_validateSubscription_stateless _ _ _) Hsub); subst w0.
  { left. split; [by rewrite route_catch_fst | intros; apply route_catch_not_signed_up]. }
  rewrite bind_run, try_catch_run.
  destruct (users_put _ w) as [w2 [e|[]]] eqn:Hput.
  - apply users_put_failed in Hput as ->. left.
    destruct (bool_decide _); cbn [throw];
      (split; [by rewrite route_catch_fst | intros; apply route_catch_not_signed_up]).
  - apply users_put_inv in Hput as (_ & k & Hk & Hc & _). right. by exists k.
Qed.

(** C7: a sign-up for an app id and user name under which an item is already
    stored. If that item no longer carries the seed-not-saved-yet flag, the
    sign-up never succeeds and leaves the users table as it was, and a
    request that gets as far as the write is answered with the
    UsernameAlreadyExists conflict; if the item still carries the flag, such
    a request succeeds and the item is replaced by the new user, with the new
    user id and the key material of the request. *)
Theorem signUp_on_existing_username (req : request) (rnd : entropy) (now : Z) (w : world)
    (appId username : string) (existing : item) :
  query_appId req = Some appId →
  body_username req = Some (AStr username) →
  users w !! (appId, toLowerCase username) = Some existing →
  keyed (users w) →
  (existing !! "seed-not-saved-yet" = None →
     users (fst (signUp req rnd now w)) = users w
     ∧ (∀ userId session,
          snd (signUp req rnd now w)
          ≠ inr {| res_status := None; res_body := PSignedUp userId session |})
     ∧ (signUp_reaches_write req w → ddb_down w = None →
          signUp req rnd now w
            = (w, inr {| res_status := Some Conflict;
                         res_body := PText "UsernameAlreadyExists" |})))
  ∧ (is_Some (existing !! "seed-not-saved-yet") →
     signUp_reaches_write req w → ddb_down w = None →
     ∃ session w',
       signUp req rnd now w
         = (w', inr {| res_status := None; res_body := PSignedUp (uuid rnd) session |})
       ∧ users w' !! (appId, toLowerCase username) = Some (signUp_item req rnd now)
       ∧ signUp_item req rnd now !! "user-id" = Some (AStr (uuid rnd))
       ∧ signUp_item req rnd now !! "public-key" = str (body_publicKey req)
       ∧ signUp_item req rnd now !! "password-token"
           = ABin <$> (sha256_hash <$> body_passwordToken req)
       ∧ signUp_item req rnd now !! "encryption-key-salt"
           = str (body_keySalts req ≫= encryptionKeySalt)
       ∧ signUp_item req rnd now !! "seed-not-saved-yet" = Some (ABool true)).
Proof.
  intros Ha Hn Hex Hkeyed.
  pose proof (signUp_item_key req rnd now _ _ Ha Hn) as Hk.
  assert (is_Some (existing !! "username")) as Hu.
  { apply Hkeyed in Hex. unfold users_key in Hex.
    destruct (existing !! "app-id") as [[]|]; try done.
    destruct (existing !! "username") as [[]|]; try done. }
  set (params := {| Item := signUp_item req rnd now;
                    put_ConditionExpression :=
                      COr (attribute_not_exists "username")
                          (attribute_exists "seed-not-saved-yet") |}).
  split.
  - intros Hflag.
    assert (eval_cond (put_ConditionExpression params) (Some existing) = false) as Hguard.
    { cbn. rewrite Hflag. destruct Hu as [u ->]. done. }
    destruct (signUp_guarded req rnd now w) as [[Hsame Hnever] | (k & Hk' & Hc)].
    2:{ rewrite Hk in Hk'. injection Hk' as <-. rewrite Hex in Hc.
        cbn in Hguard, Hc. congruence. }
    split; [done|]. split; [done|].
    intros Hadm Hd. rewrite (signUp_reaches_write_run _ _ _ _ Hadm).
    assert (users_put params w = (w, inl ConditionalCheckFailedException)) as Hput.
    { apply (users_put_refused _ _ _ Hd Hk); [done|]. by rewrite Hex. }
    rewrite (try_catch_throw _ _ _ _ _
               (bind_throw _ _ _ _ _ (eq_trans (try_catch_throw _ _ _ _ _ Hput) eq_refl))).
    done.
  - intros Hflag Hadm Hd. rewrite (signUp_reaches_write_run _ _ _ _ Hadm).
    assert (users_put params w
            = (set_users (<[(appId, toLowerCase username) := signUp_item req rnd now]> (users w)) w,
               inr tt)) as Hput.
    { apply (users_put_lands _ _ _ Hd Hk); [done|].
      cbn. rewrite Hex. cbn. rewrite (bool_decide_eq_true_2 _ Hflag).
      by rewrite orb_true_r. }
    eexists _, _. split; [|split].
    + unfold try_catch, mbind, M_bind. fold params. rewrite Hput.
      rewrite createSession_run by done. done.
    + cbn. by rewrite lookup_insert_eq.
    + rewrite !signUp_item_lookup by done. simpl.
      repeat split; try done; by case_match.
Qed.

(** What the validation of a sign-up has checked when it passes. *)
Lemma _validateSignUpInput_ok_inv appId username passwordToken publicKey passwordSalts
    keySalts passwordBasedBackup email profile (w : world) :
  snd (_validateSignUpInput appId username passwordToken publicKey passwordSalts keySalts
         passwordBasedBackup email profile w) = inr tt →
  blank appId = false
  ∧ truthy username = true
  ∧ blank passwordToken = false
  ∧ blank (passwordBasedBackup ≫= passwordBasedEncryptionKeySalt) = false
  ∧ blank (passwordBasedBackup ≫= passwordEncryptedSeed) = false
  ∧ _validateUsernameInput username w = (w, inr tt).
Proof.
  unfold _validateSignUpInput, try_catch.
  destruct (blank appId); [done|].
  destruct (truthy username); [|done].
  destruct (blank passwordToken); [done|].
  match goal with |- context [if ?b then throw _ else mret _] => destruct b; [done|] end.
  match goal with |- context [if ?b then throw _ else mret _] => destruct b; [done|] end.
  destruct (blank (passwordBasedBackup ≫= passwordBasedEncryptionKeySalt)); [done|].
  destruct (blank (passwordBasedBackup ≫= passwordEncryptedSeed)); [done|].
  unfold mbind at 1 2 3, M_bind, mret at 1 2 3, M_ret. cbn [negb orb].
  unfold mbind at 1.
  destruct (_validateUsernameInput username w) as [w0 [e|[]]] eqn:Hu; [by intros [=]|].
  pose proof (stateless_fst _ _ _ _ (_validateUsernameInput_stateless _) Hu). subst w0.
  done.
Qed.

Lemma users_update_ddb_down (params : update_params) (w : world) :
  ddb_down (fst (users_update params w)) = ddb_down w.
Proof.
  unfold users_update. destruct (ddb_down w) eqn:Hd; [done|].
  by destruct (update users_key params (users w)).
Qed.

Lemma _allowUserToRetryPassword_ddb_down (user : item) (w : world) :
  ddb_down (fst (_allowUserToRetryPassword user w)) = ddb_down w.
Proof. apply users_update_ddb_down. Qed.

Lemma getUser_run (appId username : option attr) (k : string * string) (w : world) :
  ddb_down w = None →
  users_key (obj [("app-id", appId); ("username", username)]) = Some k →
  getUser appId username w = (w, inr (users w !! k)).
Proof. intros Hd Hk. unfold getUser, users_get, get. by rewrite Hd, Hk. Qed.

Lemma target_key (req : request) (appId username : string) :
  query_appId req = Some appId →
  body_username req = Some (AStr username) →
  users_key (target req) = Some (appId, toLowerCase username).
Proof. intros Ha Hn. unfold target. by rewrite Ha, Hn. Qed.

Lemma getUser_stateless (appId username : option attr) : stateless (getUser appId username).
Proof.
  intros w. unfold getUser, users_get. by destruct (ddb_down w).
Qed.

(** The response of a sign-in that has passed the password check. *)
Lemma signIn_result_of (user : item) (usedTempPassword : bool) (session : session_t)
    (r : signIn_result) :
  r = {| r_session := session;
         r_userId := user !! "user-id";
         r_usedTempPassword := if usedTempPassword then Some true else None;
         r_email := if truthy (user !! "email") then user !! "email" else None;
         r_profile := if truthy (user !! "profile") then user !! "profile" else None;
         r_passwordBasedBackup :=
           if negb usedTempPassword
              && truthy (user !! "password-based-encryption-key-salt")
              && truthy (user !! "password-encrypted-seed")
           then
             match user !! "password-based-encryption-key-salt",
                   user !! "password-encrypted-seed" with
             | Some salt, Some seed => Some (salt, seed)
             | _, _ => None
             end
           else None;
         r_protectedProfile :=
           if truthy (user !! "protected-profile") then user !! "protected-profile" else None
      |} →
  r_userId r = user !! "user-id"
  ∧ (r_usedTempPassword r = Some true ↔ usedTempPassword = true)
  ∧ (r_usedTempPassword r = None ↔ usedTempPassword = false)
  ∧ (is_Some (r_passwordBasedBackup r) ↔
       usedTempPassword = false
       ∧ truthy (user !! "password-based-encryption-key-salt") = true
       ∧ truthy (user !! "password-encrypted-seed") = true)
  ∧ (∀ salt seed, r_passwordBasedBackup r = Some (salt, seed) →
       user !! "password-based-encryption-key-salt" = Some salt
       ∧ user !! "password-encrypted-seed" = Some seed).
Proof.
  intros ->. cbn.
  destruct usedTempPassword; cbn.
  { repeat split; try done; intros; destruct_and?; try done; by destruct H0. }
  destruct (user !! "password-based-encryption-key-salt") as [salt|] eqn:Hs;
    [destruct (truthy (Some salt))|]; cbn;
    (destruct (user !! "password-encrypted-seed") as [seed|] eqn:Hd;
      [destruct (truthy (Some seed))|]); cbn;
    repeat split; try done; intros; destruct_and?; try done;
    try (by destruct H0); by simplify_eq.
Qed.

(** What a successful sign-in has gone through. *)
Lemma signIn_success_inv (req : request) (rnd : entropy) (now : Z) (w w' : world)
    (r : signIn_result) :
  signIn req rnd now w = (w', inr {| res_status := None; res_body := PSignedIn r |}) →
  ∃ user usedTempPassword w1 session,
    getUser (str (query_appId req)) (lower (body_username req)) w = (w, inr (Some user))
    ∧ blank (body_passwordToken req) = false
    ∧ _validatePassword (default "" (body_passwordToken req)) (Some user) now w
        = (w1, inr usedTempPassword)
    ∧ truthy (user !! "deleted") = false
    ∧ r = {| r_session := session;
             r_userId := user !! "user-id";
             r_usedTempPassword := if usedTempPassword then Some true else None;
             r_email := if truthy (user !! "email") then user !! "email" else None;
             r_profile := if truthy (user !! "profile") then user !! "profile" else None;
             r_passwordBasedBackup :=
               if negb usedTempPassword
                  && truthy (user !! "password-based-encryption-key-salt")
                  && truthy (user !! "password-encrypted-seed")
               then
                 match user !! "password-based-encryption-key-salt",
                       user !! "password-encrypted-seed" with
                 | Some salt, Some seed => Some (salt, seed)
                 | _, _ => None
                 end
               else None;
             r_protectedProfile :=
               if truthy (user !! "protected-profile")
               then user !! "protected-profile" else None
          |}.
Proof.
  intros Hrun. unfold signIn in Hrun.
  rewrite try_catch_run, bind_run in Hrun.
  destruct (blank (query_appId req)); [done|].
  destruct (truthy (body_username req)); [|done].
  destruct (blank (body_passwordToken req)) eqn:Htok; [done|].
  cbn [orb negb mret M_ret] in Hrun.
  rewrite bind_run, try_catch_run in Hrun.
  destruct (_validateUsernameInput (body_username req) w) as [w0 [e|[]]] eqn:Hu; [done|].
  pose proof (stateless_fst _ _ _ _ (_validateUsernameInput_stateless _) Hu). subst w0.
  destruct (getAppByAppId _) as [app|]; [|done].
  destruct (truthy (app !! "deleted")); [done|].
  destruct (findAdminByAdminId _) as [admin|]; [|done].
  destruct (truthy (admin !! "deleted")); [done|].
  rewrite bind_run in Hrun.
  destruct (getUser (str (query_appId req)) (lower (body_username req)) w)
    as [w0 [e|user]] eqn:Hg.
  { apply route_catch_sets_status in Hrun as [_ [? ?]]. done. }
  pose proof (stateless_fst _ _ _ _ (getUser_stateless _ _) Hg). subst w0.
  rewrite bind_run, try_catch_run in Hrun.
  destruct user as [user|]; [|done].
  destruct (_validatePassword _ (Some user) now w) as [w1 [e|used]] eqn:Hp.
  { by destruct e as [| |[]| |]. }
  destruct (truthy (user !! "deleted")) eqn:Hdel; [done|].
  rewrite bind_run in Hrun.
  destruct (createSession _ _ rnd now w1) as [w2 [e|session]].
  { apply route_catch_sets_status in Hrun as [_ [? ?]]. done. }
  injection Hrun as <- <-.
  by exists user, used, w1, session.
Qed.

(** A check that succeeds returns [false] exactly when the permanent hash
    was the one that matched. *)
Lemma _validatePassword_flag (passwordToken : string) (user : item) (now : Z) (w w1 : world)
    (usedTempPassword : bool) :
  _validatePassword passwordToken (Some user) now w = (w1, inr usedTempPassword) →
  (usedTempPassword = false ↔
     user !! "password-token" = Some (ABin (sha256_hash passwordToken))).
Proof.
  unfold _validatePassword. rewrite bind_run.
  match goal with |- context [(if ?b then _ else mret ()) w] =>
    destruct (((if b then _ else mret ()) : M unit) w) as [w0 [e|[]]]; [done|] end.
  rewrite bind_run.
  destruct (user !! "password-token") as [[| | | |perm|]|]; try done.
  rewrite Buffer_equals_bin.
  destruct (String.eqb_spec (sha256_hash passwordToken) perm) as [->|Hne].
  - rewrite bind_run. destruct (_allowUserToRetryPassword user w0) as [w2 [e|[]]]; [done|].
    intros [= <- <-]. done.
  - rewrite bind_run.
    match goal with |- context [(if ?b then ?x else mret false) w0] =>
      destruct (((if b then x else mret false) : M bool) w0) as [w2 [e|[]]]; [done| |] end.
    + cbn [negb]. destruct (elapsed_gt _ _ _).
      * rewrite bind_run. by destruct (_incrementIncorrectPasswordAttempt user w2) as [? [|]].
      * intros [= <- <-]. split; [done|]. intros [= ->]. done.
    + cbn [negb]. rewrite bind_run.
      by destruct (_incrementIncorrectPasswordAttempt user w2) as [? [|]].
Qed.

(** C9: in the response of a successful sign-in the passwordBasedBackup
    object is absent whenever the temporary password was the one used,
    whatever the item holds; it is present exactly when the permanent
    password was used and the item holds both the key salt and the encrypted
    seed, and then it carries those two. *)
Theorem signIn_passwordBasedBackup (req : request) (rnd : entropy) (now : Z) (w w' : world)
    (r : signIn_result) :
  signIn req rnd now w = (w', inr {| res_status := None; res_body := PSignedIn r |}) →
  ∃ user passwordToken,
    getUser (str (query_appId req)) (lower (body_username req)) w = (w, inr (Some user))
    ∧ body_passwordToken req = Some passwordToken
    ∧ (r_usedTempPassword r = None ↔
         user !! "password-token" = Some (ABin (sha256_hash passwordToken)))
    ∧ (r_usedTempPassword r = Some true ↔
         user !! "password-token" ≠ Some (ABin (sha256_hash passwordToken)))
    ∧ (r_usedTempPassword r = Some true → r_passwordBasedBackup r = None)
    ∧ (backup_fields_stored user →
       (is_Some (r_passwordBasedBackup r) ↔
          r_usedTempPassword r = None
          ∧ is_Some (user !! "password-based-encryption-key-salt")
          ∧ is_Some (user !! "password-encrypted-seed")))
    ∧ (∀ salt seed, r_passwordBasedBackup r = Some (salt, seed) →
         user !! "password-based-encryption-key-salt" = Some salt
         ∧ user !! "password-encrypted-seed" = Some seed).
Proof.
  intros Hrun.
  apply signIn_success_inv in Hrun as (user & used & w1 & session & Hg & Htok & Hp & _ & Hr).
  destruct (body_passwordToken req) as [tok|] eqn:Hbody; [|done].
  exists user, tok. cbn [default] in Hp.
  apply _validatePassword_flag in Hp as Hflag.
  apply signIn_result_of in Hr as (_ & Htemp & Hperm & Hbackup & Hcontent).
  split; [done|]. split; [done|]. split; [by rewrite Hperm|].
  split.
  { rewrite Htemp, <- Hflag. by destruct used. }
  split.
  { intros Hused%Htemp. destruct (r_passwordBasedBackup r) eqn:Hb; [|done].
    destruct (proj1 Hbackup) as [? _]; [by eexists | congruence]. }
  split; [|done].
  intros [Hsalt Hseed]. rewrite Hbackup, Hperm. split.
  - intros (Hu & Hs & Hd). split; [done|].
    split; [by destruct (user !! "password-based-encryption-key-salt")
           |by destruct (user !! "password-encrypted-seed")].
  - intros (Hu & [salt Hs] & [seed Hd]). split; [done|].
    rewrite Hs, Hd. split; [by apply Hsalt | by apply Hseed].
Qed.

Lemma _validateUsernameInput_ok_inv (username : option attr) (w : world) :
  _validateUsernameInput username w = (w, inr tt) → ∃ n, username = Some (AStr n).
Proof. destruct username as [[n| | | | |]|]; try done. by exists n. Qed.

Lemma blank_false_inv (s : option string) : blank s = false → ∃ v, s = Some v.
Proof. destruct s as [v|]; [by exists v | done]. Qed.

(** C8: after a sign-up that succeeded with user id [userId], a sign-in to
    the same app with the same user name and password token, on a reachable
    store that still holds the user item as the sign-up left it, succeeds
    and answers with that same user id. *)
Theorem signIn_after_signUp (req req' : request) (rnd rnd' : entropy) (now now' : Z)
    (w w1 w2 : world) (userId : string) (session : session_t) :
  signUp req rnd now w
    = (w1, inr {| res_status := None; res_body := PSignedUp userId session |}) →
  query_appId req' = query_appId req →
  body_username req' = body_username req →
  body_passwordToken req' = body_passwordToken req →
  ddb_down w2 = None →
  (∀ k, users_key (target req) = Some k → users w2 !! k = users w1 !! k) →
  ∃ w3 r,
    signIn req' rnd' now' w2 = (w3, inr {| res_status := None; res_body := PSignedIn r |})
    ∧ r_userId r = Some (AStr userId).
Proof.
  intros Hup Happ' Hname' Htok' Hd2 Hsame.
  apply signUp_success_inv in Hup as (Hadm & Hd & -> & k & Hk & Hw1 & Hd1).
  destruct Hadm as (Hv & app & admin & Happ & Hlive & Hadmin & Hlive' & _).
  apply _validateSignUpInput_ok_inv in Hv as (Hba & Hbn & Hbt & _ & _ & Hu).
  destruct (_validateUsernameInput_ok_inv _ _ Hu) as [n Hn].
  destruct (blank_false_inv _ Hba) as [a Ha].
  destruct (blank_false_inv _ Hbt) as [tok Ht].
  rewrite (signUp_item_key _ _ _ _ _ Ha Hn) in Hk. injection Hk as <-.
  pose proof (Hsame _ (target_key _ _ _ Ha Hn)) as Hrec.
  rewrite Hw1, lookup_insert_eq in Hrec.
  assert (_validateUsernameInput (body_username req) w2 = (w2, inr tt)) as Hu2.
  { rewrite Hn in *. unfold _validateUsernameInput in *.
    destruct (negb _); [done|]. by destruct (_ >? _). }
  assert (_validatePassword tok (Some (signUp_item req rnd now)) now' w2
          = (fst (_allowUserToRetryPassword (signUp_item req rnd now) w2), inr false)) as Hp.
  { apply _validatePassword_correct.
    - by rewrite signUp_item_lookup.
    - rewrite signUp_item_lookup by done. cbn. by rewrite Ht. }
  eexists _, _. split.
  - unfold signIn. rewrite Happ', Hname', Htok'.
    rewrite try_catch_run, bind_run, Hba, Hbn, Hbt. cbn [orb negb mret M_ret].
    rewrite bind_run, try_catch_run, Hu2, Happ, Hlive, Hadmin, Hlive'.
    rewrite bind_run.
    rewrite (getUser_run _ _ (a, toLowerCase n)); [|done|by rewrite Ha, Hn].
    rewrite Hrec, bind_run, try_catch_run, Ht.
    change (default "" (Some tok)) with tok. rewrite Hp.
    assert (truthy (signUp_item req rnd now !! "deleted") = false) as ->.
    { by rewrite signUp_item_lookup. }
    rewrite bind_run, createSession_run; [done|].
    by rewrite _allowUserToRetryPassword_ddb_down.
  - cbn [r_userId]. by rewrite signUp_item_lookup.
Qed.

(** *** Twenty-five incorrect sign-ins in a row *)

(** A sign-in that reaches the password check comes down to it. *)
Lemma signIn_check_run (req : request) (rnd : entropy) (now : Z) (w : world)
    (appId username passwordToken : string) :
  signIn_reaches_check req appId username passwordToken →
  ddb_down w = None →
  signIn req rnd now w =
    match
      try_catch
        (_validatePassword passwordToken (users w !! (appId, toLowerCase username)) now)
        (λ e, throw (VHttp Unauthorized
                       match e with
                       | VObj "PasswordAttemptLimitExceeded" _ => e
                       | _ => VStr "Invalid password"
                       end)) w
    with
    | (w1, inl e) => route_catch "User failed to sign in" e w1
    | (w1, inr usedTempPassword) =>
        try_catch
          (match users w !! (appId, toLowerCase username) with
           | None => throw (JsError "TypeError" "Cannot read property 'user-id' of undefined")
           | Some user =>
               if truthy (user !! "deleted")
               then throw (VHttp Forbidden (VStr "User pending deletion"))
               else
                 session ← createSession (user !! "user-id") (Some (AStr appId)) rnd now;
                 mret {| res_status := None;
                         res_body := PSignedIn {|
                           r_session := session;
                           r_userId := user !! "user-id";
                           r_usedTempPassword :=
                             if usedTempPassword : bool then Some true else None;
                           r_email := if truthy (user !! "email") then user !! "email" else None;
                           r_profile :=
                             if truthy (user !! "profile") then user !! "profile" else None;
                           r_passwordBasedBackup :=
                             if negb usedTempPassword
                                && truthy (user !! "password-based-encryption-key-salt")
                                && truthy (user !! "password-encrypted-seed")
                             then
                               match user !! "password-based-encryption-key-salt",
                                     user !! "password-encrypted-seed" with
                               | Some salt, Some seed => Some (salt, seed)
                               | _, _ => None
                               end
                             else None;
                           r_protectedProfile :=
                             if truthy (user !! "protected-profile")
                             then user !! "protected-profile" else None
                         |} |}
           end)
          (route_catch "User failed to sign in") w1
    end.
Proof.
  intros (Ha & Hane & Hn & Hnne & Hlen & Ht & Htne & app & admin & Happ & Hlive & Hadmin & Hlive')
    Hd.
  unfold signIn. rewrite Ha, Hn, Ht.
  rewrite try_catch_run, bind_run, !blank_Some by done.
  assert (truthy (Some (AStr username)) = true) as Htruthy by (by destruct username).
  rewrite Htruthy. cbn [orb negb mret M_ret].
  rewrite bind_run, try_catch_run.
  assert (_validateUsernameInput (Some (AStr username)) w = (w, inr tt)) as ->.
  { unfold _validateUsernameInput. rewrite Htruthy. cbn [negb].
    by rewrite Z.gtb_ltb, (proj2 (Z.ltb_ge _ _) Hlen). }
  cbn [str fmap option_fmap option_map]. rewrite Happ, Hlive, Hadmin, Hlive'.
  rewrite bind_run, (getUser_run _ _ (appId, toLowerCase username)); [|done|done].
  rewrite bind_run. change (default "" (Some passwordToken)) with passwordToken.
  destruct (try_catch _ _ w) as [w1 [e|used]]; [done|].
  rewrite try_catch_run. done.
Qed.

Lemma tally_not_locked (count : Z) (user : item) :
  count < MAX_INCORRECT_PASSWORD_GUESSES →
  (user !! "incorrect-password-attempts-in-a-row" = Some (ANum count)
   ∨ (count = 0 ∧ user !! "incorrect-password-attempts-in-a-row" = None)) →
  num_ge (user !! "incorrect-password-attempts-in-a-row") MAX_INCORRECT_PASSWORD_GUESSES = false.
Proof.
  intros Hlt [-> | [_ ->]]; [|done]. simpl. by apply Z.leb_gt.
Qed.

(** An incorrect sign-in is answered with "Invalid password" and adds one
    to the count. *)
Lemma signIn_incorrect_step (req : request) (rnd : entropy) (now : Z) (w : world)
    (appId username passwordToken permanent : string) (count : Z) :
  signIn_reaches_check req appId username passwordToken →
  permanent ≠ sha256_hash passwordToken →
  tally (appId, toLowerCase username) permanent count w →
  count < MAX_INCORRECT_PASSWORD_GUESSES →
  ∃ w1,
    signIn req rnd now w
      = (w1, inr {| res_status := Some Unauthorized; res_body := PText "Invalid password" |})
    ∧ tally (appId, toLowerCase username) permanent (count + 1) w1.
Proof.
  intros Hreq Hne (Hd & user & Hw & Hk & Hperm & Htemp & Hsusp & Hcount) Hlt.
  pose proof (tally_not_locked _ _ Hlt Hcount) as Hfree.
  rewrite (signIn_check_run _ _ _ _ _ _ _ Hreq Hd), Hw, try_catch_run.
  rewrite (_validatePassword_temp_branch _ _ _ _ _ Hfree Hperm Hne), Htemp.
  cbn [truthy]. rewrite bind_run. cbn [mret M_ret negb]. rewrite bind_run.
  set (after := match user !! "incorrect-password-attempts-in-a-row" with
                | Some (ANum m) => <["incorrect-password-attempts-in-a-row" := ANum (m + 1)]> user
                | _ => <["incorrect-password-attempts-in-a-row" := ANum 1]> user
                end).
  assert (_incrementIncorrectPasswordAttempt user w
          = (set_users (<[(appId, toLowerCase username) := after]> (users w)) w, inr tt)) as ->.
  { unfold _incrementIncorrectPasswordAttempt, detached.
    erewrite users_update_lands; [done | done | by apply users_key_self | done | done | done |].
    rewrite Hw. cbn. unfold after. by destruct Hcount as [-> | [_ ->]]. }
  eexists. split; [done|].
  split; [done|]. exists after. cbn. rewrite lookup_insert_eq. split; [done|].
  unfold after. unfold users_key in *.
  destruct Hcount as [Hc | [-> Hc]]; rewrite Hc;
    rewrite !lookup_insert_ne by done; rewrite lookup_insert_eq; repeat split; try done;
    by left.
Qed.

(** With the count at the limit, every sign-in that reaches the password
    check is refused with the limit error, whatever its password token. *)
Lemma signIn_locked (req : request) (rnd : entropy) (now : Z) (w : world)
    (appId username passwordToken permanent : string) (count : Z) :
  signIn_reaches_check req appId username passwordToken →
  tally (appId, toLowerCase username) permanent count w →
  MAX_INCORRECT_PASSWORD_GUESSES ≤ count →
  snd (signIn req rnd now w)
    = inr {| res_status := Some Unauthorized;
             res_body := PThrown (VObj "PasswordAttemptLimitExceeded"
                                    [("delay", SStr "24 hours")]) |}.
Proof.
  intros Hreq (Hd & user & Hw & Hk & Hperm & Htemp & Hsusp & Hcount) Hle.
  assert (locked_out user) as Hlock.
  { destruct Hcount as [Hc | [-> _]]; [by exists count|].
    unfold MAX_INCORRECT_PASSWORD_GUESSES in Hle. lia. }
  rewrite (signIn_check_run _ _ _ _ _ _ _ Hreq Hd), Hw, try_catch_run.
  pose proof (_validatePassword_limit_exceeded passwordToken user now w Hlock
                (or_introl Hsusp)) as Hrun.
  destruct (_validatePassword passwordToken (Some user) now w) as [w1 r].
  simpl in Hrun. by rewrite Hrun.
Qed.

(** X9: after 25 incorrect sign-ins in a row on a fresh record, each
    answered with "Invalid password", the 26th is refused with the limit
    error even when it carries the correct password token. *)
Lemma lockout_after_incorrect_sign_ins (calls : list (request * entropy * Z)) (w : world)
    (appId username permanent : string) (count : Z) :
  tally (appId, toLowerCase username) permanent count w →
  0 ≤ count →
  count + Z.of_nat (length calls) = MAX_INCORRECT_PASSWORD_GUESSES →
  Forall (λ call, ∃ passwordToken,
            signIn_reaches_check call.1.1 appId username passwordToken
            ∧ permanent ≠ sha256_hash passwordToken) calls →
  Forall (λ r, r = inr {| res_status := Some Unauthorized;
                          res_body := PText "Invalid password" |})
    (snd (signIn_seq calls w))
  ∧ ∀ req rnd now passwordToken,
      signIn_reaches_check req appId username passwordToken →
      snd (signIn req rnd now (fst (signIn_seq calls w)))
        = inr {| res_status := Some Unauthorized;
                 res_body := PThrown (VObj "PasswordAttemptLimitExceeded"
                                        [("delay", SStr "24 hours")]) |}.
Proof.
  revert w count. induction calls as [|[[req rnd] now] rest IH]; intros w count Ht H0 Hlen Hall.
  - split; [constructor|]. intros req rnd now tok Hreq. cbn.
    apply (signIn_locked _ _ _ _ _ _ _ _ _ Hreq Ht). cbn in Hlen. lia.
  - apply Forall_cons in Hall as [(tok & Hreq & Hne) Hall]. cbn in Hreq.
    destruct (signIn_incorrect_step req rnd now w _ _ _ _ _ Hreq Hne Ht) as (w1 & Hrun & Ht1).
    { cbn [length] in Hlen. lia. }
    cbn [signIn_seq]. rewrite Hrun.
    destruct (IH w1 (count + 1) Ht1) as [Hrs Hlock]; [lia | cbn [length] in Hlen; lia | done |].
    destruct (signIn_seq rest w1) as [w2 rs]. cbn in *.
    split; [by constructor | done].
Qed.

(** The item a sign-up writes carries no suspension date: it starts
    consistent. *)
Lemma signUp_item_consistent (req : request) (rnd : entropy) (now : Z) :
  lockout_consistent (signUp_item req rnd now).
Proof. intros [v Hv]. by rewrite signUp_item_lookup in Hv. Qed.

End AccountsProofs.

Lemma signUp_reaches_write_sample (w : world) :
  @signUp_reaches_write (Sample.imports true) Sample.sign_up_request w.
Proof.
  split; [reflexivity|]. exists Sample.app, Sample.admin. repeat split; reflexivity.
Qed.

Lemma signUp_on_existing_username_witness :
  @signUp (Sample.imports true) Sample.sign_up_request (Sample.draw "2") 7000
    (Sample.alice_world [])
  = (Sample.alice_world [],
     inr {| res_status := Some Conflict; res_body := PText "UsernameAlreadyExists" |})
  ∧ ∃ session w',
      @signUp (Sample.imports true) Sample.sign_up_request (Sample.draw "2") 7000
        (Sample.alice_world [("seed-not-saved-yet", Some (ABool true))])
      = (w', inr {| res_status := None; res_body := PSignedUp "uuid-2" session |})
      ∧ users w' !! ("app-1", "alice")
        = Some (@signUp_item (Sample.imports true) Sample.sign_up_request (Sample.draw "2") 7000).
Proof.
  split.
  - destruct (proj1 (@signUp_on_existing_username (Sample.imports true) Sample.sign_up_request
                       (Sample.draw "2") 7000 (Sample.alice_world []) "app-1" "Alice"
                       (Sample.alice []) eq_refl eq_refl eq_refl
                       (keyed_alice_world [] eq_refl)))
      as (_ & _ & Hconflict).
    + reflexivity.
    + apply Hconflict; [apply signUp_reaches_write_sample | reflexivity].
  - destruct (proj2 (@signUp_on_existing_username (Sample.imports true) Sample.sign_up_request
                       (Sample.draw "2") 7000
                       (Sample.alice_world [("seed-not-saved-yet", Some (ABool true))])
                       "app-1" "Alice"
                       (Sample.alice [("seed-not-saved-yet", Some (ABool true))])
                       eq_refl eq_refl eq_refl
                       (keyed_alice_world [("seed-not-saved-yet", Some (ABool true))] eq_refl)))
      as (session & w' & Hrun & Hitem & _).
    + eexists; reflexivity.
    + apply signUp_reaches_write_sample.
    + reflexivity.
    + exists session, w'. split; [exact Hrun | exact Hitem].
Defined.

Lemma signIn_after_signUp_witness :
  ∃ w3 r,
    @signIn (Sample.imports true) (Sample.sign_in_request "pw") (Sample.draw "3") 2000
      (fst (@signUp (Sample.imports true) Sample.sign_up_request (Sample.draw "1") 1000
              Sample.empty_world))
    = (w3, inr {| res_status := None; res_body := PSignedIn r |})
    ∧ r_userId r = Some (AStr "uuid-1").
Proof.
  apply (@signIn_after_signUp (Sample.imports true) Sample.sign_up_request
           (Sample.sign_in_request "pw") (Sample.draw "1") (Sample.draw "3") 1000 2000
           Sample.empty_world
           (fst (@signUp (Sample.imports true) Sample.sign_up_request (Sample.draw "1") 1000
                   Sample.empty_world))
           (fst (@signUp (Sample.imports true) Sample.sign_up_request (Sample.draw "1") 1000
                   Sample.empty_world))
           "uuid-1"
           {| sessionId := "sid-1"; authToken := "tok-1"; creationDate := 1000 |}).
  - vm_compute. reflexivity.
  - reflexivity.
  - reflexivity.
  - reflexivity.
  - reflexivity.
  - intros k _. reflexivity.
Defined.

Lemma signIn_passwordBasedBackup_witness :
  r_passwordBasedBackup (Sample.signed_in (Some true) None) = None
  ∧ (is_Some (r_passwordBasedBackup
                (Sample.signed_in None (Some (AStr "salt-1", AStr "seed-1"))))
     ↔ r_usedTempPassword (Sample.signed_in None (Some (AStr "salt-1", AStr "seed-1"))) = None
       ∧ is_Some (Sample.alice Sample.recovering !! "password-based-encryption-key-salt")
       ∧ is_Some (Sample.alice Sample.recovering !! "password-encrypted-seed")).
Proof.
  split.
  - destruct (@signIn_passwordBasedBackup (Sample.imports true) (Sample.sign_in_request "tmp")
                (Sample.draw "3") 2000 (Sample.alice_world Sample.recovering)
                (fst (@signIn (Sample.imports true) (Sample.sign_in_request "tmp")
                        (Sample.draw "3") 2000 (Sample.alice_world Sample.recovering)))
                (Sample.signed_in (Some true) None))
      as (user & tok & _ & _ & _ & _ & Homit & _).
    + vm_compute. reflexivity.
    + apply Homit. reflexivity.
  - destruct (@signIn_passwordBasedBackup (Sample.imports true) (Sample.sign_in_request "pw")
                (Sample.draw "3") 2000 (Sample.alice_world Sample.recovering)
                (fst (@signIn (Sample.imports true) (Sample.sign_in_request "pw")
                        (Sample.draw "3") 2000 (Sample.alice_world Sample.recovering)))
                (Sample.signed_in None (Some (AStr "salt-1", AStr "seed-1"))))
      as (user & tok & Hget & _ & _ & _ & _ & Hiff & _).
    + vm_compute. reflexivity.
    + vm_compute in Hget. injection Hget as <-.
      apply Hiff. split; intros v Hv; vm_compute in Hv; injection Hv as <-; reflexivity.
Defined.

(** Alice mistypes her password 25 times; the 26th sign-in carries the right
    one and is refused all the same. *)
Example alice_locked_out_on_26th_sign_in :
  snd (@signIn (Sample.imports true) (Sample.sign_in_request "pw") (Sample.draw "26") 26000
         (fst (@signIn_seq (Sample.imports true)
                 (replicate 25 (Sample.sign_in_request "pq", Sample.draw "n", 1000))
                 (Sample.alice_world []))))
  = inr {| res_status := Some Unauthorized;
           res_body := PThrown (VObj "PasswordAttemptLimitExceeded"
                                  [("delay", SStr "24 hours")]) |}.
Proof. vm_compute. reflexivity. Qed.

(** ** Authenticated sessions *)

Section SessionProofs.
Context `{Imports}.

Lemma _getSesssion_run (sid : string) (w : world) :
  ddb_down w = None →
  _getSesssion (Some (AStr sid)) w = (w, inr (sessions w !! sid)).
Proof. intros Hd. unfold _getSesssion, sessions_get. rewrite Hd. reflexivity. Qed.

Lemma _validateSession_cases (session : option item) (now : Z) (w : world) :
  _validateSession session now w
  = (w, match session with
        | Some s =>
            if negb (truthy (s !! "invalidated"))
               && negb (elapsed_gt now (session_clock s) SESSION_LENGTH)
               && truthy (s !! "user-id")
            then inr tt else inl (VHttp Unauthorized (VStr "Session invalid"))
        | None => inl (VHttp Unauthorized (VStr "Session invalid"))
        end).
Proof.
  unfold _validateSession, session_clock. destruct session as [s|]; [|done].
  destruct (truthy (s !! "invalidated")); [done|].
  destruct (elapsed_gt _ _ _); [done|].
  destruct (truthy (s !! "user-id")); done.
Qed.

Lemma query_insert_only {K} `{Countable K} (a : string) (v : attr) (t : gmap K item)
    (k : K) (it : item) :
  it !! a = Some v →
  (∀ k' it', t !! k' = Some it' → k' ≠ k → it' !! a ≠ Some v) →
  query a v (<[k := it]> t) = [it].
Proof.
  intros Hit Hfresh. unfold query.
  rewrite <- insert_delete_eq.
  apply Permutation_singleton_r.
  rewrite map_to_list_insert by apply lookup_delete_eq.
  rewrite fmap_cons. cbn [snd].
  rewrite filter_cons_True by done.
  constructor.
  replace (filter _ _) with (@nil item); [done|].
  symmetry. apply elem_of_nil_inv. intros x Hx.
  apply list_elem_of_filter in Hx as [Hattr Hin].
  apply list_elem_of_fmap in Hin as ([k' it'] & -> & Hin).
  apply elem_of_map_to_list in Hin. simpl in *.
  apply lookup_delete_Some in Hin as [Hne Hin].
  by apply (Hfresh k' it').
Qed.

Lemma signUp_success_session (req : request) (rnd : entropy) (now : Z) (w w1 : world)
    (userId : string) (session : session_t) :
  signUp req rnd now w
    = (w1, inr {| res_status := None; res_body := PSignedUp userId session |}) →
  session = {| sessionId := sessionId_hex rnd; authToken := authToken_hex rnd;
               creationDate := now |}
  ∧ sessions w1
    = <[sessionId_hex rnd :=
          session_item (Some (AStr (uuid rnd))) (str (query_appId req)) rnd now]> (sessions w).
Proof.
  intros Hrun.
  destruct (signUp_success_inv _ _ _ _ _ _ _ Hrun) as (Hreach & Hd & _ & _).
  rewrite (signUp_reaches_write_run _ _ _ _ Hreach) in Hrun.
  unfold try_catch, mbind, M_bind in Hrun.
  destruct (users_put _ w) as [w2 [e|[]]] eqn:Hput.
  { destruct (bool_decide _); simpl in Hrun; [done|].
    apply route_catch_sets_status in Hrun as [_ [? ?]]. done. }
  apply users_put_inv in Hput as (_ & k & Hk & Hc & ->).
  rewrite createSession_run in Hrun by done.
  injection Hrun as <- <- <-. done.
Qed.

Lemma blank_false_ne (s : string) : blank (Some s) = false → s ≠ "".
Proof. by intros Hb ->. Qed.

(** X2: the session a successful sign-up returns authenticates its user: for
    24 hours from the sign-up, the middleware given the returned session id
    and the app id of the sign-up calls [next()] with the user item the
    sign-up wrote and the auth token the sign-up returned, and leaves the
    store as it is. The user id and the session id drawn are non-empty and
    the user id is new to the table. *)
Theorem authenticateUser_after_signUp (req : request) (rnd : entropy) (now now' : Z)
    (w w1 : world) (userId : string) (session : session_t) :
  signUp req rnd now w
    = (w1, inr {| res_status := None; res_body := PSignedUp userId session |}) →
  uuid rnd ≠ "" →
  sessionId_hex rnd ≠ "" →
  (∀ k it, users w !! k = Some it → it !! "user-id" ≠ Some (AStr (uuid rnd))) →
  now' - now ≤ SESSION_LENGTH →
  ∃ app admin,
    authenticateUser (Some (sessionId session)) (query_appId req) now' w1
    = (w1, inr (Next (signUp_item req rnd now) admin app (Some (AStr (authToken session))))).
Proof.
  intros Hrun Huuid Hsid Hfresh Hage.
  destruct (signUp_success_inv _ _ _ _ _ _ _ Hrun)
    as ((Hv & app & admin & Happ & Hlive & Hadmin & Hlive' & _) & Hd & -> & k & Hk & Hus & Hd1).
  destruct (signUp_success_session _ _ _ _ _ _ _ Hrun) as (-> & Hss).
  apply _validateSignUpInput_ok_inv in Hv as (Hb & _).
  destruct (blank_false_inv _ Hb) as [a Ha]. rewrite Ha in *.
  exists app, admin. cbn [sessionId authToken].
  unfold authenticateUser. rewrite try_catch_run, bind_run.
  rewrite (blank_Some _ Hsid), Hb. cbn [orb].
  unfold mret at 1, M_ret at 1. rewrite bind_run.
  cbn [str fmap option_fmap option_map].
  rewrite (_getSesssion_run _ _ Hd1), Hss, lookup_insert_eq.
  rewrite bind_run, _validateSession_cases.
  unfold session_clock, session_item. rewrite !obj_lookup. cbn [props_get String.eqb Ascii.eqb Bool.eqb].
  cbn [truthy Date_of elapsed_gt negb andb].
  assert ((now' - now >? SESSION_LENGTH) = false) as -> by lia.
  assert (String.eqb (uuid rnd) "" = false) as -> by (by apply String.eqb_neq).
  cbn [negb andb].
  rewrite (proj2 (strict_eq_true _ _) eq_refl). cbn [negb].
  rewrite bind_run.
  rewrite (getUserByUserId_single (AStr (uuid rnd)) (signUp_item req rnd now)).
  - assert (signUp_item req rnd now !! "deleted" = None) as ->
      by (by rewrite signUp_item_lookup).
    cbn [truthy]. cbn [str fmap option_fmap option_map] in *.
    rewrite Happ, Hlive, Hadmin, Hlive'. done.
  - done.
  - rewrite Hus. apply query_insert_only.
    + by rewrite signUp_item_lookup.
    + intros k' it' Hit' _. by apply (Hfresh k').
Qed.

Lemma getUserByUserId_found (userId : option attr) (w w0 : world) (user : item) :
  getUserByUserId userId w = (w0, inr (Some user)) →
  w0 = w ∧ ddb_down w = None
  ∧ ∃ uid k, userId = Some uid ∧ users w !! k = Some user ∧ user !! "user-id" = Some uid.
Proof.
  unfold getUserByUserId. destruct (ddb_down w); [done|].
  destruct userId as [uid|]; [|done].
  destruct (query "user-id" uid (users w)) as [|u0 [|]] eqn:Hq; intros [= <- <-].
  split; [done|]. split; [done|].
  assert (u0 ∈ query "user-id" uid (users w)) as Hel by (rewrite Hq; by left).
  unfold query in Hel. apply list_elem_of_filter in Hel as [Hattr Hel].
  apply list_elem_of_fmap in Hel as ([k it] & -> & Hin).
  apply elem_of_map_to_list in Hin. by exists uid, k.
Qed.

Lemma route_catch_answers (message : string) (e : exn) (w : world) :
  ∃ r, route_catch message e w = (w, inr r).
Proof. destruct e; simpl; eauto. Qed.

(** X3: the middleware lets a request through only on a stored session that
    is not invalidated, not older than 24 hours, of the app the request
    names, and whose user is in the users table under the session's user id
    and is not deleted; the app and its admin exist and are not deleted, the
    auth token passed on is the session's, and the store is not written. *)
Theorem authenticateUser_next_sound (sessionId appId : option string) (now : Z) (w w' : world)
    (user admin app : item) (authToken : option attr) :
  authenticateUser sessionId appId now w = (w', inr (Next user admin app authToken)) →
  w' = w
  ∧ ∃ sid a session,
      sessionId = Some sid ∧ appId = Some a
      ∧ sessions w !! sid = Some session
      ∧ truthy (session !! "invalidated") = false
      ∧ elapsed_gt now (session_clock session) SESSION_LENGTH = false
      ∧ session !! "app-id" = Some (AStr a)
      ∧ session !! "auth-token" = authToken
      ∧ (∃ k, users w !! k = Some user)
      ∧ user !! "user-id" = session !! "user-id"
      ∧ truthy (user !! "user-id") = true
      ∧ truthy (user !! "deleted") = false
      ∧ getAppByAppId (Some (AStr a)) = Some app
      ∧ truthy (app !! "deleted") = false
      ∧ findAdminByAdminId (app !! "admin-id") = Some admin
      ∧ truthy (admin !! "deleted") = false.
Proof.
  intros Hrun. unfold authenticateUser in Hrun.
  rewrite try_catch_run in Hrun.
  assert (∀ e w0, (r ← route_catch "Failed to authenticate user" e; mret (Answered r)) w0
                  ≠ (w', inr (Next user admin app authToken))) as Hno.
  { intros e w0. destruct (route_catch_answers "Failed to authenticate user" e w0) as [r Hr].
    rewrite (bind_ok _ _ _ _ _ Hr). done. }
  rewrite bind_run in Hrun.
  destruct (blank sessionId) eqn:Hbs; [by apply Hno in Hrun|].
  destruct (blank appId) eqn:Hba; [by apply Hno in Hrun|].
  destruct (blank_false_inv _ Hbs) as [sid ->].
  destruct (blank_false_inv _ Hba) as [a ->].
  cbn [orb] in Hrun. unfold mret at 1, M_ret at 1 in Hrun.
  rewrite bind_run in Hrun. cbn [str fmap option_fmap option_map] in Hrun.
  destruct (ddb_down w) eqn:Hd.
  { unfold _getSesssion, sessions_get in Hrun. rewrite Hd in Hrun. by apply Hno in Hrun. }
  rewrite (_getSesssion_run _ _ Hd), bind_run, _validateSession_cases in Hrun.
  destruct (sessions w !! sid) as [session|] eqn:Hs; [|by apply Hno in Hrun].
  destruct (truthy (session !! "invalidated")) eqn:Hinv; [by apply Hno in Hrun|].
  destruct (elapsed_gt now (session_clock session) SESSION_LENGTH) eqn:Hexp;
    [by apply Hno in Hrun|].
  destruct (truthy (session !! "user-id")) eqn:Huid; [|by apply Hno in Hrun].
  cbn [negb andb] in Hrun.
  destruct (strict_eq (session !! "app-id") (Some (AStr a))) eqn:Happid;
    [|by apply Hno in Hrun].
  apply strict_eq_true in Happid.
  cbn [negb] in Hrun. rewrite bind_run in Hrun.
  destruct (getUserByUserId (session !! "user-id") w) as [w0 [e|[u|]]] eqn:Hu;
    [by apply Hno in Hrun| |by apply Hno in Hrun].
  apply getUserByUserId_found in Hu as (-> & _ & uid & k & Huid' & Hk & Hu).
  destruct (truthy (u !! "deleted")) eqn:Hdel; [by apply Hno in Hrun|].
  rewrite Happid in Hrun.
  destruct (getAppByAppId (Some (AStr a))) as [app0|] eqn:Happ; [|by apply Hno in Hrun].
  destruct (truthy (app0 !! "deleted")) eqn:Hlive; [by apply Hno in Hrun|].
  destruct (findAdminByAdminId (app0 !! "admin-id")) as [admin0|] eqn:Hadmin;
    [|by apply Hno in Hrun].
  destruct (truthy (admin0 !! "deleted")) eqn:Hlive'; [by apply Hno in Hrun|].
  injection Hrun as <- <- <- <- <-.
  split; [done|]. exists sid, a, session.
  rewrite Hu, Huid'. rewrite Huid' in Huid.
  repeat split; eauto.
Qed.

(** X1: a session that is not marked invalidated and that carries a user id
    is accepted as long as no more than [SESSION_LENGTH] (24 hours) has
    passed since its last extension, or since its creation when it was never
    extended, and no longer; at 24 hours to the millisecond it is still
    accepted. *)
Theorem _validateSession_window (session : item) (now start : Z) (w : world) :
  (session !! "extended-date" = Some (ADate start)
   ∨ (session !! "extended-date" = None ∧ session !! "creation-date" = Some (ADate start))) →
  _validateSession (Some session) now w = (w, inr tt)
  ↔ truthy (session !! "invalidated") = false
    ∧ truthy (session !! "user-id") = true
    ∧ now - start ≤ SESSION_LENGTH.
Proof.
  intros Hstart. rewrite _validateSession_cases.
  assert (session_clock session = Some start) as ->.
  { unfold session_clock. destruct Hstart as [->|[-> ->]]; done. }
  cbn [elapsed_gt].
  destruct (truthy (session !! "invalidated")), (truthy (session !! "user-id")),
    (Z.gtb_spec (now - start) SESSION_LENGTH); cbn [negb andb];
    (split; [first [discriminate | intros _; repeat split; lia]
            |intros (? & ? & ?); done || lia]).
Qed.

Lemma sessions_update_lands (params : update_params) (k : string) (it : item) (w : world) :
  ddb_down w = None →
  sessions_key (Key params) = Some k →
  cond_defined (ConditionExpression params) = true →
  forallb action_defined (UpdateExpression params) = true →
  eval_cond (ConditionExpression params) (sessions w !! k) = true →
  apply_actions (UpdateExpression params) (default (Key params) (sessions w !! k)) = inr it →
  sessions_update params w = (set_sessions (<[k := it]> (sessions w)) w, inr tt).
Proof.
  intros Hd Hk Hdef Hact Hc Ha. unfold sessions_update, update.
  by rewrite Hd, Hk, Hdef, Hact, Hc, Ha.
Qed.

Lemma extendSession_run (user : item) (authToken : option attr) (sid : string) (now : Z)
    (w : world) :
  ddb_down w = None →
  fst (extendSession user authToken (Some sid) now w)
  = set_sessions
      (<[sid := <["ttl" := ANum (getTtl now SECONDS_IN_A_DAY)]>
                  (<["extended-date" := ADate now]>
                     (default {["session-id" := AStr sid]} (sessions w !! sid)))]>
         (sessions w)) w.
Proof.
  intros Hd. unfold extendSession. rewrite try_catch_run, bind_run.
  erewrite sessions_update_lands; [reflexivity|done|reflexivity|done|done|done|reflexivity].
Qed.

Lemma extendSession_ddb_down (user : item) (authToken : option attr) (sessionId : option string)
    (now : Z) (w : world) :
  ddb_down (fst (extendSession user authToken sessionId now w)) = ddb_down w.
Proof.
  unfold extendSession. rewrite try_catch_run, bind_run.
  unfold sessions_update. destruct (ddb_down w) eqn:Hd; [done|].
  destruct (update _ _ _); done.
Qed.

Lemma extendSession_users (user : item) (authToken : option attr) (sessionId : option string)
    (now : Z) (w : world) :
  users (fst (extendSession user authToken sessionId now w)) = users w.
Proof.
  unfold extendSession. rewrite try_catch_run, bind_run.
  unfold sessions_update. destruct (ddb_down w) eqn:Hd; [done|].
  destruct (update _ _ _); done.
Qed.

(** X4: after [extendSession] at time [t] the record under the session id is
    accepted at time [t'] exactly when a session was stored under that id
    before, not invalidated and with a user id, and [t'] is no more than 24
    hours after [t]. So an extension restarts the 24 hours, whatever the age
    of the session, and the record that the upsert creates for an unknown
    id, or leaves for an invalidated one, is never accepted. *)
Theorem extendSession_validity (user : item) (authToken : option attr) (sid : string)
    (t t' : Z) (w w' : world) :
  ddb_down w = None →
  _validateSession (sessions (fst (extendSession user authToken (Some sid) t w)) !! sid) t' w'
    = (w', inr tt)
  ↔ (∃ session, sessions w !! sid = Some session
                ∧ truthy (session !! "invalidated") = false
                ∧ truthy (session !! "user-id") = true)
    ∧ t' - t ≤ SESSION_LENGTH.
Proof.
  intros Hd. rewrite (extendSession_run _ _ _ _ _ Hd). cbn [sessions set_sessions].
  rewrite lookup_insert_eq.
  rewrite (_validateSession_window _ t' t).
  2:{ left. rewrite lookup_insert_ne by done. apply lookup_insert_eq. }
  rewrite !lookup_insert_ne by done.
  destruct (sessions w !! sid) as [session|]; cbn [default from_option id].
  - split.
    + intros (? & ? & ?). split; [by exists session|done].
    + intros ((? & [= <-] & ? & ?) & ?). done.
  - split.
    + intros (_ & Hu & _). done.
    + intros ((? & [=] & _) & _).
Qed.

Lemma extendSession_invalidated_at (user : item) (authToken : option attr)
    (sessionId : option string) (now : Z) (sid : string) (w : world) :
  invalidated_at sid w →
  invalidated_at sid (fst (extendSession user authToken sessionId now w)).
Proof.
  intros (session & Hs & Hinv).
  unfold extendSession. rewrite try_catch_run, bind_run.
  unfold sessions_update. destruct (ddb_down w) eqn:Hd; [by exists session|].
  unfold update. cbn [Key ConditionExpression UpdateExpression].
  destruct (sessions_key _) as [k|] eqn:Hk; [|by exists session].
  cbn. destruct (decide (k = sid)) as [->|Hne].
  - rewrite Hs. cbn. eexists. split; [apply lookup_insert_eq|].
    by rewrite !lookup_insert_ne.
  - exists session. cbn. by rewrite lookup_insert_ne.
Qed.

Lemma extendSession_seq_invalidated_at (calls : list (item * option attr * option string * Z))
    (sid : string) (w : world) :
  invalidated_at sid w → invalidated_at sid (extendSession_seq calls w).
Proof.
  revert w. induction calls as [|call calls IH]; intros w Hw; [done|].
  apply IH. by apply extendSession_invalidated_at.
Qed.

Lemma extendSession_seq_ddb_down (calls : list (item * option attr * option string * Z))
    (w : world) :
  ddb_down (extendSession_seq calls w) = ddb_down w.
Proof.
  revert w. induction calls as [|call calls IH]; intros w; [done|].
  unfold extendSession_seq in *. cbn [foldl]. rewrite IH. apply extendSession_ddb_down.
Qed.

Lemma authenticateUser_invalidated (sid appId : string) (now : Z) (w : world) :
  sid ≠ "" → appId ≠ "" → ddb_down w = None →
  invalidated_at sid w →
  authenticateUser (Some sid) (Some appId) now w
  = (w, inr (Answered {| res_status := Some Unauthorized;
                         res_body := PText "Session invalid" |})).
Proof.
  intros Hs Ha Hd (session & Hsess & Hinv).
  unfold authenticateUser. rewrite try_catch_run, bind_run.
  rewrite (blank_Some _ Hs), (blank_Some _ Ha). cbn [orb].
  unfold mret at 1, M_ret at 1. rewrite bind_run.
  cbn [str fmap option_fmap option_map].
  rewrite (_getSesssion_run _ _ Hd), Hsess.
  rewrite bind_run, _validateSession_cases, Hinv. done.
Qed.

(** X5: once signed out, a session id does not authenticate again: after
    [signOut], and after any calls of [extendSession] that follow, on that
    id or on others, the middleware answers 401 with 'Session invalid'. *)
Theorem signed_out_session_stays_out (sid appId : string) (now : Z) (w : world)
    (calls : list (item * option attr * option string * Z)) :
  sid ≠ "" → appId ≠ "" → ddb_down w = None →
  snd (authenticateUser (Some sid) (Some appId) now
         (extendSession_seq calls (fst (signOut (Some sid) w))))
  = inr (Answered {| res_status := Some Unauthorized; res_body := PText "Session invalid" |}).
Proof.
  intros Hs Ha Hd.
  assert (fst (signOut (Some sid) w)
          = set_sessions (<[sid := <["invalidated" := ABool true]>
                                      (default {["session-id" := AStr sid]} (sessions w !! sid))]>
                            (sessions w)) w) as Hout.
  { unfold signOut. rewrite (blank_Some _ Hs), try_catch_run, bind_run.
    unfold sessions_update. rewrite Hd. done. }
  rewrite authenticateUser_invalidated; [done..| |].
  - by rewrite extendSession_seq_ddb_down, Hout.
  - apply extendSession_seq_invalidated_at. rewrite Hout.
    eexists. cbn [sessions set_sessions]. split; [apply lookup_insert_eq|].
    by rewrite lookup_insert_eq.
Qed.

End SessionProofs.

(** ** Examples *)

Lemma sample_signUp_run :
  @signUp (Sample.imports true) Sample.sign_up_request (Sample.draw "1") 1000 Sample.empty_world
  = (fst (@signUp (Sample.imports true) Sample.sign_up_request (Sample.draw "1") 1000
            Sample.empty_world),
     inr {| res_status := None;
            res_body := PSignedUp "uuid-1" {| sessionId := "sid-1"; authToken := "tok-1";
                                              creationDate := 1000 |} |}).
Proof. vm_compute. reflexivity. Qed.

Lemma sample_authenticateUser_run :
  @authenticateUser (Sample.imports true) (Some "sid-1") (Some "app-1") 2000
    (fst (@signUp (Sample.imports true) Sample.sign_up_request (Sample.draw "1") 1000
            Sample.empty_world))
  = (fst (@signUp (Sample.imports true) Sample.sign_up_request (Sample.draw "1") 1000
            Sample.empty_world),
     inr (Next (@signUp_item (Sample.imports true) Sample.sign_up_request (Sample.draw "1") 1000)
            Sample.admin Sample.app (Some (AStr "tok-1")))).
Proof. vm_compute. reflexivity. Qed.

Lemma sample_session_stored :
  sessions (fst (@signUp (Sample.imports true) Sample.sign_up_request (Sample.draw "1") 1000
                   Sample.empty_world)) !! "sid-1"
  = Some (@session_item (Sample.imports true) (Some (AStr "uuid-1")) (Some (AStr "app-1"))
            (Sample.draw "1") 1000).
Proof. vm_compute. reflexivity. Qed.

Lemma sample_session_live :
  truthy (@session_item (Sample.imports true) (Some (AStr "uuid-1")) (Some (AStr "app-1"))
            (Sample.draw "1") 1000 !! "invalidated") = false
  ∧ truthy (@session_item (Sample.imports true) (Some (AStr "uuid-1")) (Some (AStr "app-1"))
              (Sample.draw "1") 1000 !! "user-id") = true.
Proof. split; reflexivity. Qed.

Lemma _validateSession_window_witness :
  _validateSession
    (Some (obj [("user-id", Some (AStr "user-1")); ("creation-date", Some (ADate 1000))]))
    (1000 + SESSION_LENGTH) Sample.empty_world
  = (Sample.empty_world, inr tt).
Proof.
  apply (proj2 (_validateSession_window
                  (obj [("user-id", Some (AStr "user-1")); ("creation-date", Some (ADate 1000))])
                  (1000 + SESSION_LENGTH) 1000 Sample.empty_world
                  (or_intror (conj eq_refl eq_refl)))).
  repeat split. lia.
Defined.

Lemma authenticateUser_after_signUp_witness :
  ∃ app admin,
    @authenticateUser (Sample.imports true) (Some "sid-1") (Some "app-1") (1000 + SESSION_LENGTH)
      (fst (@signUp (Sample.imports true) Sample.sign_up_request (Sample.draw "1") 1000
              Sample.empty_world))
    = (fst (@signUp (Sample.imports true) Sample.sign_up_request (Sample.draw "1") 1000
              Sample.empty_world),
       inr (Next (@signUp_item (Sample.imports true) Sample.sign_up_request (Sample.draw "1") 1000)
              admin app (Some (AStr "tok-1")))).
Proof.
  apply (@authenticateUser_after_signUp (Sample.imports true) Sample.sign_up_request
           (Sample.draw "1") 1000 (1000 + SESSION_LENGTH) Sample.empty_world
           (fst (@signUp (Sample.imports true) Sample.sign_up_request (Sample.draw "1") 1000
                   Sample.empty_world))
           "uuid-1"
           {| sessionId := "sid-1"; authToken := "tok-1"; creationDate := 1000 |}).
  - exact sample_signUp_run.
  - discriminate.
  - discriminate.
  - intros k it Hk. cbn [Sample.empty_world users] in Hk. by rewrite lookup_empty in Hk.
  - lia.
Defined.

Lemma authenticateUser_next_sound_witness :
  ∃ session,
    sessions (fst (@signUp (Sample.imports true) Sample.sign_up_request (Sample.draw "1") 1000
                     Sample.empty_world)) !! "sid-1" = Some session
    ∧ truthy (session !! "invalidated") = false
    ∧ session !! "app-id" = Some (AStr "app-1").
Proof.
  destruct (@authenticateUser_next_sound (Sample.imports true) (Some "sid-1") (Some "app-1") 2000
              (fst (@signUp (Sample.imports true) Sample.sign_up_request (Sample.draw "1") 1000
                      Sample.empty_world))
              (fst (@signUp (Sample.imports true) Sample.sign_up_request (Sample.draw "1") 1000
                      Sample.empty_world))
              (@signUp_item (Sample.imports true) Sample.sign_up_request (Sample.draw "1") 1000)
              Sample.admin Sample.app (Some (AStr "tok-1")))
    as (_ & sid & a & session & Hsid & Ha & Hs & Hinv & _ & Happ & _).
  - exact sample_authenticateUser_run.
  - injection Hsid as <-. injection Ha as <-. exists session. auto.
Defined.

Lemma extendSession_validity_witness :
  @_validateSession
    (sessions
       (fst (@extendSession (Sample.imports true) (Sample.alice []) (Some (AStr "tok-1"))
               (Some "sid-1") 90000000
               (fst (@signUp (Sample.imports true) Sample.sign_up_request (Sample.draw "1") 1000
                       Sample.empty_world))))
     !! "sid-1")
    (90000000 + SESSION_LENGTH) Sample.empty_world
  = (Sample.empty_world, inr tt).
Proof.
  apply (proj2 (@extendSession_validity (Sample.imports true) (Sample.alice [])
                  (Some (AStr "tok-1")) "sid-1" 90000000 (90000000 + SESSION_LENGTH)
                  (fst (@signUp (Sample.imports true) Sample.sign_up_request (Sample.draw "1")
                          1000 Sample.empty_world))
                  Sample.empty_world eq_refl)).
  split.
  - exists (@session_item (Sample.imports true) (Some (AStr "uuid-1")) (Some (AStr "app-1"))
              (Sample.draw "1") 1000).
    split; [exact sample_session_stored|exact sample_session_live].
  - lia.
Defined.

Lemma signed_out_session_stays_out_witness :
  snd (@authenticateUser (Sample.imports true) (Some "sid-1") (Some "app-1") 3000
         (@extendSession_seq (Sample.imports true)
            [(Sample.alice [], Some (AStr "tok-1"), Some "sid-1", 2500)]
            (fst (signOut (Some "sid-1")
                    (fst (@signUp (Sample.imports true) Sample.sign_up_request (Sample.draw "1")
                            1000 Sample.empty_world))))))
  = inr (Answered {| res_status := Some Unauthorized; res_body := PText "Session invalid" |}).
Proof.
  apply (@signed_out_session_stays_out (Sample.imports true) "sid-1" "app-1" 3000
           (fst (@signUp (Sample.imports true) Sample.sign_up_request (Sample.draw "1")
                   1000 Sample.empty_world))
           [(Sample.alice [], Some (AStr "tok-1"), Some "sid-1", 2500)]).
  - discriminate.
  - discriminate.
  - reflexivity.
Defined.

(** ** Examples for the lockout and the subscription events *)

Lemma _validatePassword_keeps_consistent_witness :
  consistent_at ("app-1", "alice")
    (fst (@_validatePassword (Sample.imports true) "pw"
            (Some (Sample.alice [("incorrect-password-attempts-in-a-row", Some (ANum 25))]))
            5000
            (Sample.alice_world [("incorrect-password-attempts-in-a-row", Some (ANum 25))]))).
Proof.
  apply (@_validatePassword_keeps_consistent (Sample.imports true) "pw"
           (Sample.alice [("incorrect-password-attempts-in-a-row", Some (ANum 25))])
           ("app-1", "alice") 5000
           (Sample.alice_world [("incorrect-password-attempts-in-a-row", Some (ANum 25))])).
  - reflexivity.
  - reflexivity.
  - intros [v Hv]. vm_compute in Hv. discriminate.
Defined.

Lemma updateSubscriptionInDdb_wrong_plan_dropped_witness :
  @updateSubscriptionInDdb (Sample.imports true) Sample.metadata
    (Some (AStr "cus-1")) (Some (AStr "sub-1")) (Some (AStr "plan-silver"))
    (Some (AStr "active")) None (Some (ANum 100)) true (Some (AStr "acct-1"))
    (Sample.alice_world [])
  = (Sample.alice_world [], inr tt).
Proof.
  apply (@updateSubscriptionInDdb_wrong_plan_dropped (Sample.imports true) Sample.metadata
           (Some (AStr "cus-1")) (Some (AStr "sub-1")) (Some (AStr "plan-silver"))
           (Some (AStr "active")) None (Some (ANum 100)) true (Some (AStr "acct-1"))
           "user-1" "admin-1" "app-1" Sample.admin Sample.app (Sample.alice [])).
  - reflexivity.
  - reflexivity.
  - discriminate.
  - reflexivity.
  - discriminate.
  - reflexivity.
  - discriminate.
  - reflexivity.
  - reflexivity.
  - reflexivity.
  - reflexivity.
  - reflexivity.
  - reflexivity.
  - vm_compute. discriminate.
Defined.

Lemma updateSubscriptionInDdb_timestamp_monotone_witness :
  ∃ stored' t1,
    users (fst (@updateSubscriptionInDdb (Sample.imports true) Sample.metadata
                  (Some (AStr "cus-1")) (Some (AStr "sub-1")) (Some (AStr "plan-gold"))
                  (Some (AStr "active")) None (Some (ANum 50)) true (Some (AStr "acct-1"))
                  (Sample.alice_world [("prod-stripe-event-timestamp", Some (ANum 100))])))
      !! ("app-1", "alice") = Some stored'
    ∧ stored' !! timestamp_name true = Some (ANum t1)
    ∧ 100 ≤ t1.
Proof.
  apply (@updateSubscriptionInDdb_timestamp_monotone (Sample.imports true) Sample.metadata
           (Some (AStr "cus-1")) (Some (AStr "sub-1")) (Some (AStr "plan-gold"))
           (Some (AStr "active")) None (Some (ANum 50)) true (Some (AStr "acct-1"))
           (Sample.alice_world [("prod-stripe-event-timestamp", Some (ANum 100))])
           ("app-1", "alice")
           (Sample.alice [("prod-stripe-event-timestamp", Some (ANum 100))]) true 100).
  - apply keyed_alice_world. reflexivity.
  - reflexivity.
  - reflexivity.
Defined.

Lemma lockout_after_incorrect_sign_ins_witness :
  snd (@signIn (Sample.imports true) (Sample.sign_in_request "pw") (Sample.draw "26") 26000
         (fst (@signIn_seq (Sample.imports true)
                 (replicate 25 (Sample.sign_in_request "pq", Sample.draw "n", 1000))
                 (Sample.alice_world []))))
  = inr {| res_status := Some Unauthorized;
           res_body := PThrown (VObj "PasswordAttemptLimitExceeded"
                                  [("delay", SStr "24 hours")]) |}.
Proof.
  assert (∀ tok, tok ≠ "" →
            @signIn_reaches_check (Sample.imports true) (Sample.sign_in_request tok)
              "app-1" "Alice" tok) as Hreach.
  { intros tok Htok. repeat split; try done.
    exists Sample.app, Sample.admin. repeat split. }
  destruct (@lockout_after_incorrect_sign_ins (Sample.imports true)
              (replicate 25 (Sample.sign_in_request "pq", Sample.draw "n", 1000))
              (Sample.alice_world []) "app-1" "Alice" "sha256:pw" 0) as [_ Hlocked].
  - split; [reflexivity|]. exists (Sample.alice []).
    repeat split; try reflexivity. right. split; reflexivity.
  - lia.
  - reflexivity.
  - apply Forall_replicate. exists "pq". split; [by apply Hreach | discriminate].
  - apply (Hlocked (Sample.sign_in_request "pw") (Sample.draw "26") 26000 "pw").
    by apply Hreach.
Defined.

(** ** Changes to a user *)

Section UserChangesProofs.
Context `{Imports}.



Lemma updateUser_validation (check : M unit) (email : field string)
    (profile : field attr) (w : world) :
  check w = (w, inr tt) →
  (∀ e, email = Given e → e ≠ "" → validateEmail e = true) →
  (∀ p, profile = Given p → truthy (Some p) = true → _validateProfile p w = (w, inr tt)) →
  try_catch
    (check ;;
     (match email with
      | Given e =>
          if field_truthy AStr email && negb (validateEmail e)
          then throw (VObj "EmailNotValid" []) else mret tt
      | _ => mret tt
      end) ;;
     (match profile with
      | Given p => if field_truthy id profile then _validateProfile p else mret tt
      | _ => mret tt
      end) ;;
     mret None)
    (λ e, mret (Some (@responseBuilder.errorResponse unit BadRequest (EThrown e)))) w
  = (w, inr None).
Proof.
  intros Hu He Hp. rewrite try_catch_run, bind_run, Hu.
  rewrite bind_run.
  assert (match email with
          | Given e =>
              if field_truthy AStr email && negb (validateEmail e)
              then throw (VObj "EmailNotValid" []) else mret tt
          | _ => mret tt
          end w = (w, inr tt)) as ->.
  { destruct email as [| |e]; try done. cbn [field_truthy truthy].
    destruct (String.eqb_spec e ""); [done|]. by rewrite (He e). }
  rewrite bind_run.
  assert (match profile with
          | Given p => if field_truthy id profile then _validateProfile p else mret tt
          | _ => mret tt
          end w = (w, inr tt)) as ->.
  { destruct profile as [| |p]; try done. cbn [field_truthy id].
    destruct (truthy (Some p)) eqn:Ht; [by apply Hp|done]. }
  done.
Qed.

Lemma _validateUsernameInput_ok (n : string) (w : world) :
  n ≠ "" → Zlength n ≤ MAX_USERNAME_CHAR_LENGTH →
  _validateUsernameInput (Some (AStr n)) w = (w, inr tt).
Proof.
  intros Hn Hlen. unfold _validateUsernameInput. cbn [truthy].
  destruct (String.eqb_spec n ""); [done|]. cbn [negb].
  destruct (Z.gtb_spec (Zlength n) MAX_USERNAME_CHAR_LENGTH); [lia|done].
Qed.





Lemma query_single_unique {K} `{Countable K} (a : string) (v : attr) (t : gmap K item)
    (k : K) (user : item) :
  query a v t = [user] →
  t !! k = Some user →
  ∀ k' it', t !! k' = Some it' → k' ≠ k → it' !! a ≠ Some v.
Proof.
  intros Hq Hk k' it' Hk' Hne Hattr.
  assert (user !! a = Some v) as Huser.
  { assert (user ∈ query a v t) as Hin by (rewrite Hq; by left).
    unfold query in Hin. by apply list_elem_of_filter in Hin as [? _]. }
  assert (query a v t ≡ₚ user :: query a v (delete k t)) as Hperm.
  { unfold query. rewrite <- (insert_id t k user) at 1 by done.
    rewrite <- insert_delete_eq.
    rewrite map_to_list_insert by apply lookup_delete_eq.
    rewrite fmap_cons. cbn [snd]. by rewrite filter_cons_True. }
  rewrite Hq in Hperm. apply Permutation_cons_inv, Permutation_nil_l in Hperm.
  assert (it' ∈ query a v (delete k t)) as Hin.
  { unfold query. apply list_elem_of_filter. split; [done|].
    apply list_elem_of_fmap. exists (k', it'). split; [done|].
    apply elem_of_map_to_list. by rewrite lookup_delete_ne. }
  rewrite <- Hperm in Hin. by apply not_elem_of_nil in Hin.
Qed.


Lemma signIn_correct_password (req : request) (rnd : entropy) (now : Z) (w : world)
    (appId username passwordToken : string) (stored : item) :
  signIn_reaches_check req appId username passwordToken →
  ddb_down w = None →
  users w !! (appId, toLowerCase username) = Some stored →
  num_ge (stored !! "incorrect-password-attempts-in-a-row") MAX_INCORRECT_PASSWORD_GUESSES
    = false →
  stored !! "password-token" = Some (ABin (sha256_hash passwordToken)) →
  truthy (stored !! "deleted") = false →
  ∃ w1 r,
    signIn req rnd now w = (w1, inr {| res_status := None; res_body := PSignedIn r |})
    ∧ r_userId r = stored !! "user-id"
    ∧ r_usedTempPassword r = None.
Proof.
  intros Hreach Hd Hs Hcount Hpw Hlive.
  rewrite (signIn_check_run _ _ _ _ _ _ _ Hreach Hd), Hs.
  rewrite (try_catch_ok _ _ _ _ _ (_validatePassword_correct _ _ _ _ Hcount Hpw)).
  rewrite Hlive, try_catch_run, bind_run.
  rewrite createSession_run by (by rewrite _allowUserToRetryPassword_ddb_down).
  eexists _, _. split; [reflexivity|]. done.
Qed.

Lemma updateUser_password_run (uid : attr) (c t ps pts bs bseed : string)
    (email : field string) (profile : field attr) (now : Z) (w : world) (user : item) :
  ddb_down w = None →
  query "user-id" uid (users w) = [user] →
  truthy (user !! "deleted") = false →
  c ≠ "" → t ≠ "" → ps ≠ "" → pts ≠ "" → bs ≠ "" → bseed ≠ "" →
  changes_valid None email profile w →
  updateUser (Some uid) None (Some c) (Some t)
    (Some {| passwordSalt := Some ps; passwordTokenSalt := Some pts |}) email profile
    (Some {| passwordBasedEncryptionKeySalt := Some bs; passwordEncryptedSeed := Some bseed |})
    now w
  = try_catch
      (refused ←
         try_catch
           (_validatePassword c (Some user) now ;; mret None)
           (λ e, match e with
                 | VObj "PasswordAttemptLimitExceeded" _ =>
                     throw (JsError "ReferenceError" "status is not defined")
                 | _ =>
                     mret (Some (responseBuilder.errorResponse BadRequest
                                   (EString "CurrentPasswordIncorrect")))
                 end);
       match refused with
       | Some response => mret response
       | None =>
           _updateUserExcludingUsernameUpdate user (Some uid) (Some t)
             (Some {| passwordSalt := Some ps; passwordTokenSalt := Some pts |}) email profile
             (Some {| passwordBasedEncryptionKeySalt := Some bs;
                      passwordEncryptedSeed := Some bseed |}) ;;
           mret (responseBuilder.successResponse tt)
       end)
      updateUser_catch w.
Proof.
  intros Hd Hq Hlive Hc Ht Hps Hpts Hbs Hbseed Hvalid.
  unfold updateUser.
  cbn [mbind option_bind passwordSalt passwordTokenSalt passwordBasedEncryptionKeySalt
         passwordEncryptedSeed].
  rewrite !blank_Some by done.
  rewrite !bool_decide_eq_false_2 by done.
  change (truthy None) with false. cbn [negb andb orb].
  rewrite bind_run.
  match goal with |- context [try_catch ?m ?h w] =>
    replace (try_catch m h w) with (w, @inr exn (option (responseBuilder.built unit)) None)
      by (symmetry; destruct Hvalid as (Hu & He & Hp);
          exact (updateUser_validation _ _ _ _ eq_refl He Hp)) end.
  rewrite try_catch_run, bind_run, (getUserByUserId_single _ _ _ Hd Hq), Hlive.
  rewrite try_catch_run. reflexivity.
Qed.

Lemma _updateUserExcludingUsernameUpdate_password (user stored : item) (uid : attr)
    (t ps pts bs bseed : string) (email : field string) (profile : field attr)
    (k : string * string) (w : world) :
  ddb_down w = None →
  users_key user = Some k →
  users w !! k = Some stored →
  is_Some (stored !! "username") →
  stored !! "user-id" = Some uid →
  t ≠ "" →
  ∃ stored',
    _updateUserExcludingUsernameUpdate user (Some uid) (Some t)
      (Some {| passwordSalt := Some ps; passwordTokenSalt := Some pts |}) email profile
      (Some {| passwordBasedEncryptionKeySalt := Some bs; passwordEncryptedSeed := Some bseed |})
      w
    = (set_users (<[k := stored']> (users w)) w, inr tt)
    ∧ stored' !! "password-token" = Some (ABin (sha256_hash t))
    ∧ stored' !! "password-salt" = Some (AStr ps)
    ∧ stored' !! "password-token-salt" = Some (AStr pts)
    ∧ stored' !! "password-based-encryption-key-salt" = Some (AStr bs)
    ∧ stored' !! "password-encrypted-seed" = Some (AStr bseed)
    ∧ ∀ a, a ∉ ["password-token"; "password-salt"; "password-token-salt";
                "password-based-encryption-key-salt"; "password-encrypted-seed";
                "email"; "profile"] →
           stored' !! a = stored !! a.
Proof.
  intros Hd Hk Hs Hname Huid Ht.
  unfold _updateUserExcludingUsernameUpdate.
  rewrite (blank_Some _ Ht). cbn [negb].
  assert (∀ acts stored',
            apply_actions acts stored = inr stored' →
            forallb action_defined acts = true →
            acts ≠ [] →
            try_catch
              (if bool_decide (acts = []) then throw ValidationException
               else users_update
                      {| Key := Key (conditionCheckUserExists (user !! "username")
                                       (user !! "app-id") (Some uid));
                         ConditionExpression :=
                           ConditionExpression
                             (conditionCheckUserExists (user !! "username")
                                (user !! "app-id") (Some uid));
                         UpdateExpression := acts |})
              (λ e, if bool_decide (exn_name e = Some "ConditionalCheckFailedException")
                    then throw (Error "UserNotFound")
                    else throw e) w
            = (set_users (<[k := stored']> (users w)) w, inr tt)) as Hrun.
  { intros acts stored' Happly Hdef Hne.
    rewrite try_catch_run, bool_decide_eq_false_2 by done.
    rewrite (users_update_lands _ k stored'); [done|done| |done|done| |].
    - cbn [Key conditionCheckUserExists]. by apply users_key_self.
    - rewrite Hs. cbn. rewrite Huid. destruct Hname as [x ->].
      rewrite !bool_decide_eq_true_2 by eauto. done.
    - by rewrite Hs. }
  destruct email as [| |e]; [| |destruct (field_truthy AStr (Given e)) eqn:He];
    (destruct profile as [| |p]; [| |destruct (field_truthy id (Given p)) eqn:Hp]);
    cbn [field_is_false app];
    (eexists; split; [apply Hrun; [reflexivity|reflexivity|discriminate]|]);
    (repeat split;
     [try (rewrite ?lookup_delete_ne, ?lookup_insert_ne by done; apply lookup_insert_eq)..
     |intros a Ha; repeat (apply not_elem_of_cons in Ha as [? Ha]);
      by rewrite ?lookup_delete_ne, ?lookup_insert_ne by done]).
Qed.

Ltac not_listed :=
  repeat (apply not_elem_of_cons; split; [discriminate|]); apply not_elem_of_nil.

Lemma users_key_attrs (user : item) (a n : string) :
  users_key user = Some (a, n) →
  user !! "app-id" = Some (AStr a) ∧ user !! "username" = Some (AStr n).
Proof.
  unfold users_key.
  destruct (user !! "app-id") as [[]|], (user !! "username") as [[]|]; try done.
  by intros [= -> ->].
Qed.

(** X12: a password change that carries the current password token of a user
    who is not locked out succeeds: the stored item then holds the hash of
    the new token, the new salts and the new backup, keeps its user id, and
    a sign-in with the new token succeeds, not flagged as made with a
    temporary password. *)
Theorem updateUser_changes_password (uid : attr) (c t ps pts bs bseed : string)
    (email : field string) (profile : field attr) (now : Z) (w : world) (user : item)
    (a n : string) :
  ddb_down w = None →
  keyed (users w) →
  query "user-id" uid (users w) = [user] →
  users_key user = Some (a, n) →
  truthy (user !! "deleted") = false →
  c ≠ "" → t ≠ "" → ps ≠ "" → pts ≠ "" → bs ≠ "" → bseed ≠ "" →
  changes_valid None email profile w →
  num_ge (user !! "incorrect-password-attempts-in-a-row") MAX_INCORRECT_PASSWORD_GUESSES
    = false →
  user !! "password-token" = Some (ABin (sha256_hash c)) →
  ∃ w' stored',
    updateUser (Some uid) None (Some c) (Some t)
      (Some {| passwordSalt := Some ps; passwordTokenSalt := Some pts |}) email profile
      (Some {| passwordBasedEncryptionKeySalt := Some bs; passwordEncryptedSeed := Some bseed |})
      now w
    = (w', inr (responseBuilder.successResponse tt))
    ∧ users w' !! (a, n) = Some stored'
    ∧ stored' !! "password-token" = Some (ABin (sha256_hash t))
    ∧ stored' !! "password-salt" = Some (AStr ps)
    ∧ stored' !! "password-token-salt" = Some (AStr pts)
    ∧ stored' !! "password-based-encryption-key-salt" = Some (AStr bs)
    ∧ stored' !! "password-encrypted-seed" = Some (AStr bseed)
    ∧ stored' !! "user-id" = Some uid
    ∧ ∀ req rnd now' username,
        signIn_reaches_check req a username t →
        toLowerCase username = n →
        ∃ w'' r,
          signIn req rnd now' w' = (w'', inr {| res_status := None; res_body := PSignedIn r |})
          ∧ r_userId r = Some uid
          ∧ r_usedTempPassword r = None.
Proof.
  intros Hd Hkeyed Hq Hk Hlive Hc Ht Hps Hpts Hbs Hbseed Hvalid Hcount Hpw.
  destruct (query_single _ _ _ _ Hkeyed Hq) as (Huid & k & Hk' & Hw).
  rewrite Hk in Hk'. injection Hk' as <-.
  destruct (users_key_attrs _ _ _ Hk) as [Ha Hu].
  rewrite (updateUser_password_run _ _ _ _ _ _ _ _ _ _ _ user) by done.
  rewrite try_catch_run, bind_run, try_catch_run, bind_run.
  rewrite (_validatePassword_correct _ _ _ _ Hcount Hpw).
  rewrite (_allowUserToRetryPassword_lands _ _ _ Hk Hd), Hw.
  cbn [fst default from_option id]. unfold mret at 1, M_ret at 1. rewrite bind_run.
  set (w1 := set_users (<[(a, n) := cleared user]> (users w)) w).
  destruct (_updateUserExcludingUsernameUpdate_password user (cleared user) uid t ps pts bs bseed
              email profile (a, n) w1)
    as (stored' & -> & Hpt & H1 & H2 & H3 & H4 & Hrest); try done.
  { apply lookup_insert_eq. }
  { rewrite cleared_lookup by done. eauto. }
  { by rewrite cleared_lookup. }
  assert (∀ x, x ∉ ["password-token"; "password-salt"; "password-token-salt";
                    "password-based-encryption-key-salt"; "password-encrypted-seed";
                    "email"; "profile"] →
               x ≠ "incorrect-password-attempts-in-a-row" → x ≠ "suspended-at" →
               stored' !! x = user !! x) as Hsame.
  { intros x Hx H5 H6. rewrite (Hrest x Hx). by apply cleared_lookup. }
  eexists _, stored'. split; [reflexivity|].
  cbn [users set_users].
  split; [apply lookup_insert_eq|].
  do 5 (split; [done|]).
  split. { rewrite Hsame; [done| |done|done]. not_listed. }
  intros req rnd now' username Hreach <-.
  destruct (signIn_correct_password req rnd now'
              (set_users (<[(a, toLowerCase username) := stored']> (users w1)) w1)
              a username t stored' Hreach) as (w'' & r & Hrun & Hr & Hflag); try done.
  - apply lookup_insert_eq.
  - rewrite Hrest by not_listed. apply cleared_not_locked.
  - rewrite Hsame; [done| |done|done]. not_listed.
  - exists w'', r. rewrite Hr, Hsame; [done| |done|done]. not_listed.
Qed.

(** X13: a password change whose current password token is not the user's is
    answered 400 'CurrentPasswordIncorrect'; the stored item is as before
    but for the counter of incorrect attempts, and no other item changes. *)
Theorem updateUser_wrong_current_password (uid : attr) (c t ps pts bs bseed permanent : string)
    (email : field string) (profile : field attr) (now : Z) (w : world) (user : item)
    (a n : string) :
  ddb_down w = None →
  keyed (users w) →
  query "user-id" uid (users w) = [user] →
  users_key user = Some (a, n) →
  truthy (user !! "deleted") = false →
  c ≠ "" → t ≠ "" → ps ≠ "" → pts ≠ "" → bs ≠ "" → bseed ≠ "" →
  changes_valid None email profile w →
  num_ge (user !! "incorrect-password-attempts-in-a-row") MAX_INCORRECT_PASSWORD_GUESSES
    = false →
  user !! "password-token" = Some (ABin permanent) →
  permanent ≠ sha256_hash c →
  user !! "temp-password-token" = None →
  ∃ w' stored',
    updateUser (Some uid) None (Some c) (Some t)
      (Some {| passwordSalt := Some ps; passwordTokenSalt := Some pts |}) email profile
      (Some {| passwordBasedEncryptionKeySalt := Some bs; passwordEncryptedSeed := Some bseed |})
      now w
    = (w', inr (responseBuilder.errorResponse BadRequest (EString "CurrentPasswordIncorrect")))
    ∧ users w' !! (a, n) = Some stored'
    ∧ (∀ x, x ≠ "incorrect-password-attempts-in-a-row" → stored' !! x = user !! x)
    ∧ (∀ k, k ≠ (a, n) → users w' !! k = users w !! k).
Proof.
  intros Hd Hkeyed Hq Hk Hlive Hc Ht Hps Hpts Hbs Hbseed Hvalid Hcount Hpw Hwrong Htemp.
  destruct (query_single _ _ _ _ Hkeyed Hq) as (Huid & k & Hk' & Hw).
  rewrite Hk in Hk'. injection Hk' as <-.
  rewrite (updateUser_password_run _ _ _ _ _ _ _ _ _ _ _ user) by done.
  rewrite try_catch_run, bind_run, try_catch_run, bind_run.
  rewrite (_validatePassword_temp_branch _ _ _ _ _ Hcount Hpw Hwrong).
  rewrite Htemp. change (truthy None) with false. cbv iota.
  rewrite bind_run. unfold mret at 1, M_ret at 1. cbn [negb].
  rewrite bind_run.
  destruct (_incrementIncorrectPasswordAttempt user w) as [w1 r] eqn:Hinc.
  unfold _incrementIncorrectPasswordAttempt in Hinc.
  apply (detached_update_cases _ (a, n) user) in Hinc as [-> Hw1];
    [|by apply users_key_self|done].
  destruct Hw1 as [-> | (stored' & Happly & ->)].
  - exists w, user. done.
  - eexists _, stored'. split; [reflexivity|]. cbn [users set_users].
    split; [apply lookup_insert_eq|].
    split; [|intros k Hne; by apply lookup_insert_ne].
    intros x Hx. cbn in Happly.
    destruct (user !! "incorrect-password-attempts-in-a-row") as [[]|];
      try discriminate; injection Happly as <-; by rewrite lookup_insert_ne.
Qed.

(** X14: a password change for a user who is locked out and was suspended
    less than 24 hours ago is answered 500 'Failed to update user': the
    handler of the limit error calls [status], which the module does not
    define, and the [ReferenceError] falls to the outer [catch]. The store
    is unchanged. *)
Theorem updateUser_locked_out (uid : attr) (c t ps pts bs bseed : string)
    (email : field string) (profile : field attr) (now suspended : Z) (w : world)
    (user : item) :
  ddb_down w = None →
  query "user-id" uid (users w) = [user] →
  truthy (user !! "deleted") = false →
  c ≠ "" → t ≠ "" → ps ≠ "" → pts ≠ "" → bs ≠ "" → bseed ≠ "" →
  changes_valid None email profile w →
  locked_out user →
  user !! "suspended-at" = Some (ADate suspended) →
  now - suspended < MS_IN_A_DAY →
  updateUser (Some uid) None (Some c) (Some t)
    (Some {| passwordSalt := Some ps; passwordTokenSalt := Some pts |}) email profile
    (Some {| passwordBasedEncryptionKeySalt := Some bs; passwordEncryptedSeed := Some bseed |})
    now w
  = (w, inr (responseBuilder.errorResponse InternalServerError (EString "Failed to update user"))).
Proof.
  intros Hd Hq Hlive Hc Ht Hps Hpts Hbs Hbseed Hvalid Hlocked Hsusp Hrecent.
  rewrite (updateUser_password_run _ _ _ _ _ _ _ _ _ _ _ user) by done.
  rewrite try_catch_run, bind_run, try_catch_run, bind_run.
  unfold _validatePassword. rewrite (locked_out_num_ge _ Hlocked), Hsusp.
  cbn [truthy negb orb Date_of elapsed_lt].
  rewrite bind_run, bind_run. unfold mret at 1, M_ret at 1.
  assert ((now - suspended <? MS_IN_A_DAY) = true) as -> by lia.
  reflexivity.
Qed.

End UserChangesProofs.

(** ** Deleting a user *)

Section DeletionProofs.
Context `{Imports} `{StripeClient}.

Lemma query_replace {K} `{Countable K} (a : string) (v : attr) (t : gmap K item) (k : K)
    (user user' : item) :
  query a v t = [user] →
  t !! k = Some user →
  user' !! a = Some v →
  query a v (<[k := user']> t) = [user'].
Proof.
  intros Hq Hk Hattr. apply query_insert_only; [done|].
  intros k' it' Hk' Hne. by apply (query_single_unique a v t k user Hq Hk k').
Qed.

Lemma signIn_deleted (req : request) (rnd : entropy) (now : Z) (w : world)
    (appId username passwordToken : string) (stored : item) :
  signIn_reaches_check req appId username passwordToken →
  ddb_down w = None →
  users w !! (appId, toLowerCase username) = Some stored →
  num_ge (stored !! "incorrect-password-attempts-in-a-row") MAX_INCORRECT_PASSWORD_GUESSES
    = false →
  stored !! "password-token" = Some (ABin (sha256_hash passwordToken)) →
  truthy (stored !! "deleted") = true →
  snd (signIn req rnd now w)
  = inr {| res_status := Some Forbidden; res_body := PText "User pending deletion" |}.
Proof.
  intros Hreach Hd Hs Hcount Hpw Hdel.
  rewrite (signIn_check_run _ _ _ _ _ _ _ Hreach Hd), Hs.
  rewrite (try_catch_ok _ _ _ _ _ (_validatePassword_correct _ _ _ _ Hcount Hpw)).
  by rewrite Hdel.
Qed.

Lemma deleteUser_lands (user : item) (stripeAccountId : option attr) (now : Z) (w : world)
    (k : string * string) :
  ddb_down w = None →
  users_key user = Some k →
  users w !! k = Some user →
  is_Some (user !! "user-id") →
  (truthy stripeAccountId = true →
     deleteSubscription (user !! "test-subscription-id") (user !! "test-subscription-status")
       stripeAccountId true = None
     ∧ deleteSubscription (user !! "prod-subscription-id") (user !! "prod-subscription-status")
         stripeAccountId false = None) →
  deleteUser user stripeAccountId now w
  = (set_users (<[k := <["deleted" := ADate now]> user]> (users w)) w, inr tt).
Proof.
  intros Hd Hk Hw [uid Huid] Hstripe. unfold deleteUser. rewrite bind_run.
  assert ((if truthy stripeAccountId
           then match deleteSubscription (user !! "test-subscription-id")
                        (user !! "test-subscription-status") stripeAccountId true,
                      deleteSubscription (user !! "prod-subscription-id")
                        (user !! "prod-subscription-status") stripeAccountId false
                with
                | Some e, _ => throw e
                | None, Some e => throw e
                | None, None => mret tt
                end
           else mret tt) w = (w, inr tt)) as ->.
  { destruct (truthy stripeAccountId); [|done].
    destruct Hstripe as [-> ->]; done. }
  destruct k as [a n]. destruct (users_key_attrs _ _ _ Hk) as [Ha Hu].
  apply users_update_lands.
  - done.
  - cbn [Key conditionCheckUserExists]. by apply users_key_self.
  - cbn. rewrite Huid. by rewrite bool_decide_eq_true_2 by eauto.
  - done.
  - rewrite Hw. cbn. rewrite Huid, Hu. rewrite !bool_decide_eq_true_2 by eauto. done.
  - by rewrite Hw.
Qed.

Lemma authenticateUser_deleted_user (sid appId : string) (now : Z) (w : world)
    (session user : item) (uid : attr) :
  sid ≠ "" → appId ≠ "" → ddb_down w = None →
  sessions w !! sid = Some session →
  session !! "user-id" = Some uid →
  query "user-id" uid (users w) = [user] →
  truthy (user !! "deleted") = true →
  ∃ m, authenticateUser (Some sid) (Some appId) now w
       = (w, inr (Answered {| res_status := Some Unauthorized; res_body := PText m |})).
Proof.
  intros Hs Ha Hd Hsess Huid Hq Hdel.
  unfold authenticateUser. rewrite try_catch_run, bind_run.
  rewrite (blank_Some _ Hs), (blank_Some _ Ha). cbn [orb].
  unfold mret at 1, M_ret at 1. rewrite bind_run.
  cbn [str fmap option_fmap option_map].
  rewrite (_getSesssion_run _ _ Hd), Hsess.
  rewrite bind_run, _validateSession_cases.
  destruct (negb (truthy (session !! "invalidated"))
            && negb (elapsed_gt now (session_clock session) SESSION_LENGTH)
            && truthy (session !! "user-id")); [|by eexists].
  destruct (strict_eq (session !! "app-id") (Some (AStr appId))); [|by eexists].
  cbn [negb]. rewrite bind_run, Huid, (getUserByUserId_single _ _ _ Hd Hq), Hdel.
  by eexists.
Qed.

(** X15: deleting a user who exists and is not deleted succeeds, whenever
    the Stripe calls go through, and only stamps the item with the date.
    From then on a sign-in with the right password is answered 403 'User
    pending deletion', the sessions of the user are refused with 401, and a
    second deletion is answered 404 'UserNotFound', or 400 when it lacks a
    parameter. *)
Theorem deleteUserController_shuts_user_out (uid : attr) (adminId appName : string)
    (stripeAccountId : option attr) (now : Z) (w : world) (user : item) (a n : string) :
  ddb_down w = None →
  keyed (users w) →
  query "user-id" uid (users w) = [user] →
  users_key user = Some (a, n) →
  truthy (Some uid) = true →
  truthy (user !! "deleted") = false →
  adminId ≠ "" → appName ≠ "" →
  (truthy stripeAccountId = true →
     deleteSubscription (user !! "test-subscription-id") (user !! "test-subscription-status")
       stripeAccountId true = None
     ∧ deleteSubscription (user !! "prod-subscription-id") (user !! "prod-subscription-status")
         stripeAccountId false = None) →
  ∃ w',
    deleteUserController (Some uid) (Some adminId) (Some appName) stripeAccountId now w
    = (w', inr (responseBuilder.successResponse tt))
    ∧ users w' = <[(a, n) := <["deleted" := ADate now]> user]> (users w)
    ∧ sessions w' = sessions w
    ∧ (∀ req rnd now' username passwordToken,
         signIn_reaches_check req a username passwordToken →
         toLowerCase username = n →
         user !! "password-token" = Some (ABin (sha256_hash passwordToken)) →
         num_ge (user !! "incorrect-password-attempts-in-a-row")
           MAX_INCORRECT_PASSWORD_GUESSES = false →
         snd (signIn req rnd now' w')
         = inr {| res_status := Some Forbidden; res_body := PText "User pending deletion" |})
    ∧ (∀ sid appId now' session,
         sid ≠ "" → appId ≠ "" →
         sessions w' !! sid = Some session →
         session !! "user-id" = Some uid →
         ∃ m, snd (authenticateUser (Some sid) (Some appId) now' w')
              = inr (Answered {| res_status := Some Unauthorized; res_body := PText m |}))
    ∧ (∀ adminId' appName' stripeAccountId' now',
         snd (deleteUserController (Some uid) adminId' appName' stripeAccountId' now' w')
         = inr (responseBuilder.errorResponse NotFound (EString "UserNotFound"))
         ∨ snd (deleteUserController (Some uid) adminId' appName' stripeAccountId' now' w')
           = inr (responseBuilder.errorResponse BadRequest (EString "Missing params"))).
Proof.
  intros Hd Hkeyed Hq Hk Htruthy Hlive Ha Hn Hstripe.
  destruct (query_single _ _ _ _ Hkeyed Hq) as (Huid & k & Hk' & Hw).
  rewrite Hk in Hk'. injection Hk' as <-.
  set (gone := <["deleted" := ADate now]> user).
  set (w' := set_users (<[(a, n) := gone]> (users w)) w).
  assert (query "user-id" uid (users w') = [gone]) as Hq'.
  { apply (query_replace _ _ _ _ user); [done|done|].
    unfold gone. by rewrite lookup_insert_ne. }
  assert (truthy (gone !! "deleted") = true) as Hgone.
  { unfold gone. by rewrite lookup_insert_eq. }
  exists w'. split; [|split; [done|split; [done|split; [|split]]]].
  - unfold deleteUserController. rewrite try_catch_run.
    rewrite Htruthy, !blank_Some by done. cbn [negb orb].
    rewrite bind_run, (getUserByUserId_single _ _ _ Hd Hq), Hlive, bind_run.
    rewrite (deleteUser_lands _ _ _ _ (a, n)); [done|done|done|done|eauto|done].
  - intros req rnd now' username passwordToken Hreach Hlow Hpw Hcount.
    apply (signIn_deleted _ _ _ _ a username passwordToken gone); try done.
    + rewrite Hlow. apply lookup_insert_eq.
    + unfold gone. by rewrite lookup_insert_ne.
    + unfold gone. by rewrite lookup_insert_ne.
  - intros sid appId now' session Hsid Happ Hsess Hsuid.
    destruct (authenticateUser_deleted_user sid appId now' w' session gone uid)
      as [m Hm]; try done.
    exists m. by rewrite Hm.
  - intros adminId' appName' stripeAccountId' now'.
    unfold deleteUserController. rewrite try_catch_run. rewrite Htruthy. cbn [negb orb].
    destruct (blank adminId' || blank appName'); [by right|]. left.
    rewrite bind_run, (getUserByUserId_single _ _ w' Hd Hq'), Hgone. done.
Qed.

End DeletionProofs.

(** ** Password salts *)

Section PasswordSaltsProofs.
Context `{Imports}.

(** X16: after a successful sign-up the two password salts of the request
    can be read back: [getPasswordSaltsController] with the app id and user
    name of the sign-up sends them, and [getPasswordSaltsByUserId] with the
    user id returned answers with them, the user id being new to the table. *)
Theorem getPasswordSalts_after_signUp (req : request) (rnd : entropy) (now : Z)
    (w w1 : world) (userId : string) (session : session_t) :
  signUp req rnd now w
    = (w1, inr {| res_status := None; res_body := PSignedUp userId session |}) →
  let salts := {| s_passwordSalt := str (body_passwordSalts req ≫= passwordSalt);
                  s_passwordTokenSalt := str (body_passwordSalts req ≫= passwordTokenSalt) |} in
  is_Some (s_passwordSalt salts)
  ∧ is_Some (s_passwordTokenSalt salts)
  ∧ getPasswordSaltsController (query_appId req) (body_username req) w1
    = (w1, inr {| reply_status := None; reply_body := BResult salts |})
  ∧ ((∀ k it, users w !! k = Some it → it !! "user-id" ≠ Some (AStr (uuid rnd))) →
     getPasswordSaltsByUserId (Some (AStr userId)) w1
     = (w1, inr (responseBuilder.successResponse salts))).
Proof.
  intros Hrun salts.
  destruct (signUp_success_inv _ _ _ _ _ _ _ Hrun)
    as ((Hv & app & admin & Happ & Hlive & Hadmin & Hlive' & _) & Hd & -> & k & Hk & Hus & Hd1).
  assert (is_Some (s_passwordSalt salts) ∧ is_Some (s_passwordTokenSalt salts)) as [Hs1 Hs2].
  { unfold _validateSignUpInput in Hv. rewrite try_catch_run, bind_run in Hv.
    destruct (blank _ || _ || _ || _ || _ || _ || _); [done|].
    unfold mret at 1, M_ret at 1 in Hv. rewrite bind_run in Hv.
    destruct (blank (body_passwordSalts req ≫= passwordSalt)) eqn:H1; [done|].
    destruct (blank (body_passwordSalts req ≫= passwordTokenSalt)) eqn:H2; [done|].
    apply blank_false_inv in H1 as [x Hx], H2 as [y Hy].
    unfold salts. cbn [s_passwordSalt s_passwordTokenSalt]. rewrite Hx, Hy. split; eauto. }
  apply _validateSignUpInput_ok_inv in Hv as (Hb & Htr & _ & _ & _ & Hname).
  destruct (blank_false_inv _ Hb) as [a Ha].
  destruct (_validateUsernameInput_ok_inv _ _ Hname) as [n Hn].
  assert (users_key (signUp_item req rnd now) = Some (a, toLowerCase n)) as Hk'
    by (by apply signUp_item_key).
  rewrite Hk in Hk'. injection Hk' as ->.
  split; [done|]. split; [done|].
  assert (signUp_item req rnd now !! "password-salt" = s_passwordSalt salts
          ∧ signUp_item req rnd now !! "password-token-salt" = s_passwordTokenSalt salts)
    as [Hl1 Hl2].
  { rewrite !signUp_item_lookup by done. cbn [props_get String.eqb Ascii.eqb Bool.eqb].
    unfold salts in *. cbn [s_passwordSalt s_passwordTokenSalt] in *.
    destruct Hs1 as [x ->], Hs2 as [y ->]. done. }
  split.
  - unfold getPasswordSaltsController. rewrite try_catch_run, bind_run.
    rewrite Hb, Htr. cbn [negb orb]. unfold mret at 1, M_ret at 1.
    rewrite bind_run, try_catch_run.
    assert (_validateUsernameInput (body_username req) w1 = (w1, inr tt)) as ->.
    { rewrite Hn in Hname |- *. unfold _validateUsernameInput in *.
      destruct (negb _); [done|]. destruct (_ >? _); done. }
    rewrite Happ, Hlive, Hadmin, Hlive', bind_run.
    rewrite (getUser_run _ _ (a, toLowerCase n)); [|done|by apply target_key].
    rewrite Hus, lookup_insert_eq, Hl1, Hl2. reflexivity.
  - intros Hfresh. unfold getPasswordSaltsByUserId. rewrite try_catch_run, bind_run.
    rewrite (getUserByUserId_single (AStr (uuid rnd)) (signUp_item req rnd now)).
    + rewrite Hl1, Hl2. by rewrite (signUp_item_lookup _ _ _ "deleted").
    + done.
    + rewrite Hus. apply query_insert_only.
      * by rewrite signUp_item_lookup.
      * intros k' it' Hit' _. by apply (Hfresh k').
Qed.

End PasswordSaltsProofs.

(** ** Examples *)


Lemma changes_valid_sample (username : option attr) (w : world) :
  (truthy username = true → _validateUsernameInput username w = (w, inr tt)) →
  @changes_valid (Sample.imports true) username Omitted Omitted w.
Proof. intros Hu. split; [done|]. split; intros ? [=]. Qed.


Lemma query_alice_world (extra : list (string * option attr)) :
  users_key (Sample.alice extra) = Some ("app-1", "alice") →
  Sample.alice extra !! "user-id" = Some (AStr "user-1") →
  query "user-id" (AStr "user-1") (users (Sample.alice_world extra)) = [Sample.alice extra].
Proof.
  intros Hk Hu. unfold Sample.alice_world, Sample.world_of. cbn [users list_to_map foldr].
  apply query_insert_only; [done|].
  intros k' it' Hit'. by rewrite lookup_empty in Hit'.
Qed.





Lemma updateUser_changes_password_witness :
  ∃ w' stored',
    @updateUser (Sample.imports true) (Some (AStr "user-1")) None (Some "pw") (Some "new")
      (Some Examples.new_salts) Omitted Omitted (Some Examples.new_backup) 5000
      (Sample.alice_world [])
    = (w', inr (responseBuilder.successResponse tt))
    ∧ users w' !! ("app-1", "alice") = Some stored'
    ∧ stored' !! "password-token" = Some (ABin "sha256:new").
Proof.
  destruct (@updateUser_changes_password (Sample.imports true) (AStr "user-1") "pw" "new"
              "s3" "s4" "b3" "b4" Omitted Omitted 5000 (Sample.alice_world [])
              (Sample.alice []) "app-1" "alice")
    as (w' & stored' & Hrun & Hl & Hpt & _).
  - reflexivity.
  - apply keyed_alice_world. reflexivity.
  - apply query_alice_world; reflexivity.
  - reflexivity.
  - reflexivity.
  - discriminate.
  - discriminate.
  - discriminate.
  - discriminate.
  - discriminate.
  - discriminate.
  - apply changes_valid_sample. discriminate.
  - reflexivity.
  - reflexivity.
  - exists w', stored'. split; [exact Hrun|]. split; [exact Hl|exact Hpt].
Defined.

Lemma updateUser_wrong_current_password_witness :
  ∃ w' stored',
    @updateUser (Sample.imports true) (Some (AStr "user-1")) None (Some "guess") (Some "new")
      (Some Examples.new_salts) Omitted Omitted (Some Examples.new_backup) 5000
      (Sample.alice_world [])
    = (w', inr (responseBuilder.errorResponse BadRequest (EString "CurrentPasswordIncorrect")))
    ∧ users w' !! ("app-1", "alice") = Some stored'
    ∧ stored' !! "password-token" = Some (ABin "sha256:pw").
Proof.
  destruct (@updateUser_wrong_current_password (Sample.imports true) (AStr "user-1") "guess"
              "new" "s3" "s4" "b3" "b4" "sha256:pw" Omitted Omitted 5000
              (Sample.alice_world []) (Sample.alice []) "app-1" "alice")
    as (w' & stored' & Hrun & Hl & Hsame & _).
  - reflexivity.
  - apply keyed_alice_world. reflexivity.
  - apply query_alice_world; reflexivity.
  - reflexivity.
  - reflexivity.
  - discriminate.
  - discriminate.
  - discriminate.
  - discriminate.
  - discriminate.
  - discriminate.
  - apply changes_valid_sample. discriminate.
  - reflexivity.
  - reflexivity.
  - discriminate.
  - reflexivity.
  - exists w', stored'. split; [exact Hrun|]. split; [exact Hl|].
    rewrite Hsame; [reflexivity|discriminate].
Defined.

Lemma updateUser_locked_out_witness :
  @updateUser (Sample.imports true) (Some (AStr "user-1")) None (Some "pw") (Some "new")
    (Some Examples.new_salts) Omitted Omitted (Some Examples.new_backup) 5000
    (Sample.alice_world [("incorrect-password-attempts-in-a-row", Some (ANum 25));
                         ("suspended-at", Some (ADate 4000))])
  = (Sample.alice_world [("incorrect-password-attempts-in-a-row", Some (ANum 25));
                         ("suspended-at", Some (ADate 4000))],
     inr (responseBuilder.errorResponse InternalServerError (EString "Failed to update user"))).
Proof.
  apply (@updateUser_locked_out (Sample.imports true) (AStr "user-1") "pw" "new"
           "s3" "s4" "b3" "b4" Omitted Omitted 5000 4000
           (Sample.alice_world [("incorrect-password-attempts-in-a-row", Some (ANum 25));
                                ("suspended-at", Some (ADate 4000))])
           (Sample.alice [("incorrect-password-attempts-in-a-row", Some (ANum 25));
                          ("suspended-at", Some (ADate 4000))])).
  - reflexivity.
  - apply query_alice_world; reflexivity.
  - reflexivity.
  - discriminate.
  - discriminate.
  - discriminate.
  - discriminate.
  - discriminate.
  - discriminate.
  - apply changes_valid_sample. discriminate.
  - exists 25. split; [reflexivity|]. unfold MAX_INCORRECT_PASSWORD_GUESSES. lia.
  - reflexivity.
  - unfold MS_IN_A_DAY, SECONDS_IN_A_DAY, HOURS_IN_A_DAY. lia.
Defined.

Lemma deleteUserController_shuts_user_out_witness :
  ∃ w',
    @deleteUserController Examples.stripe (Some (AStr "user-1"))
      (Some "admin-1") (Some "app one") (Some (AStr "acct-1")) 5000 (Sample.alice_world [])
    = (w', inr (responseBuilder.successResponse tt))
    ∧ snd (@signIn (Sample.imports true) (Sample.sign_in_request "pw") (Sample.draw "3") 6000 w')
      = inr {| res_status := Some Forbidden; res_body := PText "User pending deletion" |}.
Proof.
  assert (@signIn_reaches_check (Sample.imports true) (Sample.sign_in_request "pw")
            "app-1" "Alice" "pw") as Hreach.
  { repeat split; try done. exists Sample.app, Sample.admin. repeat split. }
  destruct (@deleteUserController_shuts_user_out (Sample.imports true) Examples.stripe
              (AStr "user-1") "admin-1" "app one" (Some (AStr "acct-1")) 5000
              (Sample.alice_world []) (Sample.alice []) "app-1" "alice")
    as (w' & Hrun & _ & _ & Hsign & _).
  - reflexivity.
  - apply keyed_alice_world. reflexivity.
  - apply query_alice_world; reflexivity.
  - reflexivity.
  - reflexivity.
  - reflexivity.
  - discriminate.
  - discriminate.
  - intros _. split; reflexivity.
  - exists w'. split; [exact Hrun|].
    apply (Hsign (Sample.sign_in_request "pw") (Sample.draw "3") 6000 "Alice" "pw").
    + exact Hreach.
    + reflexivity.
    + reflexivity.
    + reflexivity.
Defined.

Lemma getPasswordSalts_after_signUp_witness :
  @getPasswordSaltsController (Sample.imports true) (Some "app-1") (Some (AStr "Alice"))
    (fst (@signUp (Sample.imports true) Sample.sign_up_request (Sample.draw "1") 1000
            Sample.empty_world))
  = (fst (@signUp (Sample.imports true) Sample.sign_up_request (Sample.draw "1") 1000
            Sample.empty_world),
     inr {| reply_status := None;
            reply_body := BResult {| s_passwordSalt := Some (AStr "s1");
                                     s_passwordTokenSalt := Some (AStr "s2") |} |}).
Proof.
  destruct (@getPasswordSalts_after_signUp (Sample.imports true) Sample.sign_up_request
              (Sample.draw "1") 1000 Sample.empty_world
              (fst (@signUp (Sample.imports true) Sample.sign_up_request (Sample.draw "1") 1000
                      Sample.empty_world))
              "uuid-1"
              {| sessionId := "sid-1"; authToken := "tok-1"; creationDate := 1000 |})
    as (_ & _ & Hrest & _).
  - exact sample_signUp_run.
  - exact Hrest.
Defined.

(** ** Forgotten passwords *)

Section ForgottenPasswordProofs.
Context `{Imports} `{Recovery}.

Lemma signIn_temp_password (req : request) (rnd : entropy) (now created : Z) (w : world)
    (appId username passwordToken permanent : string) (stored : item) :
  signIn_reaches_check req appId username passwordToken →
  ddb_down w = None →
  users w !! (appId, toLowerCase username) = Some stored →
  num_ge (stored !! "incorrect-password-attempts-in-a-row") MAX_INCORRECT_PASSWORD_GUESSES
    = false →
  stored !! "password-token" = Some (ABin permanent) →
  permanent ≠ sha256_hash passwordToken →
  stored !! "temp-password-token" = Some (ABin (sha256_hash passwordToken)) →
  stored !! "temp-password-creation-date" = Some (ADate created) →
  truthy (stored !! "deleted") = false →
  (now - created ≤ MS_IN_A_DAY →
     ∃ w1 r,
       signIn req rnd now w = (w1, inr {| res_status := None; res_body := PSignedIn r |})
       ∧ r_userId r = stored !! "user-id"
       ∧ r_usedTempPassword r = Some true
       ∧ r_passwordBasedBackup r = None)
  ∧ (MS_IN_A_DAY < now - created →
       snd (signIn req rnd now w)
       = inr {| res_status := Some Unauthorized; res_body := PText "Invalid password" |}).
Proof.
  intros Hreach Hd Hs Hcount Hpw Hne Htemp Hdate Hlive.
  rewrite (signIn_check_run _ _ _ _ _ _ _ Hreach Hd), Hs.
  rewrite try_catch_run.
  rewrite (_validatePassword_temp_branch _ _ _ _ _ Hcount Hpw Hne).
  rewrite Htemp, Hdate. cbn [truthy Date_of elapsed_gt].
  rewrite bind_run, Buffer_equals_bin, String.eqb_refl. cbn [negb].
  split.
  - intros Hage. assert ((now - created >? MS_IN_A_DAY) = false) as -> by lia.
    unfold mret at 1, M_ret at 1. rewrite Hlive, try_catch_run, bind_run.
    rewrite createSession_run by done.
    eexists _, _. split; [reflexivity|]. done.
  - intros Hage. assert ((now - created >? MS_IN_A_DAY) = true) as -> by lia.
    rewrite bind_run.
    destruct (_incrementIncorrectPasswordAttempt stored w) as [w1 [e|[]]] eqn:Hinc.
    + unfold _incrementIncorrectPasswordAttempt, detached in Hinc. done.
    + done.
Qed.

Lemma forgotPassword_run (forgotPasswordToken tempPassword ps pts a n : string) (now : Z)
    (user app : item) (w : world) :
  ddb_down w = None →
  users_key user = Some (a, n) →
  users w !! (a, n) = Some user →
  is_Some (user !! "user-id") →
  app !! "app-id" = Some (AStr a) →
  user !! "password-salt" = Some (AStr ps) →
  user !! "password-token-salt" = Some (AStr pts) →
  forgotPassword forgotPasswordToken (Some (base64 forgotPasswordToken)) user app tempPassword
    now w
  = (set_users
       (<[(a, n) :=
            <["temp-password-creation-date" := ADate now]>
              (<["temp-password-token" :=
                   ABin (sha256_hash (hkdf_getPasswordToken (scrypt_hash tempPassword ps) pts))]>
                 user)]> (users w)) w,
     inr match sendEmail (user !! "email") (app !! "app-name") (user !! "username")
                 tempPassword with
         | Some e => forgotPassword_catch e
         | None => responseBuilder.successResponse tt
         end).
Proof.
  intros Hd Hk Hw [uid Huid] Happ Hps Hpts.
  destruct (users_key_attrs _ _ _ Hk) as [Ha Hu].
  unfold forgotPassword. rewrite try_catch_run, bind_run.
  rewrite bool_decide_eq_true_2 by done. cbn [negb].
  unfold mret at 1, M_ret at 1. rewrite bind_run.
  unfold _generateTempPasswordToken. rewrite Hps, Hpts.
  unfold mret at 1, M_ret at 1. rewrite bind_run.
  unfold _setTempPasswordToken.
  erewrite users_update_lands; [| | | | | |].
  - destruct (sendEmail _ _ _ _) as [e|]; [|reflexivity].
    unfold throw, forgotPassword_catch. by destruct (status_and_error e) as [[? ?]|].
  - done.
  - cbn [Key conditionCheckUserExists]. unfold users_key. rewrite !obj_lookup. cbn.
    by rewrite Hu, Happ.
  - cbn. rewrite Huid. by rewrite bool_decide_eq_true_2 by eauto.
  - done.
  - rewrite Hw. cbn. rewrite Huid, Hu. rewrite !bool_decide_eq_true_2 by eauto. done.
  - by rewrite Hw.
Qed.

(** X17: after [forgotPassword] succeeds, only the item of the user has
    changed, and a sign-in with the token derived from the temporary
    password and the two salts of the user succeeds for 24 hours from the
    call, flagged as made with a temporary password and without the
    password-based backup; after that it is answered 401 'Invalid password'.
    The user is neither locked out nor deleted. *)
Theorem forgotPassword_then_signIn (forgotPasswordToken tempPassword ps pts a n : string)
    (now : Z) (user app : item) (w : world) (uid : attr) (permanent : string) :
  let token := hkdf_getPasswordToken (scrypt_hash tempPassword ps) pts in
  ddb_down w = None →
  users_key user = Some (a, n) →
  users w !! (a, n) = Some user →
  user !! "user-id" = Some uid →
  app !! "app-id" = Some (AStr a) →
  user !! "password-salt" = Some (AStr ps) →
  user !! "password-token-salt" = Some (AStr pts) →
  sendEmail (user !! "email") (app !! "app-name") (user !! "username") tempPassword = None →
  num_ge (user !! "incorrect-password-attempts-in-a-row") MAX_INCORRECT_PASSWORD_GUESSES
    = false →
  user !! "password-token" = Some (ABin permanent) →
  permanent ≠ sha256_hash token →
  truthy (user !! "deleted") = false →
  ∃ w',
    forgotPassword forgotPasswordToken (Some (base64 forgotPasswordToken)) user app
      tempPassword now w
    = (w', inr (responseBuilder.successResponse tt))
    ∧ sessions w' = sessions w
    ∧ (∀ k, k ≠ (a, n) → users w' !! k = users w !! k)
    ∧ ∀ req rnd now' username,
        signIn_reaches_check req a username token →
        toLowerCase username = n →
        (now' - now ≤ MS_IN_A_DAY →
           ∃ w'' r,
             signIn req rnd now' w'
             = (w'', inr {| res_status := None; res_body := PSignedIn r |})
             ∧ r_userId r = Some uid
             ∧ r_usedTempPassword r = Some true
             ∧ r_passwordBasedBackup r = None)
        ∧ (MS_IN_A_DAY < now' - now →
             snd (signIn req rnd now' w')
             = inr {| res_status := Some Unauthorized; res_body := PText "Invalid password" |}).
Proof.
  intros token Hd Hk Hw Huid Happ Hps Hpts Hmail Hcount Hpw Hne Hlive.
  rewrite (forgotPassword_run _ _ ps pts a n) by eauto. rewrite Hmail.
  eexists. split; [reflexivity|]. cbn [sessions users set_users].
  split; [done|]. split; [intros k Hkne; by rewrite lookup_insert_ne|].
  intros req rnd now' username Hreach Hlow.
  set (stored' := <["temp-password-creation-date" := ADate now]>
                    (<["temp-password-token" := ABin (sha256_hash token)]> user)).
  destruct (signIn_temp_password req rnd now' now
              (set_users (<[(a, n) := stored']> (users w)) w)
              a username token permanent stored' Hreach) as [Hin Hout]; try done.
  - rewrite Hlow. apply lookup_insert_eq.
  - unfold stored'. by rewrite !lookup_insert_ne.
  - unfold stored'. by rewrite !lookup_insert_ne.
  - unfold stored'. rewrite lookup_insert_ne by done. apply lookup_insert_eq.
  - unfold stored'. apply lookup_insert_eq.
  - unfold stored'. by rewrite !lookup_insert_ne.
  - split; [|exact Hout].
    intros Hage. destruct (Hin Hage) as (w'' & r & Hrun & Hr & Hflag & Hbackup).
    exists w'', r. split; [exact Hrun|]. split; [|done].
    rewrite Hr. unfold stored'. by rewrite !lookup_insert_ne.
Qed.

(** X18: the temporary password is written before the mail is sent: when the
    mailer rejects, the answer is an error response, yet the hash of the
    derived token and its date are on the stored item. *)
Theorem forgotPassword_mail_failure (forgotPasswordToken tempPassword ps pts a n : string)
    (now : Z) (user app : item) (w : world) (e : exn) :
  ddb_down w = None →
  users_key user = Some (a, n) →
  users w !! (a, n) = Some user →
  is_Some (user !! "user-id") →
  app !! "app-id" = Some (AStr a) →
  user !! "password-salt" = Some (AStr ps) →
  user !! "password-token-salt" = Some (AStr pts) →
  sendEmail (user !! "email") (app !! "app-name") (user !! "username") tempPassword = Some e →
  ∃ w' stored' status error,
    forgotPassword forgotPasswordToken (Some (base64 forgotPasswordToken)) user app
      tempPassword now w
    = (w', inr (responseBuilder.errorResponse status error))
    ∧ users w' !! (a, n) = Some stored'
    ∧ stored' !! "temp-password-token"
      = Some (ABin (sha256_hash (hkdf_getPasswordToken (scrypt_hash tempPassword ps) pts)))
    ∧ stored' !! "temp-password-creation-date" = Some (ADate now).
Proof.
  intros Hd Hk Hw Huid Happ Hps Hpts Hmail.
  rewrite (forgotPassword_run _ _ ps pts a n) by eauto. rewrite Hmail.
  assert (∃ status error, forgotPassword_catch e = responseBuilder.errorResponse status error)
    as (status & error & ->).
  { unfold forgotPassword_catch. destruct (status_and_error e) as [[? ?]|]; eauto. }
  eexists _, _, status, error. split; [reflexivity|]. cbn [users set_users].
  split; [apply lookup_insert_eq|].
  split; [|apply lookup_insert_eq].
  rewrite lookup_insert_ne by done. apply lookup_insert_eq.
Qed.

End ForgottenPasswordProofs.

Lemma forgotPassword_then_signIn_witness :
  ∃ w',
    @forgotPassword (Sample.imports true) Examples.recovery "fpt" (Some "fpt")
      (Sample.alice Examples.reachable) Sample.app "tmp-pw" 1000
      (Sample.alice_world Examples.reachable)
    = (w', inr (responseBuilder.successResponse tt))
    ∧ ∃ w'' r,
        @signIn (Sample.imports true) (Sample.sign_in_request "hkdf:scrypt:tmp-pw:s1:s2")
          (Sample.draw "3") (1000 + MS_IN_A_DAY) w'
        = (w'', inr {| res_status := None; res_body := PSignedIn r |})
        ∧ r_usedTempPassword r = Some true.
Proof.
  assert (@signIn_reaches_check (Sample.imports true)
            (Sample.sign_in_request "hkdf:scrypt:tmp-pw:s1:s2")
            "app-1" "Alice" "hkdf:scrypt:tmp-pw:s1:s2") as Hreach.
  { repeat split; try done. exists Sample.app, Sample.admin. repeat split. }
  destruct (@forgotPassword_then_signIn (Sample.imports true) Examples.recovery "fpt" "tmp-pw"
              "s1" "s2" "app-1" "alice" 1000 (Sample.alice Examples.reachable) Sample.app
              (Sample.alice_world Examples.reachable) (AStr "user-1") "sha256:pw")
    as (w' & Hrun & _ & _ & Hsign).
  - reflexivity.
  - reflexivity.
  - reflexivity.
  - reflexivity.
  - reflexivity.
  - reflexivity.
  - reflexivity.
  - reflexivity.
  - reflexivity.
  - reflexivity.
  - discriminate.
  - reflexivity.
  - exists w'. split; [exact Hrun|].
    destruct (Hsign (Sample.sign_in_request "hkdf:scrypt:tmp-pw:s1:s2") (Sample.draw "3")
                (1000 + MS_IN_A_DAY) "Alice" Hreach eq_refl) as [Hin _].
    destruct Hin as (w'' & r & Hr & _ & Hflag & _).
    + lia.
    + exists w'', r. split; [exact Hr|exact Hflag].
Defined.

Lemma forgotPassword_mail_failure_witness :
  ∃ w' stored' status error,
    @forgotPassword (Sample.imports true) Examples.no_mail "fpt" (Some "fpt")
      (Sample.alice Examples.reachable) Sample.app "tmp-pw" 1000
      (Sample.alice_world Examples.reachable)
    = (w', inr (responseBuilder.errorResponse status error))
    ∧ users w' !! ("app-1", "alice") = Some stored'
    ∧ stored' !! "temp-password-token" = Some (ABin "sha256:hkdf:scrypt:tmp-pw:s1:s2")
    ∧ stored' !! "temp-password-creation-date" = Some (ADate 1000).
Proof.
  apply (@forgotPassword_mail_failure (Sample.imports true) Examples.no_mail "fpt" "tmp-pw"
           "s1" "s2" "app-1" "alice" 1000 (Sample.alice Examples.reachable) Sample.app
           (Sample.alice_world Examples.reachable) (Error "the mailer is down")).
  - reflexivity.
  - reflexivity.
  - reflexivity.
  - eexists. reflexivity.
  - reflexivity.
  - reflexivity.
  - reflexivity.
  - reflexivity.
Defined.
